(** * The document preprocessing pipeline of [preprocess_pipeline.py]

    A shallow embedding of the pipeline: the text helpers of Python that
    the code leans on ([str.strip], [str.endswith], [str.rfind],
    [os.path.basename], [PurePath.suffix]/[stem]), the five extractors
    over the decoded documents the external libraries hand back, the
    dictionaries the records are made of (kept in a store, since
    [enrich_with_metadata] mutates them in place), [json.dump] and
    [json.load] on those records, and the folder driver with its
    per-file [try]/[except].

    Conventions.
    - A Python [str] is a list of code points ([N]); [py "..."] turns a
      literal into one.
    - An exception is a value of [exn]; a call that may raise returns a
      [result].
    - The values are [None], strings and references to dictionaries
      with string keys, which is all the records of the pipeline are
      made of; spreadsheet cells only ever reach [str()].
    - Paths are POSIX paths ([os.path] is [posixpath]); [PurePath.suffix]
      and [stem] are those of Python 3.8 to 3.13.
    - [print] is taken not to fail, and the text of a file stands for
      its UTF-8 bytes. *)

From Stdlib Require Import NArith ZArith List Ascii String Lia DecimalString.
From stdpp Require Import base tactics option list numbers strings.

Local Open Scope N_scope.

(** ** Strings *)

Definition pystr := list N.

Definition py (s : string) : pystr :=
  map N_of_ascii (list_ascii_of_string s).

(** The same, with every apostrophe of the literal standing for a
    double quote. *)
Definition pyq (s : string) : pystr :=
  map (fun c => if c =? 39 then 34 else c) (py s).

(** The characters [str.strip()] removes: those for which [str.isspace]
    holds. *)
Definition is_space (c : N) : bool :=
  ((9 <=? c) && (c <=? 13)) || ((28 <=? c) && (c <=? 32))
  || (c =? 133) || (c =? 160) || (c =? 5760)
  || ((8192 <=? c) && (c <=? 8202))
  || (c =? 8232) || (c =? 8233) || (c =? 8239) || (c =? 8287)
  || (c =? 12288).

Fixpoint drop_while {A} (f : A → bool) (l : list A) : list A :=
  match l with
  | [] => []
  | x :: r => if f x then drop_while f r else l
  end.

Definition lstrip (s : pystr) : pystr := drop_while is_space s.
Definition rstrip (s : pystr) : pystr := rev (drop_while is_space (rev s)).

(** [s.strip()] *)
Definition strip (s : pystr) : pystr := rstrip (lstrip s).

(** [s.endswith(suf)] *)
Definition endswith (s suf : pystr) : bool :=
  (length suf <=? length s)%nat
  && bool_decide (drop (length s - length suf) s = suf).

(** [sep.join(parts)] *)
Fixpoint join (sep : pystr) (parts : list pystr) : pystr :=
  match parts with
  | [] => []
  | [p] => p
  | p :: rest => p ++ sep ++ join sep rest
  end.

(** [s.rfind(c)] for a one-character needle: the highest index of [c]
    in [s], or [-1]. *)
Fixpoint rfind_from (c : N) (s : pystr) (i acc : Z) : Z :=
  match s with
  | [] => acc
  | x :: r => rfind_from c r (i + 1)%Z (if x =? c then i else acc)
  end.

Definition rfind (c : N) (s : pystr) : Z := rfind_from c s 0%Z (-1)%Z.

Definition slash : N := 47.
Definition dot : N := 46.
Definition newline : N := 10.

(** [posixpath.basename]: [i = p.rfind('/') + 1; return p[i:]]. *)
Definition basename (p : pystr) : pystr :=
  drop (Z.to_nat (rfind slash p + 1)) p.

(** [PurePath.suffix] of a final path component:
    [i = name.rfind('.')], and [name[i:]] when [0 < i < len(name) - 1],
    else the empty string. *)
Definition suffix_of_name (name : pystr) : pystr :=
  let i := rfind dot name in
  if ((0 <? i) && (i <? Z.of_nat (length name) - 1))%Z
  then drop (Z.to_nat i) name else [].

(** [PurePath.stem]: what is left of the name before the suffix. *)
Definition stem_of_name (name : pystr) : pystr :=
  let i := rfind dot name in
  if ((0 <? i) && (i <? Z.of_nat (length name) - 1))%Z
  then take (Z.to_nat i) name else name.

(** ** Exceptions and results *)

(** The exceptions that can reach the pipeline.  All of them derive from
    [Exception], so the [except Exception] of the folder driver catches
    every one. *)
Inductive exn :=
| ValueError (msg : pystr)
| KeyError (key : pystr)
| TypeError (msg : pystr)
| UnicodeDecodeError
| UnicodeEncodeError
| JSONDecodeError (msg : pystr)
| RecursionError
| OSError (msg : pystr)
| DecoderError (msg : pystr).

Inductive result (A : Type) :=
| Ok (a : A)
| Raise (e : exn).
Arguments Ok {A} a.
Arguments Raise {A} e.

Definition bind {A B} (m : result A) (k : A → result B) : result B :=
  match m with
  | Ok a => k a
  | Raise e => Raise e
  end.

Declare Scope result_scope.
Notation "'let*' x ':=' m 'in' k" := (bind m (fun x => k))
  (at level 10, x pattern, m at level 100, k at level 200) : result_scope.
Delimit Scope result_scope with result.
Local Open Scope result_scope.

(** ** Dictionaries

    A [dict] keeps its keys in insertion order; assigning to a key that
    is present replaces the value where it stands, assigning to a new
    key appends. *)

Section Dict.
Context {V : Type}.

Fixpoint dict_get (k : pystr) (d : list (pystr * V)) : option V :=
  match d with
  | [] => None
  | (k', v) :: r => if bool_decide (k' = k) then Some v else dict_get k r
  end.

Fixpoint dict_set (k : pystr) (v : V) (d : list (pystr * V))
  : list (pystr * V) :=
  match d with
  | [] => [(k, v)]
  | (k', v') :: r =>
      if bool_decide (k' = k) then (k, v) :: r
      else (k', v') :: dict_set k v r
  end.

(** [dict(pairs)] *)
Definition dict_of_pairs (pairs : list (pystr * V)) : list (pystr * V) :=
  fold_left (fun d kv => dict_set kv.1 kv.2 d) pairs [].
End Dict.

(** ** Values and the store

    The values the pipeline handles: [None], strings, and references to
    dictionaries.  Dictionaries are mutable and shared by reference, so
    they live in a store indexed by location; a new dictionary takes the
    next free location. *)

Abbreviation loc := nat.

Inductive val :=
| VNone
| VStr (s : pystr)
| VRef (l : loc).

#[global] Instance val_eq_dec : EqDecision val.
Proof. solve_decision. Defined.

Abbreviation dict := (list (pystr * val)).
Abbreviation heap := (list (list (pystr * val))).

Definition alloc (h : heap) (d : dict) : heap * val :=
  (h ++ [d], VRef (length h)).

(** [bool(v)] *)
Definition truthy (h : heap) (v : val) : bool :=
  match v with
  | VNone => false
  | VStr s => negb (bool_decide (s = []))
  | VRef l => match h !! l with Some [] => false | _ => true end
  end.

(** [v[k]] *)
Definition getitem (h : heap) (v : val) (k : pystr) : result val :=
  match v with
  | VRef l =>
      match h !! l with
      | Some d => match dict_get k d with
                  | Some x => Ok x
                  | None => Raise (KeyError k)
                  end
      | None => Raise (TypeError (py "dangling reference"))
      end
  | VStr _ => Raise (TypeError (py "string indices must be integers"))
  | VNone => Raise (TypeError (py "'NoneType' object is not subscriptable"))
  end.

(** [v[k] = x] *)
Definition setitem (h : heap) (v : val) (k : pystr) (x : val) : result heap :=
  match v with
  | VRef l =>
      match h !! l with
      | Some d => Ok (<[l := dict_set k x d]> h)
      | None => Raise (TypeError (py "dangling reference"))
      end
  | VStr _ =>
      Raise (TypeError (py "'str' object does not support item assignment"))
  | VNone =>
      Raise (TypeError (py "'NoneType' object does not support item assignment"))
  end.

(** ** The decoded documents

    The format libraries are outside the repository; the pipeline sees
    only what they return.  [library] gathers, per path, the outcome of
    opening the file with each of them. *)

Inductive cell :=
| CInt (z : Z)
| CFloat (bits : N)
| CText (s : pystr)
| CBool (b : bool).

#[global] Instance cell_eq_dec : EqDecision cell.
Proof. solve_decision. Defined.

(** A [pandas.DataFrame]: column labels and rows of cells. *)
Record dataframe := {
  df_columns : list pystr;
  df_rows : list (list cell)
}.

Definition row := list (pystr * cell).
Definition tables := list (pystr * list row).

(** [ebooklib.ITEM_DOCUMENT] *)
Definition ITEM_DOCUMENT : N := 9.

Record library := {
  (** [pdfplumber.open(path)], then [page.extract_text()] of each page
      in order: a string, or [None] for a page without text. *)
  pdf_pages : pystr → result (list (option pystr));
  (** [Document(path).paragraphs], the [text] of each. *)
  docx_paragraphs : pystr → result (list pystr);
  (** [pd.read_excel(path, sheet_name=None)]: sheet name to frame. *)
  read_excel : pystr → result (list (pystr * dataframe));
  (** [Presentation(path).slides], the shapes of each slide; a shape is
      its [text] when it has that attribute. *)
  pptx_slides : pystr → result (list (list (option pystr)));
  (** [epub.read_epub(path).get_items()]: type and raw content. *)
  epub_items : pystr → result (list (N * list N));
  (** [str(tables)] *)
  str_of_tables : tables → pystr
}.

(** [bytes.decode('utf-8')], strict. *)
Definition is_cont (b : N) : bool := (128 <=? b) && (b <=? 191).
Definition in_range (lo hi b : N) : bool := (lo <=? b) && (b <=? hi).

Fixpoint utf8_decode (bs : list N) : result pystr :=
  match bs with
  | [] => Ok []
  | b0 :: r0 =>
      if b0 <? 128 then let* t := utf8_decode r0 in Ok (b0 :: t)
      else if in_range 194 223 b0 then
        match r0 with
        | b1 :: r1 =>
            if is_cont b1
            then let* t := utf8_decode r1 in Ok ((b0 - 192) * 64 + (b1 - 128) :: t)
            else Raise UnicodeDecodeError
        | _ => Raise UnicodeDecodeError
        end
      else if in_range 224 239 b0 then
        match r0 with
        | b1 :: b2 :: r2 =>
            if in_range (if b0 =? 224 then 160 else 128)
                        (if b0 =? 237 then 159 else 191) b1
               && is_cont b2
            then let* t := utf8_decode r2 in
                 Ok ((b0 - 224) * 4096 + (b1 - 128) * 64 + (b2 - 128) :: t)
            else Raise UnicodeDecodeError
        | _ => Raise UnicodeDecodeError
        end
      else if in_range 240 244 b0 then
        match r0 with
        | b1 :: b2 :: b3 :: r3 =>
            if in_range (if b0 =? 240 then 144 else 128)
                        (if b0 =? 244 then 143 else 191) b1
               && is_cont b2 && is_cont b3
            then let* t := utf8_decode r3 in
                 Ok ((b0 - 240) * 262144 + (b1 - 128) * 4096
                     + (b2 - 128) * 64 + (b3 - 128) :: t)
            else Raise UnicodeDecodeError
        | _ => Raise UnicodeDecodeError
        end
      else Raise UnicodeDecodeError
  end.

(** [DataFrame.to_dict(orient='records')]: one dictionary per row,
    column label to cell. *)
Definition to_dict_records (df : dataframe) : list row :=
  map (fun r => dict_of_pairs (zip (df_columns df) r)) (df_rows df).

(** ** The extractors *)

Section Extractors.
Variable L : library.

Definition extract_text_from_pdf (pdf_path : pystr) : result pystr :=
  let* pages := pdf_pages L pdf_path in
  Ok (strip (fold_left
               (fun text page_text =>
                  match page_text with
                  | Some t => if negb (bool_decide (t = []))
                              then text ++ t else text
                  | None => text
                  end) pages [])).

Definition extract_text_from_docx (docx_path : pystr) : result pystr :=
  let* paragraphs := docx_paragraphs L docx_path in
  Ok (strip (join (py " ") paragraphs)).

Definition extract_tables_from_excel (excel_path : pystr) : result tables :=
  let* excel_data := read_excel L excel_path in
  Ok (fold_left
        (fun acc item => dict_set item.1 (to_dict_records item.2) acc)
        excel_data []).

Definition extract_text_from_ppt (ppt_path : pystr) : result pystr :=
  let* slides := pptx_slides L ppt_path in
  Ok (strip (fold_left
               (fun text slide =>
                  fold_left
                    (fun text shape =>
                       match shape with
                       | Some t => text ++ t ++ [newline]
                       | None => text
                       end) slide text) slides [])).

Fixpoint epub_concat (items : list (N * list N)) (text : pystr)
  : result pystr :=
  match items with
  | [] => Ok text
  | (ty, content) :: rest =>
      if ty =? ITEM_DOCUMENT
      then let* t := utf8_decode content in epub_concat rest (text ++ t)
      else epub_concat rest text
  end.

Definition extract_text_from_epub (epub_path : pystr) : result pystr :=
  let* items := epub_items L epub_path in
  let* text := epub_concat items [] in
  Ok (strip text).

(** ** Normalisation and enrichment *)

Definition normalize_to_json (h : heap) (file_type content metadata : val)
  : heap * val :=
  alloc h [(py "file_type", file_type);
           (py "content", content);
           (py "metadata", metadata)].

(** One [if x: data["metadata"][key] = x] statement. *)
Definition enrich_field (h : heap) (data : val) (key : pystr) (x : val)
  : result heap :=
  if truthy h x
  then let* m := getitem h data (py "metadata") in setitem h m key x
  else Ok h.

Definition enrich_with_metadata (h : heap) (data author date source : val)
  : result (heap * val) :=
  let* h1 := enrich_field h data (py "author") author in
  let* h2 := enrich_field h1 data (py "date") date in
  let* h3 := enrich_field h2 data (py "source") source in
  Ok (h3, data).

(** ** The single-document pipeline *)

Definition preprocess_document (h : heap) (file_path : pystr)
  : result (heap * val) :=
  let* (text, file_type) :=
    (if endswith file_path (py ".pdf") then
       let* text := extract_text_from_pdf file_path in Ok (text, py "PDF")
     else if endswith file_path (py ".docx") then
       let* text := extract_text_from_docx file_path in Ok (text, py "Word")
     else if endswith file_path (py ".xlsx") then
       let* tables := extract_tables_from_excel file_path in
       Ok (str_of_tables L tables, py "Excel")
     else if endswith file_path (py ".pptx") then
       let* text := extract_text_from_ppt file_path in Ok (text, py "PowerPoint")
     else if endswith file_path (py ".epub") then
       let* text := extract_text_from_epub file_path in Ok (text, py "EPUB")
     else Raise (ValueError (py "Unsupported file type: " ++ file_path))) in
  let '(h1, metadata) :=
    alloc h [(py "author", VStr (py "Unknown"));
             (py "date", VStr (py "2023-10-01"));
             (py "source", VStr (basename file_path))] in
  Ok (normalize_to_json h1 (VStr file_type) (VStr text) metadata).
End Extractors.

(** ** [json.dump] and [json.load]

    [json.dump(obj, f, indent=4, ensure_ascii=False)] walks the object
    and writes the text chunk by chunk; [json.load] rebuilds a fresh
    object, modelled as a tree since nothing else refers to it. *)

Inductive json :=
| JNull
| JStr (s : pystr)
| JObj (members : list (pystr * json)).

Definition hex_digit (n : N) : N := if n <? 10 then 48 + n else 87 + n.

(** [ESCAPE_DCT] of [json.encoder]: the quote, the backslash and the
    control characters are escaped, every other character is written as
    it is. *)
Definition escape_char (c : N) : pystr :=
  if c =? 34 then [92; 34]
  else if c =? 92 then [92; 92]
  else if c =? 8 then [92; 98]
  else if c =? 12 then [92; 102]
  else if c =? 10 then [92; 110]
  else if c =? 13 then [92; 114]
  else if c =? 9 then [92; 116]
  else if c <? 32 then [92; 117; 48; 48; hex_digit (c / 16); hex_digit (c mod 16)]
  else [c].

(** [encode_basestring] *)
Definition encode_basestring (s : pystr) : pystr :=
  34 :: flat_map escape_char s ++ [34].

(** ['\n' + ' ' * (4 * level)] *)
Definition newline_indent (level : nat) : pystr :=
  newline :: repeat 32 (4 * level).

(** What a generator has yielded, and the exception that ended it, if
    one did. *)
Definition chunks := (list pystr * option exn)%type.

Definition then_ (a b : chunks) : chunks :=
  match a with
  | (c, None) => (c ++ b.1, b.2)
  | (c, Some e) => (c, Some e)
  end.

Fixpoint iterencode_items (enc : val → chunks) (item_separator : pystr)
    (items : dict) (first : bool) : chunks :=
  match items with
  | [] => ([], None)
  | (key, value) :: rest =>
      then_ ((if first then [] else [item_separator])
               ++ [encode_basestring key; py ": "], None)
            (then_ (enc value)
                   (iterencode_items enc item_separator rest false))
  end.

(** [_iterencode] with [markers] for the circular-reference check. *)
Fixpoint iterencode (fuel : nat) (h : heap) (markers : list loc) (o : val)
    (level : nat) : chunks :=
  match o with
  | VStr s => ([encode_basestring s], None)
  | VNone => ([py "null"], None)
  | VRef l =>
      match h !! l with
      | None => ([], Some (TypeError (py "dangling reference")))
      | Some [] => ([py "{}"], None)
      | Some dct =>
          if bool_decide (l ∈ markers)
          then ([], Some (ValueError (py "Circular reference detected")))
          else
            match fuel with
            | O => ([], Some RecursionError)
            | S f =>
                then_ ([py "{"; newline_indent (S level)], None)
                  (then_ (iterencode_items
                            (fun v => iterencode f h (l :: markers) v (S level))
                            (44 :: newline_indent (S level)) dct true)
                         ([newline_indent level; py "}"], None))
            end
      end
  end.

(** A text file opened with [encoding='utf-8'] refuses surrogates. *)
Definition encodable (c : N) : bool := negb (in_range 55296 57343 c).

Fixpoint write_chunks (cs : list pystr) (written : pystr)
  : pystr * option exn :=
  match cs with
  | [] => (written, None)
  | c :: rest =>
      if forallb encodable c then write_chunks rest (written ++ c)
      else (written, Some UnicodeEncodeError)
  end.

(** [json.dump(o, f, indent=4, ensure_ascii=False)] on a freshly opened
    file: the text that reached the file, and the exception raised, if
    any. *)
Definition json_dump (h : heap) (o : val) : pystr * option exn :=
  let '(cs, e) := iterencode (S (length h)) h [] o 0 in
  match write_chunks cs [] with
  | (w, Some e') => (w, Some e')
  | (w, None) => (w, e)
  end.

Definition is_json_ws (c : N) : bool :=
  (c =? 32) || (c =? 9) || (c =? 10) || (c =? 13).

Definition skip_ws (s : pystr) : pystr := drop_while is_json_ws s.

Definition hex_val (c : N) : option N :=
  if in_range 48 57 c then Some (c - 48)
  else if in_range 97 102 c then Some (c - 87)
  else if in_range 65 70 c then Some (c - 55)
  else None.

Definition decode_uXXXX (a b c d : N) : option N :=
  match hex_val a, hex_val b, hex_val c, hex_val d with
  | Some x, Some y, Some z, Some w => Some (((x * 16 + y) * 16 + z) * 16 + w)
  | _, _, _, _ => None
  end.

(** [BACKSLASH] of [json.decoder] *)
Definition backslash (e : N) : option N :=
  if e =? 34 then Some 34
  else if e =? 92 then Some 92
  else if e =? 47 then Some 47
  else if e =? 98 then Some 8
  else if e =? 102 then Some 12
  else if e =? 110 then Some 10
  else if e =? 114 then Some 13
  else if e =? 116 then Some 9
  else None.

Definition push (c : N) (t : result (pystr * pystr)) : result (pystr * pystr) :=
  let* (str, rest) := t in Ok (c :: str, rest).

(** [scanstring], strict, from just after the opening quote: the string
    and what follows its closing quote. *)
Fixpoint scanstring (s : pystr) : result (pystr * pystr) :=
  match s with
  | [] => Raise (JSONDecodeError (py "Unterminated string starting at"))
  | c :: r =>
      if c =? 34 then Ok ([], r)
      else if c =? 92 then
        match r with
        | [] => Raise (JSONDecodeError (py "Unterminated string starting at"))
        | e :: r1 =>
            if e =? 117 then
              match r1 with
              | a :: b :: c' :: d :: r2 =>
                  match decode_uXXXX a b c' d with
                  | None => Raise (JSONDecodeError (py "Invalid \uXXXX escape"))
                  | Some uni =>
                      if in_range 55296 56319 uni then
                        match r2 with
                        | x :: y :: r3 =>
                            if (x =? 92) && (y =? 117) then
                              match r3 with
                              | a2 :: b2 :: c2 :: d2 :: r4 =>
                                  match decode_uXXXX a2 b2 c2 d2 with
                                  | None =>
                                      Raise (JSONDecodeError
                                               (py "Invalid \uXXXX escape"))
                                  | Some uni2 =>
                                      if in_range 56320 57343 uni2
                                      then push (65536 + (uni - 55296) * 1024
                                                 + (uni2 - 56320))
                                                (scanstring r4)
                                      else push uni (scanstring r2)
                                  end
                              | _ => Raise (JSONDecodeError
                                              (py "Invalid \uXXXX escape"))
                              end
                            else push uni (scanstring r2)
                        | _ => push uni (scanstring r2)
                        end
                      else push uni (scanstring r2)
                  end
              | _ => Raise (JSONDecodeError (py "Invalid \uXXXX escape"))
              end
            else
              match backslash e with
              | Some ch => push ch (scanstring r1)
              | None => Raise (JSONDecodeError (py "Invalid \escape"))
              end
        end
      else if c <? 32 then
        Raise (JSONDecodeError (py "Invalid control character at"))
      else push c (scanstring r)
  end.

(** [scan_once] and the member loop of [JSONObject].  Objects, strings
    and [null] are what [json.dump] writes for the values of this
    model; arrays, numbers and booleans are not part of it and are
    refused like any other unexpected character. *)
Fixpoint scan_once (fuel : nat) (s : pystr) : result (json * pystr) :=
  match fuel with
  | O => Raise RecursionError
  | S f =>
      match s with
      | [] => Raise (JSONDecodeError (py "Expecting value"))
      | c :: r =>
          if c =? 34 then
            let* (str, r') := scanstring r in Ok (JStr str, r')
          else if c =? 123 then
            match skip_ws r with
            | c1 :: r1 =>
                if c1 =? 125 then Ok (JObj [], r1)
                else if c1 =? 34 then
                  let* (pairs, r') := scan_members f r1 in
                  Ok (JObj (dict_of_pairs pairs), r')
                else Raise (JSONDecodeError
                  (py "Expecting property name enclosed in double quotes"))
            | [] => Raise (JSONDecodeError
                  (py "Expecting property name enclosed in double quotes"))
            end
          else if c =? 110 then
            match r with
            | u :: l1 :: l2 :: r' =>
                if (u =? 117) && (l1 =? 108) && (l2 =? 108)
                then Ok (JNull, r')
                else Raise (JSONDecodeError (py "Expecting value"))
            | _ => Raise (JSONDecodeError (py "Expecting value"))
            end
          else Raise (JSONDecodeError (py "Expecting value"))
      end
  end
with scan_members (fuel : nat) (s : pystr)
  : result (list (pystr * json) * pystr) :=
  match fuel with
  | O => Raise RecursionError
  | S f =>
      let* (key, r) := scanstring s in
      match skip_ws r with
      | c :: r1 =>
          if c =? 58 then
            let* (value, r2) := scan_once f (skip_ws r1) in
            match skip_ws r2 with
            | c2 :: r3 =>
                if c2 =? 125 then Ok ([(key, value)], r3)
                else if c2 =? 44 then
                  match skip_ws r3 with
                  | c3 :: r4 =>
                      if c3 =? 34 then
                        let* (pairs, r') := scan_members f r4 in
                        Ok ((key, value) :: pairs, r')
                      else Raise (JSONDecodeError
                        (py "Expecting property name enclosed in double quotes"))
                  | [] => Raise (JSONDecodeError
                        (py "Expecting property name enclosed in double quotes"))
                  end
                else Raise (JSONDecodeError (py "Expecting ',' delimiter"))
            | [] => Raise (JSONDecodeError (py "Expecting ',' delimiter"))
            end
          else Raise (JSONDecodeError (py "Expecting ':' delimiter"))
      | [] => Raise (JSONDecodeError (py "Expecting ':' delimiter"))
      end
  end.

(** [json.loads]: one value, then nothing but white space. *)
Definition json_loads (s : pystr) : result json :=
  let* (v, r) := scan_once (S (length s)) (skip_ws s) in
  match skip_ws r with
  | [] => Ok v
  | _ => Raise (JSONDecodeError (py "Extra data"))
  end.

(** ** The folder driver *)

Record dir_entry := {
  entry_name : pystr;      (** [file.name] *)
  entry_is_file : bool     (** [file.is_file()] *)
}.

(** The file system as the driver meets it: whether the output folder
    can be made, what the input folder lists, whether a file can be
    opened for writing.  The folder arguments are path strings as
    [str(Path(...))] gives them. *)
Record filesystem := {
  mkdir_exist_ok : pystr → result unit;
  iterdir : pystr → result (list dir_entry);
  open_w : pystr → result unit
}.

(** [str(Path(d) / name)] for a one-component [name]. *)
Definition path_join (d name : pystr) : pystr :=
  if bool_decide (d = py ".") then name
  else if endswith d [slash] then d ++ name
  else d ++ [slash] ++ name.

Inductive log_line :=
| LogProcessing (name : pystr)
| LogSaved (output_file : pystr)
| LogError (name : pystr) (e : exn).

(** What a run changes: the store, the files written (path to text) and
    the lines printed. *)
Record state := {
  st_heap : heap;
  st_files : list (pystr * pystr);
  st_log : list log_line
}.

Definition print (l : log_line) (st : state) : state :=
  {| st_heap := st_heap st; st_files := st_files st;
     st_log := st_log st ++ [l] |}.

Definition extensions : list pystr :=
  [py ".pdf"; py ".docx"; py ".xlsx"; py ".pptx"; py ".epub"].

Section Folder.
Variable L : library.
Variable F : filesystem.

(** The body of the [try]: final state, and the exception that left
    it, if one did. *)
Definition try_body (folder_path output_folder name : pystr) (st : state)
  : state * option exn :=
  let st1 := print (LogProcessing name) st in
  match preprocess_document L (st_heap st1) (path_join folder_path name) with
  | Raise e => (st1, Some e)
  | Ok (h', result) =>
      let st2 := {| st_heap := h'; st_files := st_files st1;
                    st_log := st_log st1 |} in
      let output_file :=
        path_join output_folder (stem_of_name name ++ py "_normalized.json") in
      match open_w F output_file with
      | Raise e => (st2, Some e)
      | Ok _ =>
          let '(text, err) := json_dump h' result in
          let st3 := {| st_heap := h';
                        st_files := dict_set output_file text (st_files st2);
                        st_log := st_log st2 |} in
          match err with
          | Some e => (st3, Some e)
          | None => (print (LogSaved output_file) st3, None)
          end
      end
  end.

(** One turn of the [for] loop. *)
Definition process_entry (folder_path output_folder : pystr)
    (acc : state * list pystr) (file : dir_entry) : state * list pystr :=
  let '(st, processed_files) := acc in
  if entry_is_file file
     && bool_decide (suffix_of_name (entry_name file) ∈ extensions)
  then
    match try_body folder_path output_folder (entry_name file) st with
    | (st', None) => (st', processed_files ++ [entry_name file])
    | (st', Some e) =>
        (print (LogError (entry_name file) e) st', processed_files)
    end
  else acc.

Definition process_folder (st : state) (folder_path output_folder : pystr)
  : state * result (list pystr) :=
  match mkdir_exist_ok F output_folder with
  | Raise e => (st, Raise e)
  | Ok _ =>
      match iterdir F folder_path with
      | Raise e => (st, Raise e)
      | Ok entries =>
          let '(st', processed_files) :=
            fold_left (process_entry folder_path output_folder)
                      entries (st, []) in
          (st', Ok processed_files)
      end
  end.
End Folder.

(** ** Vocabulary of the specification *)

(** The five formats, with the suffix, the [file_type] label and the
    extractor of each. *)
Inductive format := PDF | Word | Excel | PowerPoint | EPUB.

Definition format_suffix (f : format) : pystr :=
  match f with
  | PDF => py ".pdf" | Word => py ".docx" | Excel => py ".xlsx"
  | PowerPoint => py ".pptx" | EPUB => py ".epub"
  end.

Definition format_label (f : format) : pystr :=
  match f with
  | PDF => py "PDF" | Word => py "Word" | Excel => py "Excel"
  | PowerPoint => py "PowerPoint" | EPUB => py "EPUB"
  end.

Definition extract (L : library) (f : format) (path : pystr) : result pystr :=
  match f with
  | PDF => extract_text_from_pdf L path
  | Word => extract_text_from_docx L path
  | Excel => let* t := extract_tables_from_excel L path in Ok (str_of_tables L t)
  | PowerPoint => extract_text_from_ppt L path
  | EPUB => extract_text_from_epub L path
  end.

(** A string is trimmed when neither its first nor its last character
    is white space. *)
Definition trimmed (s : pystr) : Prop :=
  (∀ c r, s = c :: r → is_space c = false)
  ∧ (∀ r c, s = r ++ [c] → is_space c = false).

(** The record [preprocess_document] builds for [path] once the content
    is known, as the store holds it: the metadata dictionary at [m], the
    record at [r]. *)
Definition default_metadata (path : pystr) : dict :=
  [(py "author", VStr (py "Unknown"));
   (py "date", VStr (py "2023-10-01"));
   (py "source", VStr (basename path))].

Definition record_dict (file_type content metadata : val) : dict :=
  [(py "file_type", file_type); (py "content", content);
   (py "metadata", metadata)].

(** The record the single-document pipeline returns for a given
    content. *)
Definition built_record (h : heap) (path : pystr) (f : format) (text : pystr)
  : heap * val :=
  (h ++ [default_metadata path]
     ++ [record_dict (VStr (format_label f)) (VStr text) (VRef (length h))],
   VRef (S (length h))).

(** [reads h ms v t]: the value [v] of the store [h] is the tree [t],
    and no dictionary on the way down is one of [ms] or contains
    itself. *)
Inductive reads (h : heap) : list loc → val → json → Prop :=
| reads_none ms : reads h ms VNone JNull
| reads_str ms s : reads h ms (VStr s) (JStr s)
| reads_empty ms l : h !! l = Some [] → reads h ms (VRef l) (JObj [])
| reads_dict ms l d members :
    h !! l = Some d → d ≠ [] → l ∉ ms →
    Forall2 (fun kv kt => kv.1 = kt.1 ∧ reads h (l :: ms) kv.2 kt.2) d members →
    reads h ms (VRef l) (JObj members).

(** Every object of the tree has pairwise distinct keys, as every
    dictionary has. *)
Fixpoint all_values {V} (P : V → Prop) (ms : list (pystr * V)) : Prop :=
  match ms with
  | [] => True
  | (_, v) :: r => P v ∧ all_values P r
  end.

Fixpoint json_wf (t : json) : Prop :=
  match t with
  | JObj members => NoDup members.*1 ∧ all_values json_wf members
  | _ => True
  end.

(** Every character of the tree can be written to a UTF-8 file. *)
Fixpoint all_members {V} (f : V → bool) (ms : list (pystr * V)) : bool :=
  match ms with
  | [] => true
  | (k, v) :: r => forallb encodable k && f v && all_members f r
  end.

Fixpoint json_encodable (t : json) : bool :=
  match t with
  | JNull => true
  | JStr s => forallb encodable s
  | JObj members => all_members json_encodable members
  end.

Fixpoint max_values {V} (f : V → nat) (ms : list (pystr * V)) : nat :=
  match ms with
  | [] => 0%nat
  | (_, v) :: r => Nat.max (f v) (max_values f r)
  end.

(** How many dictionaries are nested in one another; the empty one is
    written without a recursive call. *)
Fixpoint dict_depth (t : json) : nat :=
  match t with
  | JObj [] => 0%nat
  | JObj members => S (max_values dict_depth members)
  | _ => 0%nat
  end.

Fixpoint sum_values {V} (f : V → nat) (ms : list (pystr * V)) : nat :=
  match ms with
  | [] => 0%nat
  | (_, v) :: r => S (f v + sum_values f r)
  end.

(** Number of values and members of a tree. *)
Fixpoint size (t : json) : nat :=
  match t with
  | JObj members => S (sum_values size members)
  | _ => 1%nat
  end.

(** The text [json.dump] writes for a tree at a nesting level. *)
Fixpoint encode_members (enc : json → pystr) (item_separator : pystr)
    (ms : list (pystr * json)) (first : bool) : pystr :=
  match ms with
  | [] => []
  | (k, v) :: r =>
      (if first then [] else item_separator)
      ++ encode_basestring k ++ py ": " ++ enc v
      ++ encode_members enc item_separator r false
  end.

Fixpoint encode_tree (level : nat) (t : json) : pystr :=
  match t with
  | JNull => py "null"
  | JStr s => encode_basestring s
  | JObj [] => py "{}"
  | JObj members =>
      py "{" ++ newline_indent (S level)
      ++ encode_members (encode_tree (S level))
                        (44 :: newline_indent (S level)) members true
      ++ newline_indent level ++ py "}"
  end.

(** The tree of the record [preprocess_document] builds. *)
Definition record_tree (path : pystr) (f : format) (text : pystr) : json :=
  JObj [(py "file_type", JStr (format_label f));
        (py "content", JStr text);
        (py "metadata",
         JObj [(py "author", JStr (py "Unknown"));
               (py "date", JStr (py "2023-10-01"));
               (py "source", JStr (basename path))])].

(** An optional string argument: [None] when omitted. *)
Definition opt_arg (o : option pystr) : val :=
  match o with
  | Some s => VStr s
  | None => VNone
  end.

(** The argument is there and is not the empty string. *)
Definition supplied (o : option pystr) : bool :=
  match o with
  | Some (_ :: _) => true
  | _ => false
  end.

(** The format whose suffix the path ends with. *)
Definition format_of (path : pystr) : option format :=
  find (fun f => endswith path (format_suffix f))
       [PDF; Word; Excel; PowerPoint; EPUB].

(** The entries the loop of [process_folder] takes up. *)
Definition selected (e : dir_entry) : bool :=
  entry_is_file e && bool_decide (suffix_of_name (entry_name e) ∈ extensions).

Definition input_path (folder_path name : pystr) : pystr :=
  path_join folder_path name.

Definition output_path (output_folder name : pystr) : pystr :=
  path_join output_folder (stem_of_name name ++ py "_normalized.json").

(** A file goes through: its content is extracted, the output file
    opens, and every character of the record can be written. *)
Definition file_ok (L : library) (F : filesystem)
    (folder_path output_folder name : pystr) : bool :=
  match format_of (input_path folder_path name) with
  | Some f =>
      match extract L f (input_path folder_path name) with
      | Ok text =>
          match open_w F (output_path output_folder name) with
          | Ok _ =>
              json_encodable
                (record_tree (input_path folder_path name) f text)
          | Raise _ => false
          end
      | Raise _ => false
      end
  | None => false
  end.

(** The effect of one guarded assignment on the metadata dictionary. *)
Definition assign_if (b : bool) (key : pystr) (x : val) (d : dict) : dict :=
  if b then dict_set key x d else d.

(** The text of the members of an object, from just after the opening
    quote of the first key to the closing brace. *)
Definition members_text (level : nat) (k : pystr) (v : json)
    (ms : list (pystr * json)) (rest : pystr) : pystr :=
  flat_map escape_char k ++ 34 :: py ": " ++ encode_tree (S level) v
  ++ encode_members (encode_tree (S level)) (44 :: newline_indent (S level))
       ms false
  ++ newline_indent level ++ 125 :: rest.

(** The names the driver collects, as a filter over the listing. *)
Definition processed (L : library) (F : filesystem)
    (folder_path output_folder : pystr) (e : dir_entry) : bool :=
  selected e && file_ok L F folder_path output_folder (entry_name e).

(** Metadata as the data model has it: every value is a string or
    [None]. *)
Definition is_scalar (v : val) : Prop :=
  match v with
  | VRef _ => False
  | _ => True
  end.

Definition scalar_tree (v : val) : json :=
  match v with
  | VStr s => JStr s
  | _ => JNull
  end.

Definition metadata_tree (md : dict) : json :=
  JObj (map (fun kv => (kv.1, scalar_tree kv.2)) md).

(** The dictionary comprehension of [extract_tables_from_excel] once
    sheet names are known to be distinct. *)
Definition tables_of (sheets : list (pystr * dataframe)) : tables :=
  map (fun s => (s.1, to_dict_records s.2)) sheets.

(** ** A small world to run the pipeline in *)

Definition demo_frame : dataframe :=
  {| df_columns := [py "A"; py "B"];
     df_rows := [[CInt 1; CInt 2]; [CInt 3; CInt 4]] |}.

Definition demo_tables : tables :=
  [(py "Sheet1",
    [[(py "A", CInt 1); (py "B", CInt 2)];
     [(py "A", CInt 3); (py "B", CInt 4)]])].

Definition no_such_file {A} : result A :=
  Raise (OSError (py "No such file or directory")).

Definition demo_library : library :=
  {| pdf_pages p :=
       if bool_decide (p = py "docs/a.pdf")
       then Ok [Some (py "  Hello "); None; Some (py "world ")]
       else if bool_decide (p = py "docs/broken.pdf")
       then Raise (DecoderError (py "No /Root object! - Is this really a PDF?"))
       else no_such_file;
     docx_paragraphs p :=
       if bool_decide (p = py "docs/b.docx")
       then Ok [py "Hello"; py "World"] else no_such_file;
     read_excel p :=
       if bool_decide (p = py "docs/c.xlsx")
       then Ok [(py "Sheet1", demo_frame)] else no_such_file;
     pptx_slides p :=
       if bool_decide (p = py "docs/d.pptx")
       then Ok [[Some (py "Title"); None]; [Some (py "Body")]]
       else no_such_file;
     epub_items p :=
       if bool_decide (p = py "docs/e.epub")
       then Ok [(ITEM_DOCUMENT, [60; 112; 62; 195; 169; 60; 47; 112; 62; 10]);
                (1, [255; 216])]
       else no_such_file;
     str_of_tables t :=
       if bool_decide (t = demo_tables)
       then py "{'Sheet1': [{'A': 1, 'B': 2}, {'A': 3, 'B': 4}]}" else [] |}.

Definition demo_filesystem : filesystem :=
  {| mkdir_exist_ok _ := Ok tt;
     iterdir p :=
       if bool_decide (p = py "docs")
       then Ok [ {| entry_name := py "broken.pdf"; entry_is_file := true |};
                 {| entry_name := py "b.docx"; entry_is_file := true |} ]
       else no_such_file;
     open_w _ := Ok tt |}.

Definition empty_state : state :=
  {| st_heap := []; st_files := []; st_log := [] |}.

(** The store after [preprocess_document] ran on ["docs/b.docx"]: the
    metadata at 0, the record at 1. *)
Definition demo_heap : heap :=
  [default_metadata (py "docs/b.docx");
   record_dict (VStr (py "Word")) (VStr (py "Hello World")) (VRef 0)].


(** A library that knows one scanned PDF, whose pages carry no text. *)
Definition scanned_library : library :=
  {| pdf_pages p :=
       if bool_decide (p = py "scan.pdf")
       then Ok [None; Some (py " "); None] else no_such_file;
     docx_paragraphs _ := no_such_file;
     read_excel _ := no_such_file;
     pptx_slides _ := no_such_file;
     epub_items _ := no_such_file;
     str_of_tables _ := [] |}.

(** ** Vocabulary of the further properties *)

(** The items of an EPUB that are documents, and the ones among them
    that are not UTF-8. *)
Definition document_items (items : list (N * list N)) : list (N * list N) :=
  List.filter (fun it => it.1 =? ITEM_DOCUMENT) items.

Definition undecodable (it : N * list N) : Prop :=
  it.1 = ITEM_DOCUMENT ∧ utf8_decode it.2 = Raise UnicodeDecodeError.

Ltac bool_facts :=
  repeat match goal with
  | H : _ && _ = true |- _ => apply andb_true_iff in H as [? ?]
  | H : in_range _ _ _ = true |- _ => unfold in_range in H
  | H : is_cont _ = true |- _ => unfold is_cont in H
  | H : (_ <=? _) = true |- _ => apply N.leb_le in H
  | H : (_ <? _) = true |- _ => apply N.ltb_lt in H
  | H : (_ <? _) = false |- _ => apply N.ltb_ge in H
  end.

Ltac encodable_by_range :=
  unfold encodable, in_range;
  apply negb_true_iff, andb_false_iff; rewrite !N.leb_gt; lia.

(** The exception that ends the [try] of the driver for a file, if one
    does: the one of the dispatch or of the extractor, else the one of
    opening the output file, else [UnicodeEncodeError] when a character
    of the record cannot be written. *)
Definition file_error (L : library) (F : filesystem)
    (folder_path output_folder name : pystr) : option exn :=
  match format_of (input_path folder_path name) with
  | Some f =>
      match extract L f (input_path folder_path name) with
      | Ok text =>
          match open_w F (output_path output_folder name) with
          | Ok _ =>
              if json_encodable
                   (record_tree (input_path folder_path name) f text)
              then None else Some UnicodeEncodeError
          | Raise e => Some e
          end
      | Raise e => Some e
      end
  | None =>
      Some (ValueError (py "Unsupported file type: "
                        ++ input_path folder_path name))
  end.

(** The lines the driver prints for one entry of the listing. *)
Definition entry_log (L : library) (F : filesystem)
    (folder_path output_folder : pystr) (e : dir_entry) : list log_line :=
  if selected e then
    [LogProcessing (entry_name e);
     match file_error L F folder_path output_folder (entry_name e) with
     | None => LogSaved (output_path output_folder (entry_name e))
     | Some ex => LogError (entry_name e) ex
     end]
  else [].

(** A folder with two documents of the same stem. *)
Definition twin_library : library :=
  {| pdf_pages p :=
       if bool_decide (p = py "in/a.pdf") then Ok [Some (py "from pdf")]
       else no_such_file;
     docx_paragraphs p :=
       if bool_decide (p = py "in/a.docx") then Ok [py "from docx"]
       else no_such_file;
     read_excel _ := no_such_file;
     pptx_slides _ := no_such_file;
     epub_items _ := no_such_file;
     str_of_tables _ := [] |}.

Definition twin_filesystem : filesystem :=
  {| mkdir_exist_ok _ := Ok tt;
     iterdir p :=
       if bool_decide (p = py "in")
       then Ok [ {| entry_name := py "a.pdf"; entry_is_file := true |};
                 {| entry_name := py "a.docx"; entry_is_file := true |} ]
       else no_such_file;
     open_w _ := Ok tt |}.

(** A state in which the output folder already holds a file. *)
Definition notes_state : state :=
  {| st_heap := []; st_files := [(py "output/notes.txt", py "keep me")];
     st_log := [] |}.

(** The record of a file of the folder, as its output file holds it:
    the [source] is the name of the file. *)
Definition named_record_tree (name : pystr) (f : format) (text : pystr)
  : json :=
  JObj [(py "file_type", JStr (format_label f));
        (py "content", JStr text);
        (py "metadata",
         JObj [(py "author", JStr (py "Unknown"));
               (py "date", JStr (py "2023-10-01"));
               (py "source", JStr name)])].

(** The record has a metadata dictionary that can be assigned to. *)
Definition has_metadata (h : heap) (data : val) : Prop :=
  ∃ m d, getitem h data (py "metadata") = Ok (VRef m) ∧ h !! m = Some d.

(** Of two optional arguments, the later one when it is supplied, else
    the earlier one. *)
Definition later (x y : option pystr) : option pystr :=
  if supplied x then x else y.

(** The metadata after [enrich_with_metadata] with optional string
    arguments. *)
Definition enriched (author date source : option pystr) (d : dict) : dict :=
  assign_if (supplied source) (py "source") (opt_arg source)
    (assign_if (supplied date) (py "date") (opt_arg date)
       (assign_if (supplied author) (py "author") (opt_arg author) d)).

(** ** The script entry point

    The block under [if __name__ == "__main__"]: what it prints, the
    files afterwards, and the exception that ends it, if one does. *)

(** A line on the console: one printed by the block itself, or one
    printed by [process_folder]. *)
Inductive console_line :=
| Line (text : pystr)
| Driver (l : log_line).

(** [str(n)] for a length. *)
Definition str_of_nat (n : nat) : pystr :=
  py (NilZero.string_of_uint (Nat.to_uint n)).

Definition banner : list console_line :=
  [Line (repeat 61 50); Line (py "Document Preprocessing Pipeline");
   Line (repeat 61 50)].

Definition no_documents_line : pystr :=
  newline :: py "No supported documents found in the current directory.".

Definition help_lines : list console_line :=
  [Line no_documents_line;
   Line (py "Supported formats: PDF, DOCX, XLSX, PPTX, EPUB");
   Line (newline :: py "Example usage:");
   Line (py "  1. Place your documents in this directory");
   Line (py "  2. Run: python preprocess_pipeline.py");
   Line (py "  3. Check the 'output' folder for normalized JSON files")].

Definition success_lines (processed : list pystr) : list console_line :=
  Line (newline :: py "Successfully processed "
          ++ str_of_nat (length processed) ++ py " document(s):")
  :: map (fun filename => Line (py "  - " ++ filename)) processed.

Definition main (L : library) (F : filesystem) (files : list (pystr * pystr))
  : list console_line * list (pystr * pystr) * option exn :=
  let st := {| st_heap := []; st_files := files; st_log := [] |} in
  match process_folder L F st (py ".") (py "output") with
  | (st', Raise e) => (banner ++ map Driver (st_log st'), st_files st', Some e)
  | (st', Ok processed) =>
      (banner ++ map Driver (st_log st')
         ++ (match processed with
             | [] => help_lines
             | _ :: _ => success_lines processed
             end),
       st_files st', None)
  end.

(** A folder whose one document cannot be decoded. *)
Definition broken_filesystem : filesystem :=
  {| mkdir_exist_ok _ := Ok tt;
     iterdir p :=
       if bool_decide (p = py ".")
       then Ok [ {| entry_name := py "broken.pdf"; entry_is_file := true |} ]
       else no_such_file;
     open_w _ := Ok tt |}.

(** ** [json.dumps], as the usage examples call it

    [json.dumps(result, indent=2)] leaves [ensure_ascii] at its default
    [True]: strings go through [encode_basestring_ascii], and the chunks
    are joined into one string instead of being written to a file. *)

(** ['{0:04x}'.format(n)], for [n < 0x10000] *)
Definition hex4 (n : N) : pystr :=
  [hex_digit (n / 4096); hex_digit (n / 256 mod 16);
   hex_digit (n / 16 mod 16); hex_digit (n mod 16)].

(** [replace] of [py_encode_basestring_ascii], which [ESCAPE_ASCII]
    applies to the quote, the backslash and every character outside the
    range from the space to the tilde; a character above the basic
    plane becomes a surrogate pair. *)
Definition escape_char_ascii (c : N) : pystr :=
  if c =? 34 then [92; 34]
  else if c =? 92 then [92; 92]
  else if in_range 32 126 c then [c]
  else if c =? 8 then [92; 98]
  else if c =? 12 then [92; 102]
  else if c =? 10 then [92; 110]
  else if c =? 13 then [92; 114]
  else if c =? 9 then [92; 116]
  else if c <? 65536 then 92 :: 117 :: hex4 c
  else
    let n := c - 65536 in
    let s1 := N.lor 55296 (N.land (N.shiftr n 10) 1023) in
    let s2 := N.lor 56320 (N.land n 1023) in
    92 :: 117 :: hex4 s1 ++ 92 :: 117 :: hex4 s2.

(** A string between quotes, each character escaped by [esc]. *)
Definition quoted (esc : N → pystr) (s : pystr) : pystr :=
  34 :: flat_map esc s ++ [34].

Definition encode_basestring_ascii (s : pystr) : pystr :=
  34 :: flat_map escape_char_ascii s ++ [34].

(** [_make_iterencode], for an encoder of strings and an indent. *)
Section MakeIterencode.
Variable encoder : pystr → pystr.
Variable indent : nat.

(** ['\n' + ' ' * (indent * level)] *)
Definition newline_indent_by (level : nat) : pystr :=
  newline :: repeat 32 (indent * level).

Fixpoint iterencode_dict_items (enc : val → chunks) (item_separator : pystr)
    (items : dict) (first : bool) : chunks :=
  match items with
  | [] => ([], None)
  | (key, value) :: rest =>
      then_ ((if first then [] else [item_separator])
               ++ [encoder key; py ": "], None)
            (then_ (enc value)
                   (iterencode_dict_items enc item_separator rest false))
  end.

Fixpoint make_iterencode (fuel : nat) (h : heap) (markers : list loc)
    (o : val) (level : nat) : chunks :=
  match o with
  | VStr s => ([encoder s], None)
  | VNone => ([py "null"], None)
  | VRef l =>
      match h !! l with
      | None => ([], Some (TypeError (py "dangling reference")))
      | Some [] => ([py "{}"], None)
      | Some dct =>
          if bool_decide (l ∈ markers)
          then ([], Some (ValueError (py "Circular reference detected")))
          else
            match fuel with
            | O => ([], Some RecursionError)
            | S f =>
                then_ ([py "{"; newline_indent_by (S level)], None)
                  (then_ (iterencode_dict_items
                            (fun v => make_iterencode f h (l :: markers) v
                                        (S level))
                            (44 :: newline_indent_by (S level)) dct true)
                         ([newline_indent_by level; py "}"], None))
            end
      end
  end.

(** The text of a tree at a nesting level. *)
Fixpoint encode_members_with (enc : json → pystr) (item_separator : pystr)
    (ms : list (pystr * json)) (first : bool) : pystr :=
  match ms with
  | [] => []
  | (k, v) :: r =>
      (if first then [] else item_separator)
      ++ encoder k ++ py ": " ++ enc v
      ++ encode_members_with enc item_separator r false
  end.

Fixpoint encode_tree_with (level : nat) (t : json) : pystr :=
  match t with
  | JNull => py "null"
  | JStr s => encoder s
  | JObj [] => py "{}"
  | JObj members =>
      py "{" ++ newline_indent_by (S level)
      ++ encode_members_with (encode_tree_with (S level))
                             (44 :: newline_indent_by (S level)) members true
      ++ newline_indent_by level ++ py "}"
  end.
End MakeIterencode.

(** [json.dumps(o, indent=indent)]: the chunks joined, or the exception
    that ended the walk. *)
Definition json_dumps (indent : nat) (h : heap) (o : val) : result pystr :=
  match make_iterencode encode_basestring_ascii indent (S (length h)) h [] o 0
  with
  | (cs, None) => Ok (concat cs)
  | (_, Some e) => Raise e
  end.

(** Printable ASCII, or the newline of the indentation. *)
Definition plain_ascii (c : N) : bool := in_range 32 126 c || (c =? 10).

(** A Unicode scalar value: a code point that is not a surrogate. *)
Definition scalar_value (c : N) : bool := (c <? 1114112) && encodable c.

Fixpoint all_strings {V} (P : N → bool) (f : V → bool)
    (ms : list (pystr * V)) : bool :=
  match ms with
  | [] => true
  | (k, v) :: r => forallb P k && f v && all_strings P f r
  end.

(** Every character of every key and string of the tree satisfies [P]. *)
Fixpoint json_chars (P : N → bool) (t : json) : bool :=
  match t with
  | JNull => true
  | JStr s => forallb P s
  | JObj members => all_strings P (json_chars P) members
  end.

(** The members of an object written with an escaping of characters,
    from just after the opening quote of the first key to the closing
    brace. *)
Definition members_text_with (esc : N → pystr) (indent level : nat)
    (k : pystr) (v : json) (ms : list (pystr * json)) (rest : pystr) : pystr :=
  flat_map esc k ++ 34 :: py ": "
  ++ encode_tree_with (quoted esc) indent (S level) v
  ++ encode_members_with (quoted esc)
       (encode_tree_with (quoted esc) indent (S level))
       (44 :: newline_indent_by indent (S level)) ms false
  ++ newline_indent_by indent level ++ 125 :: rest.

(** ** [example_usage.py]

    What an example prints, line by line, and the store afterwards or
    the exception that ends it.  [path_exists] is [os.path.exists]. *)

Definition rule : pystr := repeat 45 50.

Definition sample_document : pystr := py "sample_document.docx".

Definition not_found_line : pystr := py "sample_document.docx not found".

Definition example_single_document (L : library) (path_exists : pystr → bool)
    (h : heap) : list pystr * result heap :=
  let out := [py "Example 1: Processing a single document"; rule] in
  if path_exists sample_document then
    match preprocess_document L h sample_document with
    | Raise e => (out, Raise e)
    | Ok (h1, result) =>
        match json_dumps 2 h1 result with
        | Raise e => (out, Raise e)
        | Ok text => (out ++ [text; []], Ok h1)
        end
    end
  else (out ++ [not_found_line; []], Ok h).

Definition example_custom_metadata (L : library) (path_exists : pystr → bool)
    (h : heap) : list pystr * result heap :=
  let out := [py "Example 2: Using custom metadata"; rule] in
  if path_exists sample_document then
    match extract_text_from_docx L sample_document with
    | Raise e => (out, Raise e)
    | Ok text =>
        let '(h1, empty) := alloc h [] in
        let '(h2, data) := normalize_to_json h1 (VStr (py "Word")) (VStr text)
                             empty in
        match enrich_with_metadata h2 data (VStr (py "John Doe"))
                (VStr (py "2024-02-18")) (VStr sample_document) with
        | Raise e => (out, Raise e)
        | Ok (h3, result) =>
            match json_dumps 2 h3 result with
            | Raise e => (out, Raise e)
            | Ok printed => (out ++ [printed; []], Ok h3)
            end
        end
    end
  else (out ++ [not_found_line; []], Ok h).

(** The metadata the second example ends with. *)
Definition custom_metadata : dict :=
  [(py "author", VStr (py "John Doe"));
   (py "date", VStr (py "2024-02-18"));
   (py "source", VStr sample_document)].

(** The record the second example builds. *)
Definition custom_record_tree (text : pystr) : json :=
  JObj [(py "file_type", JStr (py "Word"));
        (py "content", JStr text);
        (py "metadata",
         JObj [(py "author", JStr (py "John Doe"));
               (py "date", JStr (py "2024-02-18"));
               (py "source", JStr sample_document)])].

(** A library that knows the sample document of the examples. *)
Definition sample_library : library :=
  {| pdf_pages _ := no_such_file;
     docx_paragraphs p :=
       if bool_decide (p = sample_document)
       then Ok [py " Title"; [233; 128512]] else no_such_file;
     read_excel _ := no_such_file;
     pptx_slides _ := no_such_file;
     epub_items _ := no_such_file;
     str_of_tables _ := [] |}.

(** * Properties *)

(** ** Strings *)

Lemma drop_while_head {A} (f : A → bool) l c r :
  drop_while f l = c :: r → f c = false.
Proof.
  induction l as [|x l IH]; simpl; [done|].
  destruct (f x) eqn:Hx; [exact IH|].
  intros [= -> _]. exact Hx.
Qed.

Lemma drop_while_split {A} (f : A → bool) l :
  ∃ pre, l = pre ++ drop_while f l.
Proof.
  induction l as [|x l [pre IH]]; simpl.
  - by exists [].
  - destruct (f x).
    + exists (x :: pre). simpl. by f_equal.
    + by exists [].
Qed.

Lemma rstrip_split s : ∃ post, s = rstrip s ++ post.
Proof.
  unfold rstrip. destruct (drop_while_split is_space (rev s)) as [pre Hpre].
  exists (rev pre).
  rewrite <- rev_app_distr, <- Hpre. by rewrite rev_involutive.
Qed.

Lemma strip_trimmed s : trimmed (strip s).
Proof.
  split.
  - intros c r Hs. unfold strip in Hs.
    destruct (rstrip_split (lstrip s)) as [post Hpost].
    rewrite Hs in Hpost. simpl in Hpost.
    by apply drop_while_head in Hpost.
  - intros r c Hs. unfold strip, rstrip in Hs.
    apply (f_equal (@rev N)) in Hs.
    rewrite rev_involutive, rev_app_distr in Hs. simpl in Hs.
    by apply drop_while_head in Hs.
Qed.

Lemma endswith_spec s suf :
  endswith s suf = true ↔ ∃ pre, s = pre ++ suf.
Proof.
  unfold endswith. rewrite andb_true_iff, Nat.leb_le, bool_decide_eq_true.
  split.
  - intros [Hlen Hdrop]. exists (take (length s - length suf) s).
    transitivity (take (length s - length suf) s ++ drop (length s - length suf) s).
    + by rewrite take_drop.
    + by rewrite Hdrop.
  - intros [pre ->]. rewrite length_app. split; [lia|].
    replace (length pre + length suf - length suf)%nat with (length pre) by lia.
    by rewrite drop_app_length.
Qed.

Lemma rfind_from_spec c s i acc :
  ((c ∉ s) ∧ rfind_from c s i acc = acc)
  ∨ (∃ pre post, s = pre ++ c :: post ∧ (c ∉ post)
       ∧ rfind_from c s i acc = (i + Z.of_nat (length pre))%Z).
Proof.
  revert i acc. induction s as [|x s IH]; intros i acc; simpl.
  - left. split; [apply not_elem_of_nil|done].
  - destruct (IH (i + 1)%Z (if x =? c then i else acc))
      as [[Hnot ->]|(pre & post & -> & Hpost & ->)].
    + destruct (N.eqb_spec x c) as [->|Hne].
      * right. exists [], s. simpl. split_and!; [done|done|lia].
      * left. split; [|done]. rewrite not_elem_of_cons. split; [congruence|done].
    + right. exists (x :: pre), post. simpl. split_and!; [done|done|lia].
Qed.

(** [basename] splits the path at its last slash. *)
Lemma basename_spec p :
  ∃ d, p = d ++ basename p ∧ (slash ∉ basename p)
       ∧ (d = [] ∨ ∃ d', d = d' ++ [slash]).
Proof.
  unfold basename, rfind.
  destruct (rfind_from_spec slash p 0 (-1))
    as [[Hnot ->]|(pre & post & -> & Hpost & ->)].
  - exists []. simpl. split_and!; [done|done|by left].
  - exists (pre ++ [slash]).
    replace (Z.to_nat (0 + Z.of_nat (length pre) + 1)) with (length (pre ++ [slash]))
      by (rewrite length_app; simpl; lia).
    rewrite (cons_middle slash pre post), app_assoc, drop_app_length.
    split_and!; [done|done|right; by exists pre].
Qed.

Lemma basename_no_slash p : slash ∉ p → basename p = p.
Proof.
  intros Hp. unfold basename, rfind.
  destruct (rfind_from_spec slash p 0 (-1))
    as [[_ ->]|(pre & post & -> & _ & _)]; [done|].
  exfalso. apply Hp. rewrite elem_of_app, elem_of_cons. auto.
Qed.

Lemma basename_app_slash d name :
  slash ∉ name → basename (d ++ slash :: name) = name.
Proof.
  intros Hn. unfold basename, rfind.
  destruct (rfind_from_spec slash (d ++ slash :: name) 0 (-1))
    as [[Hnot _]|(pre & post & Heq & Hpost & ->)].
  - exfalso. apply Hnot. rewrite elem_of_app, elem_of_cons. auto.
  - assert (Hlen : length pre = length d ∧ post = name).
    { clear -Heq Hn Hpost. revert pre Heq.
      induction d as [|x d IH]; intros [|y pre] Heq; simpl in *.
      - by injection Heq as ->.
      - injection Heq as <- ->. exfalso. apply Hn.
        rewrite elem_of_app, elem_of_cons. auto.
      - injection Heq as -> <-. exfalso. apply Hpost.
        rewrite elem_of_app, elem_of_cons. auto.
      - injection Heq as -> Heq. destruct (IH _ Heq) as [-> ->]. done. }
    destruct Hlen as [Hlen ->]. rewrite Heq.
    replace (Z.to_nat (0 + Z.of_nat (length pre) + 1)) with (length (pre ++ [slash]))
      by (rewrite length_app; simpl; lia).
    by rewrite (cons_middle slash pre name), app_assoc, drop_app_length.
Qed.

(** ** Dispatch on the suffix *)

Lemma format_suffix_exclusive p f g :
  endswith p (format_suffix f) = true →
  endswith p (format_suffix g) = true → f = g.
Proof.
  rewrite !endswith_spec. intros [pre1 H1] [pre2 H2].
  rewrite H1 in H2. apply (f_equal (@rev N)) in H2.
  rewrite !rev_app_distr in H2.
  destruct f, g; try reflexivity; exfalso; vm_compute in H2;
    discriminate H2.
Qed.

Lemma not_endswith_other p f g :
  endswith p (format_suffix f) = true → f ≠ g →
  endswith p (format_suffix g) = false.
Proof.
  intros Hf Hne. destruct (endswith p (format_suffix g)) eqn:Hg; [|done].
  destruct Hne. by apply (format_suffix_exclusive p).
Qed.

Lemma preprocess_document_dispatch L h path f :
  endswith path (format_suffix f) = true →
  preprocess_document L h path
  = let* text := extract L f path in Ok (built_record h path f text).
Proof.
  intros Hf. unfold preprocess_document.
  assert (Hother : ∀ g, f ≠ g → endswith path (format_suffix g) = false)
    by (intros g; by apply not_endswith_other).
  assert (Hrec : ∀ text,
    (let '(h1, metadata) :=
       alloc h [(py "author", VStr (py "Unknown"));
                (py "date", VStr (py "2023-10-01"));
                (py "source", VStr (basename path))] in
     Ok (normalize_to_json h1 (VStr (format_label f)) (VStr text) metadata))
    = Ok (built_record h path f text)).
  { intros text. unfold alloc, normalize_to_json, built_record, alloc.
    rewrite length_app, <- app_assoc. simpl.
    by replace (length h + 1)%nat with (S (length h)) by lia. }
  change (py ".pdf") with (format_suffix PDF).
  change (py ".docx") with (format_suffix Word).
  change (py ".xlsx") with (format_suffix Excel).
  change (py ".pptx") with (format_suffix PowerPoint).
  change (py ".epub") with (format_suffix EPUB).
  destruct f;
    repeat first
      [ rewrite Hf
      | rewrite (Hother PDF ltac:(discriminate))
      | rewrite (Hother Word ltac:(discriminate))
      | rewrite (Hother Excel ltac:(discriminate))
      | rewrite (Hother PowerPoint ltac:(discriminate))
      | rewrite (Hother EPUB ltac:(discriminate)) ]; simpl.
  - destruct (extract_text_from_pdf L path); simpl; [apply Hrec|done].
  - destruct (extract_text_from_docx L path); simpl; [apply Hrec|done].
  - destruct (extract_tables_from_excel L path); simpl; [apply Hrec|done].
  - destruct (extract_text_from_ppt L path); simpl; [apply Hrec|done].
  - destruct (extract_text_from_epub L path); simpl; [apply Hrec|done].
Qed.

Lemma preprocess_document_unsupported L h path :
  (∀ f, endswith path (format_suffix f) = false) →
  preprocess_document L h path
  = Raise (ValueError (py "Unsupported file type: " ++ path)).
Proof.
  intros Hno. unfold preprocess_document.
  change (py ".pdf") with (format_suffix PDF).
  change (py ".docx") with (format_suffix Word).
  change (py ".xlsx") with (format_suffix Excel).
  change (py ".pptx") with (format_suffix PowerPoint).
  change (py ".epub") with (format_suffix EPUB).
  rewrite (Hno PDF), (Hno Word), (Hno Excel), (Hno PowerPoint), (Hno EPUB).
  reflexivity.
Qed.

(** ** Escaping and scanning strings *)

Lemma hex_val_digit n : n < 16 → hex_val (hex_digit n) = Some n.
Proof.
  intros Hn. unfold hex_val, hex_digit, in_range.
  destruct (N.ltb_spec n 10).
  - replace ((48 <=? 48 + n) && (48 + n <=? 57)) with true
      by (symmetry; apply andb_true_iff; split; apply N.leb_le; lia).
    f_equal. lia.
  - replace ((48 <=? 87 + n) && (87 + n <=? 57)) with false
      by (symmetry; apply andb_false_iff; right; apply N.leb_gt; lia).
    replace ((97 <=? 87 + n) && (87 + n <=? 102)) with true
      by (symmetry; apply andb_true_iff; split; apply N.leb_le; lia).
    f_equal. lia.
Qed.

Lemma decode_control c :
  c < 32 → decode_uXXXX 48 48 (hex_digit (c / 16)) (hex_digit (c mod 16)) = Some c.
Proof.
  intros Hc. unfold decode_uXXXX.
  assert (Hq : c / 16 < 16) by (apply N.Div0.div_lt_upper_bound; lia).
  assert (Hr : c mod 16 < 16) by (apply N.mod_lt; lia).
  rewrite (hex_val_digit _ Hq), (hex_val_digit _ Hr).
  change (hex_val 48) with (Some 0). cbv beta iota. f_equal.
  pose proof (N.Div0.div_mod c 16). lia.
Qed.

Lemma scanstring_escape s rest :
  scanstring (flat_map escape_char s ++ 34 :: rest) = Ok (s, rest).
Proof.
  induction s as [|c s IH]; [reflexivity|].
  cbn [flat_map]. rewrite <- app_assoc. unfold escape_char at 1.
  destruct (N.eqb_spec c 34) as [->|H34]; [simpl; by rewrite IH|].
  destruct (N.eqb_spec c 92) as [->|H92]; [simpl; by rewrite IH|].
  destruct (N.eqb_spec c 8) as [->|H8]; [simpl; by rewrite IH|].
  destruct (N.eqb_spec c 12) as [->|H12]; [simpl; by rewrite IH|].
  destruct (N.eqb_spec c 10) as [->|H10]; [simpl; by rewrite IH|].
  destruct (N.eqb_spec c 13) as [->|H13]; [simpl; by rewrite IH|].
  destruct (N.eqb_spec c 9) as [->|H9]; [simpl; by rewrite IH|].
  destruct (N.ltb_spec c 32) as [Hlt|Hge].
  - cbn [app scanstring]. change (92 =? 34) with false.
    change (92 =? 92) with true. change (117 =? 117) with true. cbv iota.
    rewrite (decode_control c Hlt).
    replace (in_range 55296 56319 c) with false
      by (symmetry; unfold in_range; apply andb_false_iff; left;
          apply N.leb_gt; lia).
    rewrite IH. reflexivity.
  - cbn [app scanstring].
    replace (c =? 34) with false by (symmetry; by apply N.eqb_neq).
    replace (c =? 92) with false by (symmetry; by apply N.eqb_neq).
    replace (c <? 32) with false by (symmetry; by apply N.ltb_ge).
    rewrite IH. reflexivity.
Qed.

Lemma scanstring_encoded s rest :
  ∃ body, encode_basestring s ++ rest = 34 :: body
          ∧ scanstring body = Ok (s, rest).
Proof.
  exists (flat_map escape_char s ++ 34 :: rest). split.
  - unfold encode_basestring. simpl. by rewrite <- app_assoc.
  - apply scanstring_escape.
Qed.

(** ** Dictionaries *)

Lemma dict_get_set {V} k k' (v : V) d :
  dict_get k (dict_set k' v d)
  = if bool_decide (k' = k) then Some v else dict_get k d.
Proof.
  induction d as [|[k0 v0] d IH]; simpl.
  - done.
  - destruct (bool_decide_reflect (k0 = k')) as [->|Hne]; simpl.
    + destruct (bool_decide (k' = k)); done.
    + rewrite IH. destruct (bool_decide_reflect (k0 = k)) as [->|Hne'].
      * by rewrite bool_decide_eq_false_2.
      * done.
Qed.

Lemma dict_set_fresh {V} k (v : V) d :
  k ∉ d.*1 → dict_set k v d = d ++ [(k, v)].
Proof.
  induction d as [|[k0 v0] d IH]; simpl; [done|].
  rewrite not_elem_of_cons. intros [Hne Hd].
  rewrite bool_decide_eq_false_2 by congruence. by rewrite IH.
Qed.

Lemma fold_dict_set_nodup {V} (ms acc : list (pystr * V)) :
  NoDup (acc ++ ms).*1 →
  fold_left (fun d kv => dict_set kv.1 kv.2 d) ms acc = acc ++ ms.
Proof.
  revert acc. induction ms as [|[k v] ms IH]; intros acc Hnd; simpl.
  - by rewrite app_nil_r.
  - rewrite dict_set_fresh.
    + rewrite IH; rewrite <- app_assoc; done.
    + rewrite fmap_app, NoDup_app in Hnd. destruct Hnd as (_ & Hdis & _).
      intros Hin. apply (Hdis _ Hin). simpl. apply elem_of_cons. by left.
Qed.

Lemma dict_of_pairs_nodup {V} (ms : list (pystr * V)) :
  NoDup ms.*1 → dict_of_pairs ms = ms.
Proof. intros Hnd. unfold dict_of_pairs. by rewrite fold_dict_set_nodup. Qed.

(** ** Reading back what [json.dump] wrote *)

Lemma skip_ws_spaces k r : skip_ws (repeat 32 k ++ r) = skip_ws r.
Proof. induction k as [|k IH]; [done|]. simpl. exact IH. Qed.

Lemma skip_ws_indent level c r :
  is_json_ws c = false → skip_ws (newline_indent level ++ c :: r) = c :: r.
Proof.
  intros Hc. unfold newline_indent. cbn [app skip_ws drop_while].
  change (is_json_ws newline) with true. cbv iota.
  fold (skip_ws (repeat 32 (4 * level) ++ c :: r)).
  rewrite skip_ws_spaces. unfold skip_ws. cbn [drop_while]. by rewrite Hc.
Qed.

Lemma encode_tree_head level t :
  ∃ c r, encode_tree level t = c :: r ∧ is_json_ws c = false.
Proof.
  destruct t as [|s|[|[k v] ms]]; simpl; eauto.
Qed.

Lemma skip_ws_encode_tree level t rest :
  skip_ws (encode_tree level t ++ rest) = encode_tree level t ++ rest.
Proof.
  destruct (encode_tree_head level t) as (c & r & -> & Hc).
  unfold skip_ws. cbn [app drop_while]. by rewrite Hc.
Qed.

Lemma encode_basestring_app s x :
  encode_basestring s ++ x = 34 :: flat_map escape_char s ++ 34 :: x.
Proof.
  unfold encode_basestring.
  by rewrite <- app_comm_cons, <- app_assoc.
Qed.

Lemma object_text level k v ms rest :
  encode_tree level (JObj ((k, v) :: ms)) ++ rest
  = 123 :: newline_indent (S level) ++ 34 :: members_text level k v ms rest.
Proof.
  unfold members_text. cbn [encode_tree encode_members].
  change (py "{") with [123]. change (py "}") with [125].
  rewrite <- !app_assoc, <- !app_comm_cons. cbn [app].
  by rewrite encode_basestring_app.
Qed.

Lemma next_member_text level k v ms rest :
  encode_members (encode_tree (S level)) (44 :: newline_indent (S level))
    ((k, v) :: ms) false
  ++ newline_indent level ++ 125 :: rest
  = 44 :: newline_indent (S level) ++ 34 :: members_text level k v ms rest.
Proof.
  unfold members_text. cbn [encode_members].
  rewrite <- !app_assoc, <- !app_comm_cons.
  by rewrite encode_basestring_app.
Qed.

Lemma scan_round_trip fuel :
  (∀ t level rest, json_wf t → (size t ≤ fuel)%nat →
     scan_once fuel (encode_tree level t ++ rest) = Ok (t, rest))
  ∧ (∀ k v ms level rest,
       all_values json_wf ((k, v) :: ms) →
       (sum_values size ((k, v) :: ms) ≤ fuel)%nat →
       scan_members fuel (members_text level k v ms rest)
       = Ok ((k, v) :: ms, rest)).
Proof.
  induction fuel as [|f [IHv IHm]].
  - split.
    + intros t ? ? _ Hsz. destruct t as [| |[|[??]?]]; simpl in Hsz; lia.
    + intros ????? _ Hsz. simpl in Hsz. lia.
  - split.
    + intros t level rest Hwf Hsz.
      destruct t as [|s|[|[k v] ms]].
      * reflexivity.
      * destruct (scanstring_encoded s rest) as (body & Hb & Hscan).
        cbn [encode_tree]. rewrite Hb. cbn [scan_once].
        change (34 =? 34) with true. cbv iota. by rewrite Hscan.
      * reflexivity.
      * destruct Hwf as [Hnd Hall]. simpl in Hsz.
        rewrite object_text. cbn [scan_once].
        change (123 =? 34) with false. change (123 =? 123) with true.
        cbv iota. rewrite skip_ws_indent by reflexivity.
        change (34 =? 125) with false. change (34 =? 34) with true.
        cbv iota. rewrite IHm by (done || simpl; lia).
        cbn [bind]. by rewrite dict_of_pairs_nodup.
    + intros k v ms level rest [Hv Hms] Hsz. simpl in Hsz.
      unfold members_text. cbn [scan_members].
      rewrite scanstring_escape. cbn [bind].
      change (skip_ws (py ": " ++ ?x)) with (58 :: 32 :: x).
      change (58 =? 58) with true. cbv iota.
      change (skip_ws (32 :: ?x)) with (skip_ws x).
      rewrite skip_ws_encode_tree, IHv by (done || lia). cbn [bind].
      destruct ms as [|[k2 v2] ms].
      * cbn [encode_members app]. rewrite skip_ws_indent by reflexivity.
        change (125 =? 125) with true. cbv iota. reflexivity.
      * rewrite next_member_text.
        change (skip_ws (44 :: ?x)) with (44 :: x).
        change (44 =? 125) with false. change (44 =? 44) with true.
        cbv iota. rewrite skip_ws_indent by reflexivity.
        change (34 =? 34) with true. cbv iota.
        rewrite IHm by (done || simpl in Hsz |- *; lia). reflexivity.
Qed.

Lemma json_induction (P : json → Prop) :
  P JNull → (∀ s, P (JStr s)) →
  (∀ ms, all_values P ms → P (JObj ms)) →
  ∀ t, P t.
Proof.
  intros Hnull Hstr Hobj. fix IH 1. intros [|s|ms].
  - exact Hnull.
  - apply Hstr.
  - apply Hobj. induction ms as [|[k v] ms IHms]; simpl.
    + exact I.
    + split; [apply IH|exact IHms].
Qed.

Lemma size_le_length t : ∀ level, (size t ≤ length (encode_tree level t))%nat.
Proof.
  induction t as [|s|ms IH] using json_induction; intros level.
  - simpl. lia.
  - unfold encode_tree, encode_basestring. simpl. rewrite length_app. simpl. lia.
  - destruct ms as [|[k v] ms]; [simpl; lia|].
    assert (Hms : ∀ first sep,
      (sum_values size ((k, v) :: ms)
       ≤ length (encode_members (encode_tree (S level)) sep ((k, v) :: ms) first))%nat).
    { clear -IH. induction ((k, v) :: ms) as [|[k' v'] l IHl]; intros first sep.
      - simpl. lia.
      - destruct IH as [Hv Hl]. cbn [sum_values encode_members].
        rewrite !length_app. specialize (IHl Hl false sep).
        specialize (Hv (S level)). unfold encode_basestring at 1.
        simpl length at 2. lia. }
    specialize (Hms true (44 :: newline_indent (S level))).
    cbn [encode_tree size]. rewrite !length_app. simpl length at 1. lia.
Qed.

(** A well-formed tree is read back from its text. *)
Lemma json_loads_encode_tree t :
  json_wf t → json_loads (encode_tree 0 t) = Ok t.
Proof.
  intros Hwf. unfold json_loads.
  rewrite <- (app_nil_r (encode_tree 0 t)) at 2.
  rewrite skip_ws_encode_tree.
  destruct (scan_round_trip (S (length (encode_tree 0 t)))) as [Hscan _].
  rewrite Hscan; [reflexivity|done|].
  pose proof (size_le_length t 0). lia.
Qed.

(** ** Writing a value of the store *)

Lemma encodable_escape_char c :
  forallb encodable (escape_char c) = encodable c.
Proof.
  unfold escape_char.
  repeat match goal with
  | |- context [N.eqb c ?n] => destruct (N.eqb_spec c n) as [->|?]; [reflexivity|]
  end.
  destruct (N.ltb_spec c 32) as [Hlt|Hge].
  - assert (Hq : c / 16 < 16) by (apply N.Div0.div_lt_upper_bound; lia).
    assert (Hr : c mod 16 < 16) by (apply N.mod_lt; lia).
    assert (Hd : ∀ x, x < 16 → encodable (hex_digit x) = true).
    { intros x Hx. unfold encodable, in_range, hex_digit.
      destruct (x <? 10); apply negb_true_iff, andb_false_iff; left;
        apply N.leb_gt; lia. }
    cbn [forallb]. rewrite (Hd _ Hq), (Hd _ Hr).
    symmetry. unfold encodable, in_range.
    apply negb_true_iff, andb_false_iff; left; apply N.leb_gt; lia.
  - simpl. apply andb_true_r.
Qed.

Lemma encodable_escape s :
  forallb encodable (flat_map escape_char s) = forallb encodable s.
Proof.
  induction s as [|c s IH]; [done|].
  cbn [flat_map forallb]. by rewrite forallb_app, encodable_escape_char, IH.
Qed.

Lemma encodable_basestring s :
  forallb encodable (encode_basestring s) = forallb encodable s.
Proof.
  unfold encode_basestring. cbn [forallb].
  rewrite forallb_app, encodable_escape. simpl. by rewrite andb_true_r.
Qed.

Lemma encodable_indent level : forallb encodable (newline_indent level) = true.
Proof.
  unfold newline_indent. cbn [forallb].
  change (encodable newline) with true. cbn [andb].
  induction (4 * level)%nat as [|k IH]; [done|exact IH].
Qed.

Lemma encodable_encode_tree t :
  ∀ level, forallb encodable (encode_tree level t) = json_encodable t.
Proof.
  induction t as [|s|ms IH] using json_induction; intros level.
  - reflexivity.
  - apply encodable_basestring.
  - destruct ms as [|[k v] ms]; [reflexivity|].
    assert (Hms : ∀ first,
      forallb encodable
        (encode_members (encode_tree (S level))
           (44 :: newline_indent (S level)) ((k, v) :: ms) first)
      = all_members json_encodable ((k, v) :: ms)).
    { clear -IH. induction ((k, v) :: ms) as [|[k' v'] l IHl]; intros first.
      - reflexivity.
      - destruct IH as [Hv Hl]. cbn [encode_members all_members].
        rewrite !forallb_app, encodable_basestring, Hv, (IHl Hl).
        destruct first; cbn [forallb]; rewrite ?encodable_indent; simpl;
          by rewrite ?andb_true_r, ?andb_assoc. }
    cbn [encode_tree json_encodable].
    rewrite !forallb_app, Hms, !encodable_indent.
    change (forallb encodable (py "{")) with true.
    change (forallb encodable (py "}")) with true.
    cbn [andb]. by rewrite !andb_true_r.
Qed.

Lemma write_chunks_ok cs w :
  forallb encodable (concat cs) = true →
  write_chunks cs w = (w ++ concat cs, None).
Proof.
  revert w. induction cs as [|c cs IH]; intros w; simpl.
  - by rewrite app_nil_r.
  - rewrite forallb_app, andb_true_iff. intros [-> Hcs].
    rewrite IH by done. by rewrite <- app_assoc.
Qed.

Lemma write_chunks_fail cs w :
  forallb encodable (concat cs) = false →
  ∃ w', write_chunks cs w = (w', Some UnicodeEncodeError).
Proof.
  revert w. induction cs as [|c cs IH]; intros w; simpl; [done|].
  rewrite forallb_app. destruct (forallb encodable c); simpl; eauto.
Qed.

Lemma iterencode_items_reads (enc : val → chunks) h ms level sep d members :
  Forall2 (fun kv kt => kv.1 = kt.1 ∧ reads h ms kv.2 kt.2) d members →
  (∀ v t, reads h ms v t →
     (dict_depth t ≤ max_values dict_depth members)%nat →
     ∃ cs, enc v = (cs, None) ∧ concat cs = encode_tree level t) →
  ∀ first, ∃ cs,
    iterencode_items enc sep d first = (cs, None)
    ∧ concat cs = encode_members (encode_tree level) sep members first.
Proof.
  induction 1 as [|[k v] [k' t] d members [Hk Hv] _ IH]; intros Henc first.
  - exists []. done.
  - simpl in Hk, Hv. subst k'.
    destruct (Henc v t Hv) as (cs1 & Hcs1 & Hcat1); [simpl; lia|].
    destruct IH with (first := false) as (cs2 & Hcs2 & Hcat2).
    { intros v' t' Hr Hd. apply Henc; [done|]. simpl. lia. }
    exists ((if first then [] else [sep])
            ++ [encode_basestring k; py ": "] ++ cs1 ++ cs2).
    cbn [iterencode_items]. rewrite Hcs1, Hcs2. split.
    + unfold then_. simpl. by rewrite <- app_assoc.
    + cbn [encode_members]. rewrite !concat_app, Hcat1, Hcat2.
      destruct first; simpl; rewrite ?app_nil_r, <- ?app_assoc; done.
Qed.

(** What [json.dump] yields for a value that denotes a tree is the text
    of that tree. *)
Lemma iterencode_reads fuel :
  ∀ h ms v t level,
    reads h ms v t → (dict_depth t ≤ fuel)%nat →
    ∃ cs, iterencode fuel h ms v level = (cs, None)
          ∧ concat cs = encode_tree level t.
Proof.
  induction fuel as [|f IH]; intros h ms v t level Hr Hd.
  - inversion Hr as [| |? l Hl|? l d members Hl Hne Hfresh Hall]; subst.
    + exists [py "null"]. done.
    + exists [encode_basestring s]. split; [done|]. cbn [concat]. apply app_nil_r.
    + exists [py "{}"]. cbn [iterencode]. by rewrite Hl.
    + inversion Hall; subst; [done|]. simpl in Hd. lia.
  - inversion Hr as [| |? l Hl|? l d members Hl Hne Hfresh Hall]; subst.
    + exists [py "null"]. done.
    + exists [encode_basestring s]. split; [done|]. cbn [concat]. apply app_nil_r.
    + exists [py "{}"]. cbn [iterencode]. by rewrite Hl.
    + destruct d as [|kv d]; [done|].
      destruct members as [|kt members]; [inversion Hall|].
      cbn [dict_depth] in Hd.
      destruct (iterencode_items_reads
                  (fun v => iterencode f h (l :: ms) v (S level))
                  h (l :: ms) (S level) (44 :: newline_indent (S level))
                  (kv :: d) (kt :: members) Hall) with (first := true)
        as (cs & Hcs & Hcat).
      { intros v' t' Hr' Hd'. apply IH; [done|lia]. }
      exists ([py "{"; newline_indent (S level)] ++ cs
              ++ [newline_indent level; py "}"]).
      cbn [iterencode]. rewrite Hl, bool_decide_eq_false_2 by done.
      rewrite Hcs. split.
      * reflexivity.
      * destruct kt as [k' t']. cbn [encode_tree].
        rewrite !concat_app, Hcat. simpl. by rewrite app_nil_r.
Qed.

Lemma bounded_length (ms : list loc) n :
  NoDup ms → (∀ l, l ∈ ms → (l < n)%nat) → (length ms ≤ n)%nat.
Proof.
  intros Hnd Hlt. rewrite <- (length_seq n 0).
  apply submseteq_length, NoDup_submseteq; [done|].
  intros l Hl. apply elem_of_seq. specialize (Hlt l Hl). lia.
Qed.

(** Dictionaries nest no deeper than there are dictionaries. *)
Lemma reads_depth h t :
  ∀ ms v, reads h ms v t → NoDup ms → (∀ l, l ∈ ms → (l < length h)%nat) →
          (dict_depth t + length ms ≤ length h)%nat.
Proof.
  induction t as [|s|members IH] using json_induction;
    intros ms v Hr Hnd Hlt.
  - simpl. by apply bounded_length.
  - simpl. by apply bounded_length.
  - inversion Hr as [| |? l Hl|? l d ? Hl Hne Hfresh Hall]; subst.
    + simpl. by apply bounded_length.
    + assert (Hnd' : NoDup (l :: ms)) by (by apply NoDup_cons).
      assert (Hlt' : ∀ l', l' ∈ l :: ms → (l' < length h)%nat).
      { intros l' [->|Hin]%elem_of_cons; [|by apply Hlt].
        by apply lookup_lt_Some in Hl. }
      pose proof (bounded_length _ _ Hnd' Hlt') as Hlen. simpl in Hlen.
      assert (Hmax : (max_values dict_depth members + S (length ms)
                      ≤ length h)%nat).
      { clear -IH Hall Hnd' Hlt' Hlen. revert d Hall.
        induction members as [|[k t] members IHm]; intros d Hall.
        - simpl. lia.
        - destruct IH as [Ht Hrest].
          inversion Hall as [|[k0 v0] ? d' ? [_ Hv] Hall']; subst.
          specialize (Ht _ _ Hv Hnd' Hlt'). simpl in Ht.
          specialize (IHm Hrest d' Hall'). simpl. lia. }
      destruct members; simpl in *; lia.
Qed.

(** [json.dump] of a value that denotes a tree: the tree's text when
    every character can be encoded, [UnicodeEncodeError] otherwise. *)
Lemma json_dump_reads h v t :
  reads h [] v t →
  if json_encodable t
  then json_dump h v = (encode_tree 0 t, None)
  else ∃ w, json_dump h v = (w, Some UnicodeEncodeError).
Proof.
  intros Hr.
  destruct (iterencode_reads (S (length h)) h [] v t 0 Hr) as (cs & Hcs & Hcat).
  { pose proof (reads_depth h t [] v Hr (NoDup_nil_2)) as Hd.
    simpl in Hd. rewrite Nat.add_0_r in Hd.
    etrans; [apply Hd|]; [intros l Hl; by apply elem_of_nil in Hl|lia]. }
  unfold json_dump. rewrite Hcs.
  rewrite <- (encodable_encode_tree t 0), <- Hcat.
  destruct (forallb encodable (concat cs)) eqn:Henc.
  - by rewrite write_chunks_ok.
  - destruct (write_chunks_fail cs [] Henc) as [w ->]. by exists w.
Qed.

(** ** Enrichment *)

Lemma truthy_opt_arg h o : truthy h (opt_arg o) = supplied o.
Proof. destruct o as [[|c s]|]; reflexivity. Qed.

Lemma enrich_field_falsy h data key x :
  truthy h x = false → enrich_field h data key x = Ok h.
Proof. intros Hx. unfold enrich_field. by rewrite Hx. Qed.

Lemma enrich_field_truthy h data m d key x :
  truthy h x = true →
  getitem h data (py "metadata") = Ok (VRef m) → h !! m = Some d →
  enrich_field h data key x = Ok (<[m := dict_set key x d]> h).
Proof.
  intros Hx Hget Hm. unfold enrich_field. rewrite Hx, Hget.
  cbn [bind setitem]. by rewrite Hm.
Qed.

(** Assigning to a metadata field does not detach the metadata from the
    record, even when the record is its own metadata. *)
Lemma getitem_metadata_kept h data m d key x :
  key ≠ py "metadata" →
  getitem h data (py "metadata") = Ok (VRef m) → h !! m = Some d →
  getitem (<[m := dict_set key x d]> h) data (py "metadata") = Ok (VRef m).
Proof.
  intros Hkey Hget Hm. destruct data as [|s|r]; try discriminate Hget.
  cbn [getitem] in Hget |- *.
  destruct (decide (r = m)) as [->|Hne].
  - rewrite Hm in Hget.
    rewrite list_lookup_insert_eq by (by apply lookup_lt_Some in Hm).
    rewrite dict_get_set, bool_decide_eq_false_2 by done. exact Hget.
  - by rewrite list_lookup_insert_ne.
Qed.

Lemma enrich_field_spec h data m d key x :
  key ≠ py "metadata" →
  getitem h data (py "metadata") = Ok (VRef m) → h !! m = Some d →
  let d' := assign_if (truthy h x) key x d in
  let h' := <[m := d']> h in
  enrich_field h data key x = Ok h'
  ∧ getitem h' data (py "metadata") = Ok (VRef m)
  ∧ h' !! m = Some d'.
Proof.
  intros Hkey Hget Hm. unfold assign_if.
  destruct (truthy h x) eqn:Hx; cbn zeta.
  - split_and!.
    + by apply enrich_field_truthy.
    + by apply getitem_metadata_kept.
    + apply list_lookup_insert_eq. by apply lookup_lt_Some in Hm.
  - rewrite list_insert_id by done. split_and!; [|done..].
    by apply enrich_field_falsy.
Qed.

Lemma dict_get_assign_if b key x d k :
  dict_get k (assign_if b key x d)
  = if b && bool_decide (key = k) then Some x else dict_get k d.
Proof.
  unfold assign_if. destruct b; [|done]. by rewrite dict_get_set.
Qed.

Lemma metadata_keys_distinct :
  py "author" ≠ py "metadata" ∧ py "date" ≠ py "metadata"
  ∧ py "source" ≠ py "metadata" ∧ py "author" ≠ py "date"
  ∧ py "author" ≠ py "source" ∧ py "date" ≠ py "source".
Proof. repeat split; intros H; vm_compute in H; discriminate H. Qed.

(** C4.  On a record whose metadata is a dictionary, [enrich_with_metadata]
    with optional string arguments returns the record it was given, and
    in the metadata each of [author], [date], [source] is the argument
    when that argument is a non-empty string and is what it was before
    when the argument is omitted, [None] or the empty string; no other
    key and no other dictionary changes; with nothing supplied the store
    is the one it started from. *)
Theorem enrich_sets_only_truthy h data m d (author date source : option pystr) :
  getitem h data (py "metadata") = Ok (VRef m) →
  h !! m = Some d →
  ∃ h' d',
    enrich_with_metadata h data (opt_arg author) (opt_arg date)
                         (opt_arg source) = Ok (h', data)
    ∧ h' !! m = Some d'
    ∧ dict_get (py "author") d'
      = (if supplied author then Some (opt_arg author)
         else dict_get (py "author") d)
    ∧ dict_get (py "date") d'
      = (if supplied date then Some (opt_arg date)
         else dict_get (py "date") d)
    ∧ dict_get (py "source") d'
      = (if supplied source then Some (opt_arg source)
         else dict_get (py "source") d)
    ∧ (∀ k, k ≠ py "author" → k ≠ py "date" → k ≠ py "source" →
            dict_get k d' = dict_get k d)
    ∧ (∀ l, l ≠ m → h' !! l = h !! l)
    ∧ (supplied author = false → supplied date = false →
       supplied source = false → h' = h ∧ d' = d).
Proof.
  intros Hget Hm.
  destruct metadata_keys_distinct as (Ha & Hd & Hs & Had & Has & Hds).
  destruct (enrich_field_spec h data m d (py "author") (opt_arg author)
              Ha Hget Hm) as (E1 & G1 & M1).
  set (d1 := assign_if (truthy h (opt_arg author)) (py "author")
                       (opt_arg author) d) in *.
  set (h1 := <[m := d1]> h) in *.
  destruct (enrich_field_spec h1 data m d1 (py "date") (opt_arg date)
              Hd G1 M1) as (E2 & G2 & M2).
  set (d2 := assign_if (truthy h1 (opt_arg date)) (py "date")
                       (opt_arg date) d1) in *.
  set (h2 := <[m := d2]> h1) in *.
  destruct (enrich_field_spec h2 data m d2 (py "source") (opt_arg source)
              Hs G2 M2) as (E3 & G3 & M3).
  set (d3 := assign_if (truthy h2 (opt_arg source)) (py "source")
                       (opt_arg source) d2) in *.
  set (h3 := <[m := d3]> h2) in *.
  exists h3, d3. split_and!.
  - unfold enrich_with_metadata. rewrite E1. cbn [bind]. rewrite E2.
    cbn [bind]. rewrite E3. reflexivity.
  - exact M3.
  - unfold d3, d2, d1. rewrite !dict_get_assign_if, !truthy_opt_arg.
    rewrite (bool_decide_eq_false_2 (py "source" = py "author")) by congruence.
    rewrite (bool_decide_eq_false_2 (py "date" = py "author")) by congruence.
    rewrite (bool_decide_eq_true_2 (py "author" = py "author")) by done.
    by rewrite !andb_false_r, andb_true_r.
  - unfold d3, d2, d1. rewrite !dict_get_assign_if, !truthy_opt_arg.
    rewrite (bool_decide_eq_false_2 (py "source" = py "date")) by congruence.
    rewrite (bool_decide_eq_true_2 (py "date" = py "date")) by done.
    rewrite (bool_decide_eq_false_2 (py "author" = py "date")) by congruence.
    rewrite !andb_false_r, andb_true_r. by destruct (supplied date).
  - unfold d3, d2, d1. rewrite !dict_get_assign_if, !truthy_opt_arg.
    rewrite (bool_decide_eq_true_2 (py "source" = py "source")) by done.
    rewrite (bool_decide_eq_false_2 (py "date" = py "source")) by congruence.
    rewrite (bool_decide_eq_false_2 (py "author" = py "source")) by congruence.
    rewrite !andb_false_r, andb_true_r. by destruct (supplied source).
  - intros k Hka Hkd Hks. unfold d3, d2, d1.
    rewrite !dict_get_assign_if.
    rewrite !(bool_decide_eq_false_2 (_ = k)) by congruence.
    by rewrite !andb_false_r.
  - intros l Hl. unfold h3, h2, h1.
    by rewrite !list_lookup_insert_ne by done.
  - intros Fa Fd Fs. unfold h3, d3, h2, d2, h1, d1.
    rewrite !truthy_opt_arg, Fa, Fd, Fs. unfold assign_if.
    rewrite !(list_insert_id h m d Hm). done.
Qed.

Lemma enrich_sets_only_truthy_witness :
  ∃ h' d',
    enrich_with_metadata demo_heap (VRef 1)
      (opt_arg (Some (py "John Doe"))) (opt_arg (Some [])) (opt_arg None)
    = Ok (h', VRef 1)
    ∧ h' !! 0%nat = Some d'
    ∧ dict_get (py "author") d' = Some (VStr (py "John Doe"))
    ∧ dict_get (py "date") d' = Some (VStr (py "2023-10-01"))
    ∧ dict_get (py "source") d' = Some (VStr (py "b.docx")).
Proof.
  destruct (enrich_sets_only_truthy demo_heap (VRef 1) 0
              (default_metadata (py "docs/b.docx"))
              (Some (py "John Doe")) (Some []) None eq_refl eq_refl)
    as (h' & d' & E & M & A & D & S & _).
  exists h', d'. repeat split; assumption.
Defined.

(** C8, as amended.  On a record whose metadata is a dictionary,
    [enrich_with_metadata] called with a truthy [author] and nothing
    else returns the record it was given, with [author] set to that
    value in the metadata and [date] and [source] as they were. *)
Theorem enrich_author_only h data m d author :
  getitem h data (py "metadata") = Ok (VRef m) →
  h !! m = Some d →
  truthy h author = true →
  ∃ h' d',
    enrich_with_metadata h data author VNone VNone = Ok (h', data)
    ∧ h' !! m = Some d'
    ∧ dict_get (py "author") d' = Some author
    ∧ dict_get (py "date") d' = dict_get (py "date") d
    ∧ dict_get (py "source") d' = dict_get (py "source") d.
Proof.
  intros Hget Hm Ha.
  destruct metadata_keys_distinct as (_ & _ & _ & Had & Has & _).
  exists (<[m := dict_set (py "author") author d]> h),
         (dict_set (py "author") author d).
  split_and!.
  - unfold enrich_with_metadata.
    rewrite (enrich_field_truthy h data m d) by done. cbn [bind].
    rewrite !enrich_field_falsy by done. reflexivity.
  - apply list_lookup_insert_eq. by apply lookup_lt_Some in Hm.
  - by rewrite dict_get_set, bool_decide_eq_true_2.
  - by rewrite dict_get_set, bool_decide_eq_false_2.
  - by rewrite dict_get_set, bool_decide_eq_false_2.
Qed.

Lemma enrich_author_only_witness :
  ∃ h' d',
    enrich_with_metadata demo_heap (VRef 1) (VStr (py "A")) VNone VNone
    = Ok (h', VRef 1)
    ∧ h' !! 0%nat = Some d'
    ∧ dict_get (py "author") d' = Some (VStr (py "A"))
    ∧ dict_get (py "date") d' = Some (VStr (py "2023-10-01"))
    ∧ dict_get (py "source") d' = Some (VStr (py "b.docx")).
Proof.
  exact (enrich_author_only demo_heap (VRef 1) 0
           (default_metadata (py "docs/b.docx")) (VStr (py "A"))
           eq_refl eq_refl eq_refl).
Defined.

(** C8, as stated, fails when the author supplied is the empty string:
    the call returns the record with [author] still ["Unknown"]. *)
Lemma enrich_empty_author_unchanged :
  enrich_with_metadata demo_heap (VRef 1) (VStr []) VNone VNone
  = Ok (demo_heap, VRef 1)
  ∧ getitem demo_heap (VRef 1) (py "metadata") = Ok (VRef 0)
  ∧ getitem demo_heap (VRef 0) (py "author") = Ok (VStr (py "Unknown"))
  ∧ getitem demo_heap (VRef 0) (py "author") ≠ Ok (VStr []).
Proof. repeat split. intros H. vm_compute in H. discriminate H. Qed.

(** ** The record in the store *)

Lemma format_of_spec path :
  match format_of path with
  | Some f => endswith path (format_suffix f) = true
  | None => ∀ f, endswith path (format_suffix f) = false
  end.
Proof.
  unfold format_of. cbn [find].
  destruct (endswith path (format_suffix PDF)) eqn:E1; [done|].
  destruct (endswith path (format_suffix Word)) eqn:E2; [done|].
  destruct (endswith path (format_suffix Excel)) eqn:E3; [done|].
  destruct (endswith path (format_suffix PowerPoint)) eqn:E4; [done|].
  destruct (endswith path (format_suffix EPUB)) eqn:E5; [done|].
  by intros [].
Qed.

Lemma format_of_endswith path f :
  endswith path (format_suffix f) = true → format_of path = Some f.
Proof.
  intros Hf. pose proof (format_of_spec path) as Hs.
  destruct (format_of path) as [g|].
  - f_equal. by apply (format_suffix_exclusive path).
  - rewrite Hs in Hf. discriminate Hf.
Qed.

Lemma preprocess_document_ok_inv L h path h' r :
  preprocess_document L h path = Ok (h', r) →
  ∃ f text, endswith path (format_suffix f) = true
            ∧ extract L f path = Ok text
            ∧ (h', r) = built_record h path f text.
Proof.
  intros Hok. pose proof (format_of_spec path) as Hs.
  destruct (format_of path) as [f|].
  - rewrite (preprocess_document_dispatch L h path f Hs) in Hok.
    destruct (extract L f path) as [text|e] eqn:He; [|discriminate Hok].
    exists f, text. cbn [bind] in Hok. by injection Hok as <- <-.
  - rewrite (preprocess_document_unsupported L h path Hs) in Hok.
    discriminate Hok.
Qed.

Lemma built_record_lookup h path f text :
  (built_record h path f text).1 !! S (length h)
  = Some (record_dict (VStr (format_label f)) (VStr text) (VRef (length h)))
  ∧ (built_record h path f text).1 !! length h = Some (default_metadata path).
Proof.
  unfold built_record. cbn [fst]. split.
  - rewrite lookup_app_r by lia. rewrite Nat.sub_succ_l, Nat.sub_diag by lia.
    reflexivity.
  - rewrite lookup_app_r by lia. by rewrite Nat.sub_diag.
Qed.

Lemma built_record_fields h path f text :
  let hr := built_record h path f text in
  getitem hr.1 hr.2 (py "file_type") = Ok (VStr (format_label f))
  ∧ getitem hr.1 hr.2 (py "content") = Ok (VStr text)
  ∧ getitem hr.1 hr.2 (py "metadata") = Ok (VRef (length h)).
Proof.
  cbn zeta. destruct (built_record_lookup h path f text) as [Hr _].
  unfold built_record in *. cbn [fst snd getitem] in *. rewrite Hr.
  repeat split.
Qed.

Lemma reads_built_record h path f text :
  reads (built_record h path f text).1 [] (built_record h path f text).2
        (record_tree path f text).
Proof.
  destruct (built_record_lookup h path f text) as [Hr Hm].
  unfold built_record in *. cbn [fst snd] in *.
  eapply reads_dict; [exact Hr|done|apply not_elem_of_nil|].
  repeat constructor; cbn [fst snd].
  eapply reads_dict; [exact Hm|done| |].
  - rewrite elem_of_cons, elem_of_nil. lia.
  - repeat constructor.
Qed.

Lemma record_tree_wf path f text : json_wf (record_tree path f text).
Proof.
  unfold record_tree. cbn [json_wf all_values]. repeat split.
  - apply (bool_decide_unpack _). vm_compute. exact I.
  - apply (bool_decide_unpack _). vm_compute. exact I.
Qed.

Lemma json_dump_built_record h path f text :
  let hr := built_record h path f text in
  if json_encodable (record_tree path f text)
  then json_dump hr.1 hr.2 = (encode_tree 0 (record_tree path f text), None)
  else ∃ w, json_dump hr.1 hr.2 = (w, Some UnicodeEncodeError).
Proof. apply json_dump_reads, reads_built_record. Qed.

(** ** The folder driver *)

Lemma suffix_of_name_endswith name :
  suffix_of_name name ≠ [] → endswith name (suffix_of_name name) = true.
Proof.
  unfold suffix_of_name.
  destruct ((0 <? rfind dot name)%Z && _); [|done].
  intros _. apply endswith_spec.
  exists (take (Z.to_nat (rfind dot name)) name). by rewrite take_drop.
Qed.

Lemma endswith_path_join d name suf :
  endswith name suf = true → endswith (path_join d name) suf = true.
Proof.
  rewrite !endswith_spec. intros [pre ->]. unfold path_join.
  destruct (bool_decide (d = py ".")); [by exists pre|].
  destruct (endswith d [slash]).
  - exists (d ++ pre). by rewrite app_assoc.
  - exists (d ++ [slash] ++ pre). by rewrite <- !app_assoc.
Qed.

Lemma selected_format folder_path e :
  selected e = true →
  ∃ f, format_suffix f = suffix_of_name (entry_name e)
       ∧ format_of (input_path folder_path (entry_name e)) = Some f.
Proof.
  unfold selected. rewrite andb_true_iff, bool_decide_eq_true.
  intros [_ Hin].
  assert (Hf : ∃ f, format_suffix f = suffix_of_name (entry_name e)).
  { unfold extensions in Hin. rewrite !elem_of_cons, elem_of_nil in Hin.
    destruct Hin as [H|[H|[H|[H|[H|[]]]]]];
      [exists PDF|exists Word|exists Excel|exists PowerPoint|exists EPUB];
      by rewrite H. }
  destruct Hf as [f Hf]. exists f. split; [done|].
  apply format_of_endswith, endswith_path_join. rewrite Hf.
  apply suffix_of_name_endswith. rewrite <- Hf. by destruct f.
Qed.

Lemma try_body_extract_raise L F folder_path output_folder name st f e :
  format_of (input_path folder_path name) = Some f →
  extract L f (input_path folder_path name) = Raise e →
  try_body L F folder_path output_folder name st
  = (print (LogProcessing name) st, Some e).
Proof.
  intros Hf He. pose proof (format_of_spec (input_path folder_path name)) as Hs.
  rewrite Hf in Hs. unfold try_body, input_path in *.
  rewrite (preprocess_document_dispatch L _ _ f Hs), He. reflexivity.
Qed.

Lemma try_body_open_raise L F folder_path output_folder name st f text e :
  format_of (input_path folder_path name) = Some f →
  extract L f (input_path folder_path name) = Ok text →
  open_w F (output_path output_folder name) = Raise e →
  ∃ st', try_body L F folder_path output_folder name st = (st', Some e)
         ∧ st_files st' = st_files st.
Proof.
  intros Hf He Ho. pose proof (format_of_spec (input_path folder_path name)) as Hs.
  rewrite Hf in Hs. unfold try_body, input_path, output_path in *.
  rewrite (preprocess_document_dispatch L _ _ f Hs), He. cbn [bind].
  unfold built_record at 1. rewrite Ho. eauto.
Qed.

Lemma try_body_dump L F folder_path output_folder name st f text u :
  format_of (input_path folder_path name) = Some f →
  extract L f (input_path folder_path name) = Ok text →
  open_w F (output_path output_folder name) = Ok u →
  let tree := record_tree (input_path folder_path name) f text in
  if json_encodable tree
  then ∃ st', try_body L F folder_path output_folder name st = (st', None)
              ∧ st_files st'
                = dict_set (output_path output_folder name)
                           (encode_tree 0 tree) (st_files st)
  else ∃ st', try_body L F folder_path output_folder name st
              = (st', Some UnicodeEncodeError).
Proof.
  intros Hf He Ho. pose proof (format_of_spec (input_path folder_path name)) as Hs.
  rewrite Hf in Hs. cbn zeta.
  pose proof (json_dump_built_record (st_heap st)
                (input_path folder_path name) f text) as Hdump.
  cbn zeta in Hdump.
  unfold try_body, input_path, output_path in *.
  rewrite (preprocess_document_dispatch L _ _ f Hs), He. cbn [bind].
  cbn [print st_heap].
  destruct (built_record (st_heap st) (path_join folder_path name) f text)
    as [h' r] eqn:Hb.
  cbn [fst snd] in Hdump. rewrite Ho.
  destruct (json_encodable _).
  - rewrite Hdump. eexists. split; reflexivity.
  - destruct Hdump as [w ->]. eexists. reflexivity.
Qed.

(** Inside the loop, the [try] ends without an exception exactly for the
    files that go through. *)
Lemma try_body_outcome L F folder_path output_folder e st :
  selected e = true →
  ∃ st' err,
    try_body L F folder_path output_folder (entry_name e) st = (st', err)
    ∧ (err = None ↔ file_ok L F folder_path output_folder (entry_name e) = true).
Proof.
  intros Hsel.
  destruct (selected_format folder_path e Hsel) as (f & _ & Hf).
  unfold file_ok. rewrite Hf.
  destruct (extract L f (input_path folder_path (entry_name e)))
    as [text|ex] eqn:He.
  - destruct (open_w F (output_path output_folder (entry_name e)))
      as [u|ex] eqn:Ho.
    + pose proof (try_body_dump L F folder_path output_folder (entry_name e)
                    st f text u Hf He Ho) as Hd.
      cbn zeta in Hd. destruct (json_encodable _).
      * destruct Hd as (st' & -> & _). by exists st', None.
      * destruct Hd as (st' & ->). exists st', (Some UnicodeEncodeError).
        split; [done|]. by split.
    + destruct (try_body_open_raise L F folder_path output_folder
                  (entry_name e) st f text ex Hf He Ho) as (st' & -> & _).
      exists st', (Some ex). split; [done|]. by split.
  - rewrite (try_body_extract_raise L F _ _ _ st f ex Hf He).
    eexists _, _. split; [done|]. by split.
Qed.

Lemma process_entry_names L F folder_path output_folder st acc e :
  ∃ st',
    process_entry L F folder_path output_folder (st, acc) e
    = (st', acc ++ (if processed L F folder_path output_folder e
                    then [entry_name e] else [])).
Proof.
  unfold process_entry, processed. fold (selected e).
  destruct (selected e) eqn:Hsel; cbn [andb].
  - destruct (try_body_outcome L F folder_path output_folder e st Hsel)
      as (st' & err & -> & Herr).
    destruct err as [ex|].
    + destruct (file_ok _ _ _ _ _).
      * destruct Herr as [_ Herr]. discriminate (Herr eq_refl).
      * eexists. by rewrite app_nil_r.
    + destruct Herr as [Herr _]. rewrite (Herr eq_refl). by eexists.
  - exists st. by rewrite app_nil_r.
Qed.

Lemma process_entries_names L F folder_path output_folder entries :
  ∀ st acc, ∃ st',
    fold_left (process_entry L F folder_path output_folder) entries (st, acc)
    = (st', acc ++ map entry_name
                     (List.filter (processed L F folder_path output_folder)
                                  entries)).
Proof.
  induction entries as [|e entries IH]; intros st acc.
  - exists st. simpl. by rewrite app_nil_r.
  - cbn [fold_left List.filter].
    destruct (process_entry_names L F folder_path output_folder st acc e)
      as [st1 ->].
    destruct (IH st1 (acc ++ (if processed L F folder_path output_folder e
                              then [entry_name e] else []))) as [st' ->].
    exists st'. f_equal. rewrite <- app_assoc.
    by destruct (processed L F folder_path output_folder e).
Qed.

Lemma file_ok_inv L F folder_path output_folder name :
  file_ok L F folder_path output_folder name = true →
  ∃ f text u,
    format_of (input_path folder_path name) = Some f
    ∧ extract L f (input_path folder_path name) = Ok text
    ∧ open_w F (output_path output_folder name) = Ok u
    ∧ json_encodable (record_tree (input_path folder_path name) f text) = true.
Proof.
  unfold file_ok. intros Hok.
  destruct (format_of _) as [f|] eqn:Hf; [|discriminate Hok].
  destruct (extract L f _) as [text|] eqn:He; [|discriminate Hok].
  destruct (open_w F _) as [u|] eqn:Ho; [|discriminate Hok].
  by exists f, text, u.
Qed.

Lemma process_entry_ok L F folder_path output_folder st acc e f text :
  selected e = true →
  file_ok L F folder_path output_folder (entry_name e) = true →
  format_of (input_path folder_path (entry_name e)) = Some f →
  extract L f (input_path folder_path (entry_name e)) = Ok text →
  ∃ st',
    process_entry L F folder_path output_folder (st, acc) e
    = (st', acc ++ [entry_name e])
    ∧ st_files st'
      = dict_set (output_path output_folder (entry_name e))
          (encode_tree 0
             (record_tree (input_path folder_path (entry_name e)) f text))
          (st_files st).
Proof.
  intros Hsel Hok Hf He.
  destruct (file_ok_inv _ _ _ _ _ Hok) as (f' & text' & u & Hf' & He' & Ho & Henc).
  rewrite Hf in Hf'. injection Hf' as <-. rewrite He in He'. injection He' as <-.
  pose proof (try_body_dump L F folder_path output_folder (entry_name e)
                st f text u Hf He Ho) as Hd.
  cbn zeta in Hd. rewrite Henc in Hd. destruct Hd as (st' & Hbody & Hfiles).
  exists st'. unfold process_entry. fold (selected e). by rewrite Hsel, Hbody.
Qed.

Lemma process_entry_extract_raise L F folder_path output_folder st acc e f ex :
  selected e = true →
  format_of (input_path folder_path (entry_name e)) = Some f →
  extract L f (input_path folder_path (entry_name e)) = Raise ex →
  ∃ st',
    process_entry L F folder_path output_folder (st, acc) e = (st', acc)
    ∧ st_files st' = st_files st.
Proof.
  intros Hsel Hf He. unfold process_entry. fold (selected e).
  rewrite Hsel, (try_body_extract_raise L F _ _ _ st f ex Hf He).
  eexists. split; reflexivity.
Qed.

(** C2.  Once the output folder is made and the input folder listed,
    [process_folder] returns normally whatever happens to single files,
    and the list it returns is, in listing order, the names of the
    regular files with a supported suffix whose extraction, output file
    and serialization all succeeded; a file that failed is not in it.
    With one valid [.docx] and one [.pdf] whose decoding fails, in
    either order, the list is the [.docx] name alone and the files
    written differ from those before by one file, whose text reads back
    as the record. *)
Theorem process_folder_skips_failures L F st folder_path output_folder entries :
  mkdir_exist_ok F output_folder = Ok tt →
  iterdir F folder_path = Ok entries →
  (∃ st',
     process_folder L F st folder_path output_folder
     = (st', Ok (map entry_name
                   (List.filter (processed L F folder_path output_folder)
                                entries))))
  ∧ (∀ docx pdf paragraphs e,
       let good := {| entry_name := docx; entry_is_file := true |} in
       let bad := {| entry_name := pdf; entry_is_file := true |} in
       entries = [good; bad] ∨ entries = [bad; good] →
       suffix_of_name docx = py ".docx" →
       suffix_of_name pdf = py ".pdf" →
       docx_paragraphs L (input_path folder_path docx) = Ok paragraphs →
       file_ok L F folder_path output_folder docx = true →
       pdf_pages L (input_path folder_path pdf) = Raise e →
       ∃ st' text,
         process_folder L F st folder_path output_folder = (st', Ok [docx])
         ∧ st_files st'
           = dict_set (output_path output_folder docx) text (st_files st)
         ∧ json_loads text
           = Ok (record_tree (input_path folder_path docx) Word
                   (strip (join (py " ") paragraphs)))).
Proof.
  intros Hmk Hls. split.
  - unfold process_folder. rewrite Hmk, Hls.
    destruct (process_entries_names L F folder_path output_folder entries st [])
      as [st' ->].
    by exists st'.
  - intros docx pdf paragraphs e good bad Horder Hdocx Hpdf Hpar Hok Hbad.
    assert (Hsg : selected good = true).
    { unfold selected, good. cbn [entry_is_file entry_name andb].
      rewrite Hdocx. reflexivity. }
    assert (Hsb : selected bad = true).
    { unfold selected, bad. cbn [entry_is_file entry_name andb].
      rewrite Hpdf. reflexivity. }
    destruct (selected_format folder_path good Hsg) as (fg & Hfg & Hg).
    destruct (selected_format folder_path bad Hsb) as (fb & Hfb & Hb).
    cbn [entry_name good bad] in Hfg, Hg, Hfb, Hb.
    rewrite Hdocx in Hfg. rewrite Hpdf in Hfb.
    assert (fg = Word) as -> by (by destruct fg).
    assert (fb = PDF) as -> by (by destruct fb).
    assert (Heg : extract L Word (input_path folder_path docx)
                  = Ok (strip (join (py " ") paragraphs))).
    { cbn [extract]. unfold extract_text_from_docx. by rewrite Hpar. }
    assert (Heb : extract L PDF (input_path folder_path pdf) = Raise e).
    { cbn [extract]. unfold extract_text_from_pdf. by rewrite Hbad. }
    set (tree := record_tree (input_path folder_path docx) Word
                   (strip (join (py " ") paragraphs))).
    unfold process_folder. rewrite Hmk, Hls.
    destruct Horder as [-> | ->]; cbn [fold_left].
    + destruct (process_entry_ok L F folder_path output_folder st [] good
                  Word _ Hsg Hok Hg Heg) as (st1 & -> & Hfiles1).
      destruct (process_entry_extract_raise L F folder_path output_folder
                  st1 ([] ++ [entry_name good]) bad PDF e Hsb Hb Heb)
        as (st2 & -> & Hfiles2).
      exists st2, (encode_tree 0 tree). split_and!.
      * reflexivity.
      * by rewrite Hfiles2, Hfiles1.
      * apply json_loads_encode_tree, record_tree_wf.
    + destruct (process_entry_extract_raise L F folder_path output_folder
                  st [] bad PDF e Hsb Hb Heb) as (st1 & -> & Hfiles1).
      destruct (process_entry_ok L F folder_path output_folder st1 [] good
                  Word _ Hsg Hok Hg Heg) as (st2 & -> & Hfiles2).
      exists st2, (encode_tree 0 tree). split_and!.
      * reflexivity.
      * by rewrite Hfiles2, Hfiles1.
      * apply json_loads_encode_tree, record_tree_wf.
Qed.

Lemma process_folder_skips_failures_witness :
  ∃ st' text,
    process_folder demo_library demo_filesystem empty_state
                   (py "docs") (py "output")
    = (st', Ok [py "b.docx"])
    ∧ st_files st' = [(py "output/b_normalized.json", text)]
    ∧ json_loads text
      = Ok (record_tree (py "docs/b.docx") Word (py "Hello World")).
Proof.
  destruct (process_folder_skips_failures demo_library demo_filesystem
              empty_state (py "docs") (py "output")
              [ {| entry_name := py "broken.pdf"; entry_is_file := true |};
                {| entry_name := py "b.docx"; entry_is_file := true |} ]
              eq_refl eq_refl) as [_ Hscenario].
  exact (Hscenario (py "b.docx") (py "broken.pdf") [py "Hello"; py "World"]
           (DecoderError (py "No /Root object! - Is this really a PDF?"))
           (or_intror eq_refl) eq_refl eq_refl eq_refl eq_refl eq_refl).
Defined.

(** ** The single-document pipeline *)

(** C6.  Whatever the document, the text an extractor returns has no
    white space at its start and none at its end. *)
Theorem extractors_return_trimmed L path text :
  extract_text_from_pdf L path = Ok text
  ∨ extract_text_from_docx L path = Ok text
  ∨ extract_text_from_ppt L path = Ok text
  ∨ extract_text_from_epub L path = Ok text →
  trimmed text.
Proof.
  unfold extract_text_from_pdf, extract_text_from_docx, extract_text_from_ppt,
    extract_text_from_epub.
  intros [H|[H|[H|H]]].
  - destruct (pdf_pages L path); [|discriminate H].
    injection H as <-. apply strip_trimmed.
  - destruct (docx_paragraphs L path); [|discriminate H].
    injection H as <-. apply strip_trimmed.
  - destruct (pptx_slides L path); [|discriminate H].
    injection H as <-. apply strip_trimmed.
  - destruct (epub_items L path) as [items|]; [|discriminate H].
    cbn [bind] in H. destruct (epub_concat items []); [|discriminate H].
    injection H as <-. apply strip_trimmed.
Qed.

Lemma extractors_return_trimmed_witness :
  extract_text_from_pdf demo_library (py "docs/a.pdf") = Ok (py "Hello world")
  ∧ extract_text_from_ppt demo_library (py "docs/d.pptx")
    = Ok (py "Title" ++ [newline] ++ py "Body")
  ∧ trimmed (py "Hello world").
Proof.
  split; [reflexivity|]. split; [reflexivity|].
  exact (extractors_return_trimmed demo_library (py "docs/a.pdf")
           (py "Hello world") (or_introl eq_refl)).
Defined.

(** C1.  When the path ends with the suffix of a format, the pairs of
    suffix and label being (.pdf, PDF), (.docx, Word), (.xlsx, Excel),
    (.pptx, PowerPoint), (.epub, EPUB): if the extractor of the format
    returns a text, [preprocess_document] returns a record whose
    [file_type] is the label of the format and whose [content] is that
    text; any record it returns has that [file_type] and a string, not
    [None], as [content]; and if the extractor raises, so does
    [preprocess_document], with the same exception and no record. *)
Theorem preprocess_document_file_type L h path f :
  endswith path (format_suffix f) = true →
  (format_suffix f, format_label f)
    ∈ [(py ".pdf", py "PDF"); (py ".docx", py "Word"); (py ".xlsx", py "Excel");
       (py ".pptx", py "PowerPoint"); (py ".epub", py "EPUB")]
  ∧ (∀ text, extract L f path = Ok text →
       ∃ h' r, preprocess_document L h path = Ok (h', r)
               ∧ getitem h' r (py "file_type") = Ok (VStr (format_label f))
               ∧ getitem h' r (py "content") = Ok (VStr text))
  ∧ (∀ h' r, preprocess_document L h path = Ok (h', r) →
       getitem h' r (py "file_type") = Ok (VStr (format_label f))
       ∧ (∃ text, getitem h' r (py "content") = Ok (VStr text))
       ∧ getitem h' r (py "content") ≠ Ok VNone)
  ∧ (∀ e, extract L f path = Raise e →
       preprocess_document L h path = Raise e).
Proof.
  intros Hf. rewrite (preprocess_document_dispatch L h path f Hf).
  split_and!.
  - destruct f; cbn [format_suffix format_label];
      rewrite !elem_of_cons; auto 10.
  - intros text ->. cbn [bind].
    destruct (built_record_fields h path f text) as (Ht & Hc & _).
    destruct (built_record h path f text) as [h' r]. by exists h', r.
  - intros h' r Hok.
    destruct (extract L f path) as [text|e]; [|discriminate Hok].
    cbn [bind] in Hok.
    assert (Hb : built_record h path f text = (h', r)) by congruence.
    pose proof (built_record_fields h path f text) as Hfields.
    cbn zeta in Hfields. rewrite Hb in Hfields. cbn [fst snd] in Hfields.
    destruct Hfields as (Ht & Hc & _).
    split_and!; [done|by exists text|]. by rewrite Hc.
  - by intros e ->.
Qed.

Lemma preprocess_document_file_type_witness :
  ∃ h' r,
    preprocess_document demo_library [] (py "docs/a.pdf") = Ok (h', r)
    ∧ getitem h' r (py "file_type") = Ok (VStr (py "PDF"))
    ∧ getitem h' r (py "content") = Ok (VStr (py "Hello world")).
Proof.
  destruct (preprocess_document_file_type demo_library [] (py "docs/a.pdf")
              PDF eq_refl) as (_ & Hreturns & _).
  exact (Hreturns (py "Hello world") eq_refl).
Defined.

(** C3.  [preprocess_document] picks the format by the suffix of the
    path string alone, compared character for character.  It raises
    [ValueError("Unsupported file type: ...")] when the path ends with
    none of the five suffixes, as for [report.xyz] and, the comparison
    being case-sensitive, for [REPORT.PDF].  When the path ends with one
    of them the result is the one of the matching extractor: the record
    built from its text, or the exception the extractor raised and no
    other. *)
Theorem unsupported_format L h path :
  ((∀ f, endswith path (format_suffix f) = false) →
     preprocess_document L h path
     = Raise (ValueError (py "Unsupported file type: " ++ path)))
  ∧ (∀ f, endswith path (format_suffix f) = true →
       preprocess_document L h path
       = (let* text := extract L f path in Ok (built_record h path f text))
       ∧ ∀ e, preprocess_document L h path = Raise e
              ↔ extract L f path = Raise e)
  ∧ preprocess_document L h (py "report.xyz")
    = Raise (ValueError (py "Unsupported file type: report.xyz"))
  ∧ preprocess_document L h (py "REPORT.PDF")
    = Raise (ValueError (py "Unsupported file type: REPORT.PDF")).
Proof.
  split_and!.
  - apply preprocess_document_unsupported.
  - intros f Hf. rewrite (preprocess_document_dispatch L h path f Hf).
    split; [done|]. intros e.
    destruct (extract L f path) as [text|e']; cbn [bind].
    + split; intros H; discriminate H.
    + split; intros [= ->]; reflexivity.
  - reflexivity.
  - reflexivity.
Qed.

(** C5.  The record [preprocess_document] returns carries a metadata
    dictionary with exactly [author] = "Unknown", [date] = "2023-10-01"
    and [source] = the base name of the path: what follows the last
    slash of the path, or the whole path when it has none. *)
Theorem preprocess_document_default_metadata L h path h' r :
  preprocess_document L h path = Ok (h', r) →
  ∃ m,
    getitem h' r (py "metadata") = Ok (VRef m)
    ∧ h' !! m = Some [(py "author", VStr (py "Unknown"));
                      (py "date", VStr (py "2023-10-01"));
                      (py "source", VStr (basename path))]
    ∧ ∃ d, path = d ++ basename path
           ∧ (slash ∉ basename path)
           ∧ (d = [] ∨ ∃ d', d = d' ++ [slash]).
Proof.
  intros Hok.
  destruct (preprocess_document_ok_inv L h path h' r Hok)
    as (f & text & _ & _ & Hb).
  pose proof (built_record_fields h path f text) as Hfields.
  pose proof (built_record_lookup h path f text) as Hlookup.
  cbn zeta in Hfields. rewrite <- Hb in Hfields, Hlookup.
  cbn [fst snd] in Hfields, Hlookup.
  destruct Hfields as (_ & _ & Hm). destruct Hlookup as [_ Hl].
  exists (length h). split_and!; [done|done|apply basename_spec].
Qed.

Lemma preprocess_document_default_metadata_witness :
  ∃ m,
    getitem (built_record [] (py "docs/b.docx") Word (py "Hello World")).1
            (VRef 1) (py "metadata") = Ok (VRef m)
    ∧ (built_record [] (py "docs/b.docx") Word (py "Hello World")).1 !! m
      = Some [(py "author", VStr (py "Unknown"));
              (py "date", VStr (py "2023-10-01"));
              (py "source", VStr (py "b.docx"))].
Proof.
  destruct (preprocess_document_default_metadata demo_library []
              (py "docs/b.docx")
              (built_record [] (py "docs/b.docx") Word (py "Hello World")).1
              (VRef 1) eq_refl) as (m & Hm & Hl & _).
  exists m. split; [exact Hm|exact Hl].
Defined.

(** ** Spreadsheets *)

Lemma comprehension_nodup {A V} (g : A → V) (items : list (pystr * A)) :
  ∀ acc, NoDup (acc.*1 ++ items.*1) →
         fold_left (fun acc item => dict_set item.1 (g item.2) acc) items acc
         = acc ++ map (fun s => (s.1, g s.2)) items.
Proof.
  induction items as [|[k a] items IH]; intros acc Hnd; simpl.
  - by rewrite app_nil_r.
  - simpl in Hnd. rewrite dict_set_fresh.
    + rewrite IH.
      * by rewrite <- app_assoc.
      * rewrite fmap_app. simpl. by rewrite <- app_assoc.
    + apply NoDup_app in Hnd as (_ & Hdis & _).
      intros Hin. apply (Hdis _ Hin), elem_of_cons. by left.
Qed.

Lemma dict_get_nodup {V} (d : list (pystr * V)) k v :
  NoDup d.*1 → (k, v) ∈ d → dict_get k d = Some v.
Proof.
  induction d as [|[k' v'] d IH]; intros Hnd Hin.
  - by apply elem_of_nil in Hin.
  - simpl in *. apply NoDup_cons in Hnd as [Hk' Hnd].
    apply elem_of_cons in Hin as [[= -> ->]|Hin].
    + by rewrite bool_decide_eq_true_2.
    + rewrite bool_decide_eq_false_2; [by apply IH|].
      intros ->. apply Hk'. apply list_elem_of_fmap. by exists (k, v).
Qed.

Lemma to_dict_records_zip df :
  NoDup (df_columns df) →
  Forall (fun r => length r = length (df_columns df)) (df_rows df) →
  to_dict_records df = map (zip (df_columns df)) (df_rows df).
Proof.
  intros Hnd Hrows. unfold to_dict_records.
  induction Hrows as [|r rows Hr _ IH]; [done|].
  cbn [map]. rewrite IH. f_equal.
  apply dict_of_pairs_nodup. rewrite fst_zip by lia. exact Hnd.
Qed.

(** C7.  For a workbook whose sheets [read_excel] returns,
    [extract_tables_from_excel] returns the mapping that takes each
    sheet name to the records of that sheet, in sheet order; the records
    of a sheet are its rows in order, each the pairs of column label and
    cell in column order; and for a path ending in [.xlsx]
    [preprocess_document] returns a record of type "Excel" whose
    [content] is the string [str] makes of that mapping. *)
Theorem excel_tables_then_string L path sheets :
  read_excel L path = Ok sheets →
  NoDup sheets.*1 →
  extract_tables_from_excel L path = Ok (tables_of sheets)
  ∧ (∀ name df, (name, df) ∈ sheets →
       dict_get name (tables_of sheets) = Some (to_dict_records df))
  ∧ (∀ df, NoDup (df_columns df) →
       Forall (fun r => length r = length (df_columns df)) (df_rows df) →
       to_dict_records df = map (zip (df_columns df)) (df_rows df))
  ∧ (∀ h, endswith path (py ".xlsx") = true →
       ∃ h' r,
         preprocess_document L h path = Ok (h', r)
         ∧ getitem h' r (py "file_type") = Ok (VStr (py "Excel"))
         ∧ getitem h' r (py "content")
           = Ok (VStr (str_of_tables L (tables_of sheets)))).
Proof.
  intros Hread Hnd.
  assert (Hex : extract_tables_from_excel L path = Ok (tables_of sheets)).
  { unfold extract_tables_from_excel. rewrite Hread. cbn [bind]. f_equal.
    by rewrite (comprehension_nodup to_dict_records sheets []). }
  split_and!.
  - exact Hex.
  - intros name df Hin. apply dict_get_nodup.
    + unfold tables_of. rewrite <- list_fmap_compose.
      by rewrite (list_fmap_ext _ fst sheets) by done.
    + unfold tables_of. apply list_elem_of_fmap. by exists (name, df).
  - apply to_dict_records_zip.
  - intros h Hsuf.
    rewrite (preprocess_document_dispatch L h path Excel Hsuf).
    cbn [extract]. rewrite Hex. cbn [bind].
    destruct (built_record_fields h path Excel
                (str_of_tables L (tables_of sheets))) as (Ht & Hc & _).
    destruct (built_record h path Excel _) as [h' r]. by exists h', r.
Qed.

Lemma excel_tables_then_string_witness :
  extract_tables_from_excel demo_library (py "docs/c.xlsx") = Ok demo_tables
  ∧ ∃ h' r,
      preprocess_document demo_library [] (py "docs/c.xlsx") = Ok (h', r)
      ∧ getitem h' r (py "content")
        = Ok (VStr (py "{'Sheet1': [{'A': 1, 'B': 2}, {'A': 3, 'B': 4}]}")).
Proof.
  destruct (excel_tables_then_string demo_library (py "docs/c.xlsx")
              [(py "Sheet1", demo_frame)] eq_refl)
    as (Htables & _ & _ & Hrecord).
  { apply NoDup_singleton. }
  split; [exact Htables|].
  destruct (Hrecord [] eq_refl) as (h' & r & Hrun & _ & Hcontent).
  exists h', r. split; [exact Hrun|exact Hcontent].
Defined.

(** ** Writing a record and reading it back *)

Lemma reads_scalars (h : heap) (ms : list loc) (md : dict) :
  Forall (fun kv => is_scalar kv.2) md →
  Forall2 (fun kv kt => kv.1 = kt.1 ∧ reads h ms kv.2 kt.2) md
          (map (fun kv => (kv.1, scalar_tree kv.2)) md).
Proof.
  induction 1 as [|[k v] md Hv _ IH]; cbn [map]; constructor; [|exact IH].
  split; [done|]. destruct v; [constructor|constructor|destruct Hv].
Qed.

Lemma reads_record (h : heap) r ft c m (md : dict) :
  h !! r = Some (record_dict (VStr ft) (VStr c) (VRef m)) →
  h !! m = Some md →
  Forall (fun kv => is_scalar kv.2) md →
  reads h [] (VRef r)
        (JObj [(py "file_type", JStr ft); (py "content", JStr c);
               (py "metadata", metadata_tree md)]).
Proof.
  intros Hr Hm Hmd.
  assert (Hne : m ≠ r).
  { intros ->. rewrite Hr in Hm. injection Hm as <-.
    unfold record_dict in Hmd. rewrite !Forall_cons in Hmd.
    destruct Hmd as (_ & _ & [] & _). }
  eapply reads_dict; [exact Hr|done|apply not_elem_of_nil|].
  repeat constructor; cbn [fst snd]. unfold metadata_tree.
  destruct md as [|kv md].
  - by apply reads_empty.
  - eapply reads_dict; [exact Hm|done| |by apply reads_scalars].
    rewrite elem_of_cons, elem_of_nil. tauto.
Qed.

Lemma keys_map_values {V W} (g : V → W) (d : list (pystr * V)) :
  (map (fun kv => (kv.1, g kv.2)) d).*1 = d.*1.
Proof. induction d as [|[k v] d IH]; [done|]. simpl. f_equal. exact IH. Qed.

Lemma record_wf ft c (md : dict) :
  NoDup md.*1 →
  json_wf (JObj [(py "file_type", JStr ft); (py "content", JStr c);
                 (py "metadata", metadata_tree md)]).
Proof.
  intros Hnd. cbn [json_wf all_values]. split_and!; try exact I.
  - apply (bool_decide_unpack _). vm_compute. exact I.
  - unfold metadata_tree. cbn [json_wf]. split.
    + by rewrite keys_map_values.
    + clear Hnd. induction md as [|[k v] md IH]; cbn [map all_values]; [done|].
      split; [by destruct v|exact IH].
Qed.

(** C9.  A normalized record (a dictionary with a string [file_type], a
    string [content] and a [metadata] dictionary of strings and [None]):
    whenever [json.dump], as the driver calls it, completes, [json.load]
    of the text written returns the record back, [file_type], [content]
    and [metadata] each equal to the original; [json.dump] completes
    when every character can be encoded in UTF-8 and otherwise raises
    [UnicodeEncodeError]. *)
Theorem json_round_trip (h : heap) r ft c m (md : dict) :
  h !! r = Some (record_dict (VStr ft) (VStr c) (VRef m)) →
  h !! m = Some md →
  NoDup md.*1 →
  Forall (fun kv => is_scalar kv.2) md →
  let t := JObj [(py "file_type", JStr ft); (py "content", JStr c);
                 (py "metadata", metadata_tree md)] in
  (∀ text, json_dump h (VRef r) = (text, None) → json_loads text = Ok t)
  ∧ (json_encodable t = true →
       json_dump h (VRef r) = (encode_tree 0 t, None))
  ∧ (json_encodable t = false →
       ∃ w, json_dump h (VRef r) = (w, Some UnicodeEncodeError)).
Proof.
  intros Hr Hm Hnd Hmd t.
  pose proof (json_dump_reads h (VRef r) t (reads_record h r ft c m md Hr Hm Hmd))
    as Hdump.
  pose proof (record_wf ft c md Hnd) as Hwf. fold t in Hwf.
  destruct (json_encodable t).
  - split_and!; [|done|done].
    intros text Htext.
    assert (text = encode_tree 0 t) as -> by congruence.
    by apply json_loads_encode_tree.
  - split_and!; [|done|done].
    intros text Htext. destruct Hdump as [w Hw]. rewrite Hw in Htext.
    discriminate Htext.
Qed.

Lemma json_round_trip_witness :
  ∃ text,
    json_dump demo_heap (VRef 1) = (text, None)
    ∧ json_loads text
      = Ok (JObj [(py "file_type", JStr (py "Word"));
                  (py "content", JStr (py "Hello World"));
                  (py "metadata",
                   JObj [(py "author", JStr (py "Unknown"));
                         (py "date", JStr (py "2023-10-01"));
                         (py "source", JStr (py "b.docx"))])]).
Proof.
  destruct (json_round_trip demo_heap 1 (py "Word") (py "Hello World") 0
              (default_metadata (py "docs/b.docx")) eq_refl eq_refl)
    as (Hload & Hdump & _).
  { apply (bool_decide_unpack _). vm_compute. exact I. }
  { repeat constructor. }
  eexists. split.
  - apply Hdump. reflexivity.
  - apply Hload, Hdump. reflexivity.
Defined.

(** ** The two entry points *)

Lemma processed_names_selected L F folder_path output_folder entries name :
  name ∈ map entry_name
             (List.filter (processed L F folder_path output_folder) entries) →
  suffix_of_name name ∈ extensions.
Proof.
  intros Hin. apply list_elem_of_fmap in Hin as (e & -> & He).
  apply list_elem_of_In, filter_In in He as [_ He].
  unfold processed, selected in He.
  rewrite !andb_true_iff, bool_decide_eq_true in He. tauto.
Qed.

(** C10.  For a file whose name is nothing but a supported suffix, such
    as [.pdf]: as a path, in any folder, it ends with that suffix, so
    [preprocess_document] hands it to the extractor of the format; its
    [Path.suffix] is empty, so the loop of [process_folder] passes it
    by without touching anything, and its name is in no list that
    [process_folder] returns. *)
Theorem entry_points_disagree L F f folder_path :
  let name := format_suffix f in
  let file := {| entry_name := name; entry_is_file := true |} in
  suffix_of_name name = []
  ∧ selected file = false
  ∧ endswith (input_path folder_path name) (format_suffix f) = true
  ∧ (∀ h, preprocess_document L h (input_path folder_path name)
          = (let* text := extract L f (input_path folder_path name) in
             Ok (built_record h (input_path folder_path name) f text)))
  ∧ (∀ st output_folder acc,
       process_entry L F folder_path output_folder (st, acc) file = (st, acc))
  ∧ (∀ st output_folder st' names,
       process_folder L F st folder_path output_folder = (st', Ok names) →
       name ∉ names).
Proof.
  intros name file.
  assert (Hsuf : suffix_of_name name = []) by (by destruct f).
  assert (Hsel : selected file = false) by (by destruct f).
  assert (Hend : endswith (input_path folder_path name) (format_suffix f) = true).
  { apply endswith_path_join, endswith_spec. by exists []. }
  split_and!; [done|done|done| | |].
  - intros h. by apply preprocess_document_dispatch.
  - intros st output_folder acc. unfold process_entry. fold (selected file).
    by rewrite Hsel.
  - intros st output_folder st' names Hrun Hin. unfold process_folder in Hrun.
    destruct (mkdir_exist_ok F output_folder); [|discriminate Hrun].
    destruct (iterdir F folder_path) as [entries|]; [|discriminate Hrun].
    destruct (process_entries_names L F folder_path output_folder entries st [])
      as [st1 Hfold].
    rewrite Hfold in Hrun. injection Hrun as _ <-. cbn [app] in Hin.
    apply processed_names_selected in Hin. rewrite Hsuf in Hin.
    unfold extensions in Hin. rewrite !elem_of_cons, elem_of_nil in Hin.
    destruct Hin as [H|[H|[H|[H|[H|[]]]]]]; discriminate H.
Qed.

(** ** Further facts about paths and the files written *)

(** A path whose last component has one of the suffixes as its
    [Path.suffix] ends with that suffix. *)
Lemma extension_endswith path f :
  suffix_of_name (basename path) = format_suffix f →
  endswith path (format_suffix f) = true.
Proof.
  intros Hsuf. destruct (basename_spec path) as (d & Hpath & _).
  assert (Hb : endswith (basename path) (format_suffix f) = true).
  { rewrite <- Hsuf. apply suffix_of_name_endswith. rewrite Hsuf. by destruct f. }
  apply endswith_spec in Hb as [pre Hpre]. apply endswith_spec.
  exists (d ++ pre). rewrite <- app_assoc, <- Hpre. exact Hpath.
Qed.

(** In the folder driver the [source] of a record is the file name. *)
Lemma basename_path_join d name :
  slash ∉ name → basename (path_join d name) = name.
Proof.
  intros Hname. unfold path_join.
  destruct (bool_decide (d = py ".")); [by apply basename_no_slash|].
  destruct (endswith d [slash]) eqn:Hd.
  - apply endswith_spec in Hd as [d' ->]. rewrite <- app_assoc.
    by apply basename_app_slash.
  - by apply basename_app_slash.
Qed.

(** What the [try] of the driver leaves in the output file when it ends
    without an exception reads back as the record of the file. *)
Lemma try_body_writes_record L F folder_path output_folder e st st' :
  selected e = true →
  try_body L F folder_path output_folder (entry_name e) st = (st', None) →
  ∃ f text,
    extract L f (input_path folder_path (entry_name e)) = Ok text
    ∧ ∃ written,
        dict_get (output_path output_folder (entry_name e)) (st_files st')
        = Some written
        ∧ json_loads written
          = Ok (record_tree (input_path folder_path (entry_name e)) f text).
Proof.
  intros Hsel Hrun.
  destruct (selected_format folder_path e Hsel) as (f & _ & Hf).
  destruct (extract L f (input_path folder_path (entry_name e)))
    as [text|ex] eqn:He.
  - destruct (open_w F (output_path output_folder (entry_name e)))
      as [u|ex] eqn:Ho.
    + pose proof (try_body_dump L F folder_path output_folder (entry_name e)
                    st f text u Hf He Ho) as Hd.
      cbn zeta in Hd. destruct (json_encodable _).
      * destruct Hd as (st1 & Hrun1 & Hfiles). rewrite Hrun in Hrun1.
        injection Hrun1 as <-. exists f, text. split; [done|].
        eexists. split.
        -- rewrite Hfiles, dict_get_set. by rewrite bool_decide_eq_true_2.
        -- apply json_loads_encode_tree, record_tree_wf.
      * destruct Hd as (st1 & Hrun1). rewrite Hrun in Hrun1.
        discriminate Hrun1.
    + destruct (try_body_open_raise L F folder_path output_folder
                  (entry_name e) st f text ex Hf He Ho) as (st1 & Hrun1 & _).
      rewrite Hrun in Hrun1. discriminate Hrun1.
  - rewrite (try_body_extract_raise L F _ _ _ st f ex Hf He) in Hrun.
    discriminate Hrun.
Qed.

(** ** Worked examples *)

Example strip_example :
  strip (py "  Hello World
 ") = py "Hello World"
  ∧ strip (py "   ") = [] ∧ strip [160; 65; 8232] = [65].
Proof. repeat split; reflexivity. Qed.

Example path_examples :
  basename (py "docs/in/a.pdf") = py "a.pdf"
  ∧ basename (py "a.pdf") = py "a.pdf"
  ∧ suffix_of_name (py "a.tar.gz") = py ".gz"
  ∧ suffix_of_name (py ".pdf") = []
  ∧ suffix_of_name (py "notes.") = []
  ∧ stem_of_name (py "report.docx") = py "report"
  ∧ stem_of_name (py ".pdf") = py ".pdf"
  ∧ path_join (py ".") (py "a.pdf") = py "a.pdf"
  ∧ path_join (py "docs") (py "a.pdf") = py "docs/a.pdf"
  ∧ path_join (py "/") (py "a.pdf") = py "/a.pdf"
  ∧ endswith (py "a.PDF") (py ".pdf") = false.
Proof. repeat split; reflexivity. Qed.

Example docx_example :
  extract_text_from_docx demo_library (py "docs/b.docx") = Ok (py "Hello World").
Proof. reflexivity. Qed.

Example epub_example :
  extract_text_from_epub demo_library (py "docs/e.epub")
  = Ok [60; 112; 62; 233; 60; 47; 112; 62]
  ∧ utf8_decode [255; 216] = Raise UnicodeDecodeError
  ∧ utf8_decode [226; 130; 172; 240; 159; 152; 128] = Ok [8364; 128512]
  ∧ utf8_decode [237; 160; 128] = Raise UnicodeDecodeError
  ∧ utf8_decode [192; 128] = Raise UnicodeDecodeError.
Proof. repeat split; reflexivity. Qed.

Example excel_example :
  to_dict_records demo_frame
  = [[(py "A", CInt 1); (py "B", CInt 2)]; [(py "A", CInt 3); (py "B", CInt 4)]].
Proof. reflexivity. Qed.

(** The file the driver writes for [docs/b.docx]. *)
Example json_dump_example :
  json_dump demo_heap (VRef 1)
  = (pyq "{
    'file_type': 'Word',
    'content': 'Hello World',
    'metadata': {
        'author': 'Unknown',
        'date': '2023-10-01',
        'source': 'b.docx'
    }
}", None).
Proof. reflexivity. Qed.

Example json_escape_example :
  encode_basestring [34; 92; 10; 1; 233; 127]
  = pyq "'\'\\\n\u0001" ++ [233; 127; 34]
  ∧ json_loads (pyq "{'a': 'x\/', 'b': null, 'a': {}}")
    = Ok (JObj [(py "a", JObj []); (py "b", JNull)])
  ∧ json_loads (pyq "'\ud83d\ude00\u00e9'") = Ok (JStr [128512; 233])
  ∧ json_loads (pyq "{'a': 1}") = Raise (JSONDecodeError (py "Expecting value"))
  ∧ json_loads (pyq "'x' 'y'") = Raise (JSONDecodeError (py "Extra data")).
Proof. repeat split; reflexivity. Qed.

(** A dictionary that contains itself is refused, as is a string with a
    lone surrogate; what was written before stays in the file. *)
Example json_dump_failures :
  json_dump [[(py "self", VRef 0)]] (VRef 0)
  = (pyq "{
    'self': ", Some (ValueError (py "Circular reference detected")))
  ∧ json_dump [[(py "k", VStr [55357])]] (VRef 0)
    = (pyq "{
    'k': ", Some UnicodeEncodeError).
Proof. split; reflexivity. Qed.

Example enrich_examples :
  enrich_with_metadata demo_heap (VRef 1) VNone VNone VNone
  = Ok (demo_heap, VRef 1)
  ∧ enrich_with_metadata [[(py "file_type", VStr (py "Word"))]] (VRef 0)
      (VStr (py "A")) VNone VNone
    = Raise (KeyError (py "metadata"))
  ∧ enrich_with_metadata [[]; record_dict (VStr (py "Word")) (VStr []) (VRef 0)]
      (VRef 1) (VStr (py "John Doe")) (VStr (py "2024-02-18"))
      (VStr (py "sample_document.docx"))
    = Ok ([[(py "author", VStr (py "John Doe"));
            (py "date", VStr (py "2024-02-18"));
            (py "source", VStr (py "sample_document.docx"))];
           record_dict (VStr (py "Word")) (VStr []) (VRef 0)], VRef 1).
Proof. repeat split; reflexivity. Qed.

(** * Further properties of the code *)

(** ** What [strip] removes *)

Lemma forallb_rev {A} (f : A → bool) l : forallb f (rev l) = forallb f l.
Proof.
  induction l as [|x l IH]; [done|].
  cbn [rev forallb]. rewrite forallb_app, IH. cbn [forallb].
  rewrite andb_true_r. apply andb_comm.
Qed.

Lemma drop_while_all {A} (f : A → bool) l :
  forallb f l = true → drop_while f l = [].
Proof.
  induction l as [|x l IH]; [done|]. cbn [forallb drop_while].
  intros [-> Hl]%andb_true_iff. by apply IH.
Qed.

Lemma drop_while_prefix {A} (f : A → bool) l :
  ∃ pre, l = pre ++ drop_while f l ∧ forallb f pre = true.
Proof.
  induction l as [|x l (pre & Hpre & Hall)]; cbn [drop_while].
  - by exists [].
  - destruct (f x) eqn:Hx.
    + exists (x :: pre). cbn [forallb app]. rewrite Hx, Hall.
      split; [by f_equal|done].
    + by exists [].
Qed.

Lemma drop_while_app_keep {A} (f : A → bool) l t :
  drop_while f l ≠ [] → drop_while f (l ++ t) = drop_while f l ++ t.
Proof.
  induction l as [|x l IH]; cbn [drop_while app]; [done|].
  destruct (f x); [exact IH|done].
Qed.

(** [strip] takes white space off the two ends and nothing else. *)
Lemma strip_decompose s :
  ∃ a b, s = a ++ strip s ++ b
         ∧ forallb is_space a = true ∧ forallb is_space b = true.
Proof.
  destruct (drop_while_prefix is_space s) as (a & Ha & Hsa).
  destruct (drop_while_prefix is_space (rev (lstrip s))) as (p & Hp & Hsp).
  exists a, (rev p). split_and!; [|done|by rewrite forallb_rev].
  unfold strip, rstrip. rewrite <- rev_app_distr, <- Hp, rev_involutive.
  exact Ha.
Qed.

Lemma strip_all_space s : forallb is_space s = true → strip s = [].
Proof.
  intros Hs. unfold strip, rstrip, lstrip.
  rewrite (drop_while_all _ s Hs). reflexivity.
Qed.

Lemma strip_nil_iff s : strip s = [] ↔ forallb is_space s = true.
Proof.
  split; [|apply strip_all_space].
  intros Hs. destruct (strip_decompose s) as (a & b & Heq & Ha & Hb).
  rewrite Hs in Heq. rewrite Heq, !forallb_app, Ha, Hb. reflexivity.
Qed.

Lemma strip_app_space s c : is_space c = true → strip (s ++ [c]) = strip s.
Proof.
  intros Hc. destruct (forallb is_space s) eqn:Hs.
  - rewrite (strip_all_space s Hs). apply strip_all_space.
    rewrite forallb_app, Hs. cbn [forallb]. by rewrite Hc.
  - assert (Hne : drop_while is_space s ≠ []).
    { intros Hnil. destruct (drop_while_prefix is_space s) as (a & Ha & Hsa).
      rewrite Hnil, app_nil_r in Ha. rewrite <- Ha in Hsa. congruence. }
    unfold strip, lstrip, rstrip.
    rewrite (drop_while_app_keep _ _ _ Hne), rev_app_distr.
    cbn [rev app drop_while]. by rewrite Hc.
Qed.

Lemma forallb_strip (P : N → bool) s :
  forallb P s = true → forallb P (strip s) = true.
Proof.
  destruct (strip_decompose s) as (a & b & Heq & _ & _).
  rewrite Heq at 1. rewrite !forallb_app, !andb_true_iff. tauto.
Qed.

(** ** What the extractors keep *)

Lemma pdf_fold_concat (pages : list (option pystr)) :
  ∀ acc,
    fold_left
      (fun text page_text =>
         match page_text with
         | Some t => if negb (bool_decide (t = [])) then text ++ t else text
         | None => text
         end) pages acc
    = acc ++ concat (omap id pages).
Proof.
  induction pages as [|[t|] pages IH]; intros acc.
  - simpl. by rewrite app_nil_r.
  - change (omap id (Some t :: pages)) with (t :: omap id pages).
    cbn [fold_left concat]. rewrite IH.
    case_bool_decide as Ht; cbn [negb].
    + by rewrite Ht.
    + by rewrite <- app_assoc.
  - change (omap id (None :: pages)) with (omap id pages).
    cbn [fold_left]. by rewrite IH.
Qed.

Lemma forallb_concat {A} (f : A → bool) (ls : list (list A)) :
  forallb f (concat ls) = true ↔ Forall (fun l => forallb f l = true) ls.
Proof.
  induction ls as [|l ls IH]; cbn [concat].
  - split; [constructor|done].
  - rewrite forallb_app, andb_true_iff, Forall_cons, IH. tauto.
Qed.

(** X1.  The text of a PDF is the texts of its pages, in page order and
    with nothing between them, stripped; a page for which
    [extract_text] gives [None] or the empty string adds nothing. *)
Theorem pdf_text_is_concatenation L path pages :
  pdf_pages L path = Ok pages →
  extract_text_from_pdf L path = Ok (strip (concat (omap id pages))).
Proof.
  intros Hpages. unfold extract_text_from_pdf. rewrite Hpages. cbn [bind].
  by rewrite pdf_fold_concat.
Qed.

Lemma pdf_text_is_concatenation_witness :
  extract_text_from_pdf demo_library (py "docs/a.pdf")
  = Ok (strip (py "  Hello " ++ py "world ")).
Proof.
  exact (pdf_text_is_concatenation demo_library (py "docs/a.pdf")
           [Some (py "  Hello "); None; Some (py "world ")] eq_refl).
Defined.

(** X2.  A PDF that opens yields the empty string exactly when no page
    has a character other than white space, and then
    [preprocess_document] does not fail: it returns a "PDF" record
    whose content is the empty string. *)
Theorem textless_pdf_gives_empty_content L h path pages :
  endswith path (py ".pdf") = true →
  pdf_pages L path = Ok pages →
  (extract_text_from_pdf L path = Ok []
   ↔ Forall (fun p => ∀ t, p = Some t → forallb is_space t = true) pages)
  ∧ (Forall (fun p => ∀ t, p = Some t → forallb is_space t = true) pages →
     ∃ h' r,
       preprocess_document L h path = Ok (h', r)
       ∧ getitem h' r (py "file_type") = Ok (VStr (py "PDF"))
       ∧ getitem h' r (py "content") = Ok (VStr [])).
Proof.
  intros Hsuf Hpages.
  assert (Hiff : extract_text_from_pdf L path = Ok []
    ↔ Forall (fun p => ∀ t, p = Some t → forallb is_space t = true) pages).
  { unfold extract_text_from_pdf. rewrite Hpages. cbn [bind].
    rewrite pdf_fold_concat. cbn [app].
    assert (Hall : Forall (fun l => forallb is_space l = true) (omap id pages)
      ↔ Forall (fun p => ∀ t, p = Some t → forallb is_space t = true) pages).
    { clear. induction pages as [|[t|] pages IH].
      - split; constructor.
      - change (omap id (Some t :: pages)) with (t :: omap id pages).
        rewrite !Forall_cons, IH. split.
        + intros [Ht Hr]. split; [|done]. by intros ? [= <-].
        + intros [Ht Hr]. split; [|done]. by apply Ht.
      - change (omap id (None :: pages)) with (omap id pages).
        rewrite Forall_cons, IH. split; [|tauto].
        intros Hr. split; [|done]. intros ? [=]. }
    rewrite <- Hall, <- forallb_concat, <- strip_nil_iff.
    split; [by intros [= ->]|by intros ->]. }
  split; [exact Hiff|]. intros Hblank. apply Hiff in Hblank.
  rewrite (preprocess_document_dispatch L h path PDF Hsuf).
  cbn [extract]. rewrite Hblank. cbn [bind].
  destruct (built_record_fields h path PDF []) as (Ht & Hc & _).
  destruct (built_record h path PDF []) as [h' r]. by exists h', r.
Qed.

Lemma textless_pdf_gives_empty_content_witness :
  ∃ h' r,
    preprocess_document scanned_library [] (py "scan.pdf") = Ok (h', r)
    ∧ getitem h' r (py "file_type") = Ok (VStr (py "PDF"))
    ∧ getitem h' r (py "content") = Ok (VStr []).
Proof.
  destruct (textless_pdf_gives_empty_content scanned_library []
              (py "scan.pdf") [None; Some (py " "); None] eq_refl eq_refl)
    as [_ Hrecord].
  apply Hrecord. repeat constructor; intros t [= <-]; reflexivity.
Defined.

Lemma ppt_slide_fold (slide : list (option pystr)) :
  ∀ acc,
    fold_left
      (fun text shape =>
         match shape with
         | Some t => text ++ t ++ [newline]
         | None => text
         end) slide acc
    = acc ++ concat (map (fun t => t ++ [newline]) (omap id slide)).
Proof.
  induction slide as [|[t|] slide IH]; intros acc.
  - simpl. by rewrite app_nil_r.
  - change (omap id (Some t :: slide)) with (t :: omap id slide).
    cbn [fold_left map concat]. rewrite IH. by rewrite <- !app_assoc.
  - change (omap id (None :: slide)) with (omap id slide).
    cbn [fold_left]. by rewrite IH.
Qed.

Lemma ppt_fold (slides : list (list (option pystr))) :
  ∀ acc,
    fold_left
      (fun text slide =>
         fold_left
           (fun text shape =>
              match shape with
              | Some t => text ++ t ++ [newline]
              | None => text
              end) slide text) slides acc
    = acc ++ concat (map (fun t => t ++ [newline]) (omap id (concat slides))).
Proof.
  induction slides as [|slide slides IH]; intros acc.
  - simpl. by rewrite app_nil_r.
  - cbn [fold_left concat]. rewrite IH, ppt_slide_fold, omap_app, map_app,
      concat_app. by rewrite <- app_assoc.
Qed.

Lemma concat_lines (texts : list pystr) :
  texts ≠ [] →
  concat (map (fun t => t ++ [newline]) texts)
  = join [newline] texts ++ [newline].
Proof.
  induction texts as [|t texts IH]; [done|]. intros _.
  destruct texts as [|t' texts].
  - simpl. by rewrite app_nil_r.
  - cbn [map concat join] in *. rewrite IH by done.
    by rewrite <- !app_assoc.
Qed.

Lemma strip_lines (texts : list pystr) :
  strip (concat (map (fun t => t ++ [newline]) texts))
  = strip (join [newline] texts).
Proof.
  destruct texts as [|t texts]; [reflexivity|].
  rewrite concat_lines by done. by apply strip_app_space.
Qed.

(** X3.  The text of a presentation is the texts of its shapes that
    have one, slide after slide and shape after shape, joined by
    newlines and stripped: the newline the loop adds after the last
    shape is not part of the result. *)
Theorem ppt_text_is_newline_join L path slides :
  pptx_slides L path = Ok slides →
  extract_text_from_ppt L path
  = Ok (strip (join [newline] (omap id (concat slides)))).
Proof.
  intros Hslides. unfold extract_text_from_ppt. rewrite Hslides. cbn [bind].
  rewrite ppt_fold. cbn [app]. f_equal. apply strip_lines.
Qed.

Lemma ppt_text_is_newline_join_witness :
  extract_text_from_ppt demo_library (py "docs/d.pptx")
  = Ok (strip (join [newline] [py "Title"; py "Body"])).
Proof.
  exact (ppt_text_is_newline_join demo_library (py "docs/d.pptx")
           [[Some (py "Title"); None]; [Some (py "Body")]] eq_refl).
Defined.

(** X4.  The text of a Word document is its paragraphs joined by single
    spaces, less white space at the two ends: nothing inside is
    removed or changed. *)
Theorem docx_text_keeps_inside L path paragraphs :
  docx_paragraphs L path = Ok paragraphs →
  ∃ text a b,
    extract_text_from_docx L path = Ok text
    ∧ join (py " ") paragraphs = a ++ text ++ b
    ∧ forallb is_space a = true
    ∧ forallb is_space b = true.
Proof.
  intros Hpar. unfold extract_text_from_docx. rewrite Hpar. cbn [bind].
  destruct (strip_decompose (join (py " ") paragraphs)) as (a & b & Heq & Ha & Hb).
  by exists (strip (join (py " ") paragraphs)), a, b.
Qed.

Lemma docx_text_keeps_inside_witness :
  ∃ text a b,
    extract_text_from_docx demo_library (py "docs/b.docx") = Ok text
    ∧ py "Hello World" = a ++ text ++ b
    ∧ forallb is_space a = true
    ∧ forallb is_space b = true.
Proof.
  exact (docx_text_keeps_inside demo_library (py "docs/b.docx")
           [py "Hello"; py "World"] eq_refl).
Defined.

(** ** Decoding EPUB content *)

(** What [utf8_decode] returns can be encoded again, and what it raises
    is [UnicodeDecodeError]. *)
Lemma utf8_decode_spec bs :
  match utf8_decode bs with
  | Ok s => forallb encodable s = true
  | Raise e => e = UnicodeDecodeError
  end.
Proof.
  remember (length bs) as n eqn:Hn.
  assert (Hle : (length bs ≤ n)%nat) by lia. clear Hn.
  revert bs Hle. induction n as [|n IH]; intros bs Hle.
  { destruct bs; [done|simpl in Hle; lia]. }
  destruct bs as [|b0 r0]; [done|]. cbn [length] in Hle. cbn [utf8_decode].
  destruct (b0 <? 128) eqn:H0.
  { pose proof (IH r0 ltac:(lia)) as Hr. destruct (utf8_decode r0); cbn [bind].
    - cbn [forallb]. rewrite Hr, andb_true_r. bool_facts. encodable_by_range.
    - exact Hr. }
  destruct (in_range 194 223 b0) eqn:H1.
  { destruct r0 as [|b1 r1]; [done|]. cbn [length] in Hle.
    destruct (is_cont b1) eqn:Hc1; [|done].
    pose proof (IH r1 ltac:(lia)) as Hr. destruct (utf8_decode r1); cbn [bind].
    - cbn [forallb]. rewrite Hr, andb_true_r. bool_facts. encodable_by_range.
    - exact Hr. }
  destruct (in_range 224 239 b0) eqn:H2.
  { destruct r0 as [|b1 [|b2 r2]]; [done|done|]. cbn [length] in Hle.
    destruct (in_range _ _ b1 && is_cont b2) eqn:Hc; [|done].
    pose proof (IH r2 ltac:(lia)) as Hr. destruct (utf8_decode r2); cbn [bind].
    - cbn [forallb]. rewrite Hr, andb_true_r. bool_facts.
      destruct (N.eqb_spec b0 224), (N.eqb_spec b0 237); bool_facts;
        encodable_by_range.
    - exact Hr. }
  destruct (in_range 240 244 b0) eqn:H3; [|done].
  destruct r0 as [|b1 [|b2 [|b3 r3]]]; [done|done|done|]. cbn [length] in Hle.
  destruct (in_range _ _ b1 && is_cont b2 && is_cont b3) eqn:Hc; [|done].
  pose proof (IH r3 ltac:(lia)) as Hr. destruct (utf8_decode r3); cbn [bind].
  - cbn [forallb]. rewrite Hr, andb_true_r. bool_facts.
    destruct (N.eqb_spec b0 240), (N.eqb_spec b0 244); bool_facts;
      encodable_by_range.
  - exact Hr.
Qed.

Lemma utf8_decode_encodable bs s :
  utf8_decode bs = Ok s → forallb encodable s = true.
Proof. intros H. pose proof (utf8_decode_spec bs) as Hs. by rewrite H in Hs. Qed.

Lemma utf8_decode_raises bs e :
  utf8_decode bs = Raise e → e = UnicodeDecodeError.
Proof. intros H. pose proof (utf8_decode_spec bs) as Hs. by rewrite H in Hs. Qed.

Lemma epub_concat_ok items :
  ∀ acc text,
    epub_concat items acc = Ok text →
    ∃ ts, Forall2 (fun it t => utf8_decode it.2 = Ok t) (document_items items) ts
          ∧ text = acc ++ concat ts.
Proof.
  induction items as [|[ty content] items IH]; intros acc text Hrun.
  - injection Hrun as <-. exists []. split; [constructor|by rewrite app_nil_r].
  - cbn [epub_concat] in Hrun. unfold document_items. cbn [List.filter fst].
    destruct (ty =? ITEM_DOCUMENT).
    + destruct (utf8_decode content) as [t|] eqn:Ht; [|discriminate Hrun].
      cbn [bind] in Hrun. destruct (IH _ _ Hrun) as (ts & Hts & ->).
      exists (t :: ts). split; [by constructor|].
      cbn [concat]. by rewrite <- app_assoc.
    + exact (IH _ _ Hrun).
Qed.

Lemma epub_concat_raise items :
  ∀ acc e,
    epub_concat items acc = Raise e →
    e = UnicodeDecodeError ∧ Exists undecodable items.
Proof.
  induction items as [|[ty content] items IH]; intros acc e Hrun;
    [discriminate Hrun|].
  cbn [epub_concat] in Hrun.
  destruct (N.eqb_spec ty ITEM_DOCUMENT) as [Hty|Hty].
  - destruct (utf8_decode content) as [t|e'] eqn:Ht; cbn [bind] in Hrun.
    + destruct (IH _ _ Hrun) as [-> Hex]. split; [done|by apply Exists_cons_tl].
    + injection Hrun as <-. pose proof (utf8_decode_raises _ _ Ht) as ->.
      split; [done|]. apply Exists_cons_hd. by split.
  - destruct (IH _ _ Hrun) as [-> Hex]. split; [done|by apply Exists_cons_tl].
Qed.

Lemma epub_concat_undecodable items :
  Exists undecodable items →
  ∀ acc, epub_concat items acc = Raise UnicodeDecodeError.
Proof.
  induction 1 as [[ty content] items [Hty Hbad]|[ty content] items _ IH];
    intros acc; cbn [epub_concat].
  - cbn [fst snd] in Hty, Hbad. rewrite Hty, N.eqb_refl, Hbad. reflexivity.
  - destruct (ty =? ITEM_DOCUMENT); [|apply IH].
    destruct (utf8_decode content) as [t|e] eqn:Ht; cbn [bind]; [apply IH|].
    by rewrite (utf8_decode_raises _ _ Ht).
Qed.

(** X5.  For an EPUB that opens, [extract_text_from_epub] raises
    exactly when one of its document items is not valid UTF-8, and what
    it raises is [UnicodeDecodeError]; items of other types are never
    decoded.  When it returns, the text is the decoded document items in
    package order, with nothing between them, stripped. *)
Theorem epub_decode_failure L path items :
  epub_items L path = Ok items →
  (extract_text_from_epub L path = Raise UnicodeDecodeError
   ↔ Exists undecodable items)
  ∧ (∀ e, extract_text_from_epub L path = Raise e → e = UnicodeDecodeError)
  ∧ (∀ text, extract_text_from_epub L path = Ok text →
       ∃ ts, Forall2 (fun it t => utf8_decode it.2 = Ok t)
                     (document_items items) ts
             ∧ text = strip (concat ts)).
Proof.
  intros Hitems. unfold extract_text_from_epub. rewrite Hitems. cbn [bind].
  split_and!.
  - split.
    + intros Hrun. destruct (epub_concat items []) as [text|e] eqn:Hc;
        [discriminate Hrun|].
      by destruct (epub_concat_raise items [] e Hc).
    + intros Hex. by rewrite (epub_concat_undecodable items Hex).
  - intros e Hrun. destruct (epub_concat items []) as [text|e'] eqn:Hc;
      [discriminate Hrun|].
    cbn [bind] in Hrun. injection Hrun as <-.
    by destruct (epub_concat_raise items [] e' Hc).
  - intros text Hrun. destruct (epub_concat items []) as [raw|e] eqn:Hc;
      [|discriminate Hrun].
    cbn [bind] in Hrun. injection Hrun as <-.
    destruct (epub_concat_ok items [] raw Hc) as (ts & Hts & ->).
    by exists ts.
Qed.

Lemma epub_decode_failure_witness :
  extract_text_from_epub demo_library (py "docs/e.epub")
  = Ok (strip (concat [[60; 112; 62; 233; 60; 47; 112; 62; 10]]))
  ∧ ¬ Exists undecodable
        [(ITEM_DOCUMENT, [60; 112; 62; 195; 169; 60; 47; 112; 62; 10]);
         (1, [255; 216])].
Proof.
  destruct (epub_decode_failure demo_library (py "docs/e.epub")
              [(ITEM_DOCUMENT, [60; 112; 62; 195; 169; 60; 47; 112; 62; 10]);
               (1, [255; 216])] eq_refl) as (Hraise & _ & _).
  split; [reflexivity|]. intros Hex. apply Hraise in Hex. discriminate Hex.
Defined.

Lemma record_tree_encodable path f text :
  json_encodable (record_tree path f text)
  = forallb encodable text && forallb encodable (basename path).
Proof.
  unfold record_tree. cbn [json_encodable all_members].
  destruct f; cbn [format_label];
    repeat match goal with
    | |- context [forallb encodable (py ?s)] =>
        change (forallb encodable (py s)) with true
    end; cbn [andb]; by rewrite !andb_true_r.
Qed.

(** X6.  The text extracted from an EPUB has no surrogate in it, so
    writing the record of an EPUB cannot fail on its content: when the
    file name can be encoded, [json.dump] of the record that
    [preprocess_document] returns runs to the end. *)
Theorem epub_text_is_encodable L h path :
  (∀ text, extract_text_from_epub L path = Ok text →
           forallb encodable text = true)
  ∧ (∀ h' r,
       endswith path (py ".epub") = true →
       forallb encodable (basename path) = true →
       preprocess_document L h path = Ok (h', r) →
       ∃ text, extract_text_from_epub L path = Ok text
               ∧ json_dump h' r
                 = (encode_tree 0 (record_tree path EPUB text), None)).
Proof.
  assert (Henc : ∀ text, extract_text_from_epub L path = Ok text →
                         forallb encodable text = true).
  { intros text Hrun. unfold extract_text_from_epub in Hrun.
    destruct (epub_items L path) as [items|]; [|discriminate Hrun].
    cbn [bind] in Hrun.
    destruct (epub_concat items []) as [raw|] eqn:Hc; [|discriminate Hrun].
    cbn [bind] in Hrun. injection Hrun as <-. apply forallb_strip.
    destruct (epub_concat_ok items [] raw Hc) as (ts & Hts & ->).
    cbn [app]. apply forallb_concat.
    clear Hc. induction Hts as [|it t its ts Ht _ IH]; constructor; [|exact IH].
    by apply (utf8_decode_encodable it.2). }
  split; [exact Henc|]. intros h' r Hsuf Hname Hrun.
  rewrite (preprocess_document_dispatch L h path EPUB Hsuf) in Hrun.
  cbn [extract] in Hrun.
  destruct (extract_text_from_epub L path) as [text|] eqn:Hx;
    [|discriminate Hrun].
  cbn [bind] in Hrun. exists text. split; [done|].
  pose proof (json_dump_built_record h path EPUB text) as Hdump.
  cbn zeta in Hdump.
  rewrite record_tree_encodable, (Henc text eq_refl), Hname in Hdump.
  assert (Hb : built_record h path EPUB text = (h', r)) by congruence.
  rewrite Hb in Hdump. exact Hdump.
Qed.

Lemma epub_text_is_encodable_witness :
  ∃ text,
    extract_text_from_epub demo_library (py "docs/e.epub") = Ok text
    ∧ json_dump
        (built_record [] (py "docs/e.epub") EPUB
           [60; 112; 62; 233; 60; 47; 112; 62]).1 (VRef 1)
      = (encode_tree 0 (record_tree (py "docs/e.epub") EPUB text), None).
Proof.
  destruct (epub_text_is_encodable demo_library [] (py "docs/e.epub"))
    as [_ Hdump].
  exact (Hdump (built_record [] (py "docs/e.epub") EPUB
                  [60; 112; 62; 233; 60; 47; 112; 62]).1
               (VRef 1) eq_refl eq_refl eq_refl).
Defined.

(** ** What one turn of the driver does *)

Lemma file_error_ok L F folder_path output_folder name :
  file_error L F folder_path output_folder name = None
  ↔ file_ok L F folder_path output_folder name = true.
Proof.
  unfold file_error, file_ok.
  destruct (format_of _) as [f|]; [|done].
  destruct (extract L f _) as [text|]; [|done].
  destruct (open_w F _); [|done].
  by destruct (json_encodable _).
Qed.

(** The [try] of the driver, in full: the exception, the lines printed
    and the files afterwards. *)
Lemma try_body_spec L F folder_path output_folder name st :
  ∃ st',
    try_body L F folder_path output_folder name st
    = (st', file_error L F folder_path output_folder name)
    ∧ st_log st'
      = st_log st
        ++ LogProcessing name
           :: match file_error L F folder_path output_folder name with
              | None => [LogSaved (output_path output_folder name)]
              | Some _ => []
              end
    ∧ (st_files st' = st_files st
       ∨ ∃ w, st_files st'
              = dict_set (output_path output_folder name) w (st_files st)).
Proof.
  unfold try_body, file_error.
  pose proof (format_of_spec (input_path folder_path name)) as Hs.
  fold (input_path folder_path name). fold (output_path output_folder name).
  assert (Hfin : ∀ (st' : state) (err : option exn) (lines : list log_line),
    st_log st' = (st_log st ++ [LogProcessing name]) ++ lines →
    (st_files st' = st_files st
     ∨ ∃ w, st_files st'
            = dict_set (output_path output_folder name) w (st_files st)) →
    ∃ st'', (st', err) = (st'', err)
      ∧ st_log st'' = st_log st ++ LogProcessing name :: lines
      ∧ (st_files st'' = st_files st
         ∨ ∃ w, st_files st''
                = dict_set (output_path output_folder name) w (st_files st))).
  { intros st' err lines Hlog Hfiles. exists st'.
    split_and!; [done| |done]. by rewrite Hlog, <- app_assoc. }
  destruct (format_of (input_path folder_path name)) as [f|].
  - rewrite (preprocess_document_dispatch L _ _ f Hs).
    destruct (extract L f (input_path folder_path name)) as [text|ex];
      cbn [bind].
    2: { apply Hfin; [by rewrite app_nil_r|by left]. }
    pose proof (json_dump_built_record (st_heap st)
                  (input_path folder_path name) f text) as Hdump.
    cbn zeta in Hdump. cbn [print st_heap].
    destruct (built_record (st_heap st) (input_path folder_path name) f text)
      as [h' r].
    cbn [fst snd] in Hdump.
    destruct (open_w F (output_path output_folder name)) as [u|ex].
    2: { apply Hfin; [by rewrite app_nil_r|by left]. }
    destruct (json_encodable _).
    + rewrite Hdump. apply Hfin; [done|]. right. by eexists.
    + destruct Hdump as [w ->]. apply Hfin; [by rewrite app_nil_r|].
      right. by eexists.
  - rewrite (preprocess_document_unsupported L _ _ Hs).
    apply Hfin; [by rewrite app_nil_r|by left].
Qed.

Lemma process_entry_spec L F folder_path output_folder st acc e :
  ∃ st',
    process_entry L F folder_path output_folder (st, acc) e
    = (st', acc ++ (if processed L F folder_path output_folder e
                    then [entry_name e] else []))
    ∧ st_log st' = st_log st ++ entry_log L F folder_path output_folder e
    ∧ (st_files st' = st_files st
       ∨ selected e = true
         ∧ ∃ w, st_files st'
                = dict_set (output_path output_folder (entry_name e)) w
                           (st_files st)).
Proof.
  unfold process_entry, processed, entry_log. fold (selected e).
  destruct (selected e) eqn:Hsel; cbn [andb].
  - destruct (try_body_spec L F folder_path output_folder (entry_name e) st)
      as (st' & -> & Hlog & Hfiles).
    pose proof (file_error_ok L F folder_path output_folder (entry_name e))
      as Hok.
    destruct (file_error L F folder_path output_folder (entry_name e))
      as [ex|].
    + destruct (file_ok _ _ _ _ _); [by destruct Hok as [_ Hok]; discriminate Hok|].
      eexists. split_and!.
      * by rewrite app_nil_r.
      * cbn [print st_log]. rewrite Hlog, <- app_assoc. reflexivity.
      * cbn [print st_files]. destruct Hfiles as [?|?]; [by left|by right].
    + destruct Hok as [Hok _]. rewrite (Hok eq_refl).
      eexists. split_and!; [done|done|].
      destruct Hfiles as [?|?]; [by left|by right].
  - exists st. rewrite !app_nil_r. split_and!; [done|done|by left].
Qed.

Lemma process_entries_spec L F folder_path output_folder entries :
  ∀ st acc, ∃ st',
    fold_left (process_entry L F folder_path output_folder) entries (st, acc)
    = (st', acc ++ map entry_name
                     (List.filter (processed L F folder_path output_folder)
                                  entries))
    ∧ st_log st'
      = st_log st ++ flat_map (entry_log L F folder_path output_folder) entries
    ∧ (∀ p, (∀ e, e ∈ entries → selected e = true →
                  p ≠ output_path output_folder (entry_name e)) →
            dict_get p (st_files st') = dict_get p (st_files st))
    ∧ (∀ p, is_Some (dict_get p (st_files st)) →
            is_Some (dict_get p (st_files st'))).
Proof.
  induction entries as [|e entries IH]; intros st acc.
  - exists st. cbn [fold_left List.filter map flat_map].
    rewrite !app_nil_r. done.
  - cbn [fold_left List.filter flat_map].
    destruct (process_entry_spec L F folder_path output_folder st acc e)
      as (st1 & -> & Hlog1 & Hfiles1).
    destruct (IH st1 (acc ++ (if processed L F folder_path output_folder e
                              then [entry_name e] else [])))
      as (st' & -> & Hlog & Hframe & Hkeep).
    exists st'. split_and!.
    + f_equal. rewrite <- app_assoc.
      by destruct (processed L F folder_path output_folder e).
    + by rewrite Hlog, Hlog1, <- app_assoc.
    + intros p Hp. rewrite Hframe.
      * destruct Hfiles1 as [->|(Hsel & w & ->)]; [done|].
        rewrite dict_get_set, bool_decide_eq_false_2; [done|].
        intros Heq. apply (Hp e); [apply elem_of_cons; by left|done|done].
      * intros e' He'. apply Hp, elem_of_cons. by right.
    + intros p Hp. apply Hkeep.
      destruct Hfiles1 as [->|(_ & w & ->)]; [done|].
      rewrite dict_get_set. by case_bool_decide.
Qed.

(** X7.  What [process_folder] prints, line for line: for each regular
    file with a supported suffix, in listing order, "Processing" with
    its name and then either "Saved" with the output path or "Error"
    with its name and the exception of its extractor, of opening the
    output file, or [UnicodeEncodeError]; for any other entry, nothing.
    With the suffix test of the loop, the unsupported-format error of
    [preprocess_document] is never among them. *)
Theorem process_folder_log L F st folder_path output_folder entries :
  mkdir_exist_ok F output_folder = Ok tt →
  iterdir F folder_path = Ok entries →
  (∃ st' names,
     process_folder L F st folder_path output_folder = (st', Ok names)
     ∧ st_log st'
       = st_log st
         ++ flat_map (entry_log L F folder_path output_folder) entries)
  ∧ (∀ e, selected e = true →
          ∃ f, format_suffix f = suffix_of_name (entry_name e)
               ∧ format_of (input_path folder_path (entry_name e)) = Some f).
Proof.
  intros Hmk Hls. split.
  - unfold process_folder. rewrite Hmk, Hls.
    destruct (process_entries_spec L F folder_path output_folder entries st [])
      as (st' & -> & Hlog & _).
    by eexists _, _.
  - intros e. apply selected_format.
Qed.

Lemma process_folder_log_witness :
  ∃ st' names,
    process_folder demo_library demo_filesystem empty_state
                   (py "docs") (py "output") = (st', Ok names)
    ∧ st_log st'
      = [LogProcessing (py "broken.pdf");
         LogError (py "broken.pdf")
           (DecoderError (py "No /Root object! - Is this really a PDF?"));
         LogProcessing (py "b.docx");
         LogSaved (py "output/b_normalized.json")].
Proof.
  destruct (process_folder_log demo_library demo_filesystem empty_state
              (py "docs") (py "output")
              [ {| entry_name := py "broken.pdf"; entry_is_file := true |};
                {| entry_name := py "b.docx"; entry_is_file := true |} ]
              eq_refl eq_refl) as [Hrun _].
  exact Hrun.
Defined.

(** X8.  [process_folder] writes nowhere but to the output files of
    the entries it takes up: a path that is not
    [<output>/<stem>_normalized.json] for a regular file of the listing
    with a supported suffix holds afterwards what it held before, and
    no file that was there is gone. *)
Theorem process_folder_touches_only_outputs
    L F st folder_path output_folder entries st' names :
  iterdir F folder_path = Ok entries →
  process_folder L F st folder_path output_folder = (st', Ok names) →
  (∀ p, (∀ e, e ∈ entries → selected e = true →
              p ≠ output_path output_folder (entry_name e)) →
        dict_get p (st_files st') = dict_get p (st_files st))
  ∧ (∀ p, is_Some (dict_get p (st_files st)) →
          is_Some (dict_get p (st_files st'))).
Proof.
  intros Hls Hrun. unfold process_folder in Hrun.
  destruct (mkdir_exist_ok F output_folder); [|discriminate Hrun].
  rewrite Hls in Hrun.
  destruct (process_entries_spec L F folder_path output_folder entries st [])
    as (st1 & Hfold & _ & Hframe & Hkeep).
  rewrite Hfold in Hrun. injection Hrun as <- _. by split.
Qed.

Lemma process_folder_touches_only_outputs_witness :
  dict_get (py "output/notes.txt")
    (st_files (process_folder demo_library demo_filesystem notes_state
                 (py "docs") (py "output")).1)
  = Some (py "keep me").
Proof.
  pose proof (proj1 (process_folder_touches_only_outputs demo_library
                       demo_filesystem notes_state (py "docs") (py "output")
                       [ {| entry_name := py "broken.pdf";
                            entry_is_file := true |};
                         {| entry_name := py "b.docx";
                            entry_is_file := true |} ]
                       (process_folder demo_library demo_filesystem
                          notes_state (py "docs") (py "output")).1
                       [py "b.docx"] eq_refl eq_refl)
                (py "output/notes.txt")) as Hkept.
  apply Hkept. intros e He _.
  repeat (apply elem_of_cons in He as [->|He]; [by vm_compute|]).
  by apply elem_of_nil in He.
Defined.

(** ** Output files *)

Lemma dict_set_set {V} k (v1 v2 : V) d :
  dict_set k v2 (dict_set k v1 d) = dict_set k v2 d.
Proof.
  induction d as [|[k' v'] d IH]; cbn [dict_set].
  - by rewrite bool_decide_eq_true_2.
  - case_bool_decide as Hk; cbn [dict_set].
    + by rewrite bool_decide_eq_true_2.
    + rewrite bool_decide_eq_false_2 by done. by rewrite IH.
Qed.

Lemma path_join_inj d x y : path_join d x = path_join d y → x = y.
Proof.
  unfold path_join. destruct (bool_decide (d = py ".")); [done|].
  destruct (endswith d [slash]); intros H.
  - by apply app_inv_head in H.
  - by apply app_inv_head, app_inv_head in H.
Qed.

Lemma stem_suffix name : stem_of_name name ++ suffix_of_name name = name.
Proof.
  unfold stem_of_name, suffix_of_name.
  destruct ((0 <? rfind dot name)%Z && _).
  - apply take_drop.
  - apply app_nil_r.
Qed.

Lemma output_path_eq_iff output_folder n1 n2 :
  output_path output_folder n1 = output_path output_folder n2
  ↔ stem_of_name n1 = stem_of_name n2.
Proof.
  unfold output_path. split; [|by intros ->].
  intros H. apply path_join_inj in H. by apply app_inv_tail in H.
Qed.

(** X9.  The output files of two entries are the same file exactly when
    the two names have the same stem.  When a folder holds two
    documents of the same stem and both go through, [process_folder]
    reports both names, yet writes one file, and what it holds at
    the end is the record of the second. *)
Theorem same_stem_overwrites L F st folder_path output_folder e1 e2 :
  mkdir_exist_ok F output_folder = Ok tt →
  iterdir F folder_path = Ok [e1; e2] →
  selected e1 = true →
  selected e2 = true →
  file_ok L F folder_path output_folder (entry_name e1) = true →
  file_ok L F folder_path output_folder (entry_name e2) = true →
  stem_of_name (entry_name e1) = stem_of_name (entry_name e2) →
  (∀ n1 n2, output_path output_folder n1 = output_path output_folder n2
            ↔ stem_of_name n1 = stem_of_name n2)
  ∧ ∃ st' f text,
      process_folder L F st folder_path output_folder
      = (st', Ok [entry_name e1; entry_name e2])
      ∧ extract L f (input_path folder_path (entry_name e2)) = Ok text
      ∧ st_files st'
        = dict_set (output_path output_folder (entry_name e2))
            (encode_tree 0
               (record_tree (input_path folder_path (entry_name e2)) f text))
            (st_files st).
Proof.
  intros Hmk Hls Hs1 Hs2 Hok1 Hok2 Hstem.
  split; [apply output_path_eq_iff|].
  destruct (file_ok_inv _ _ _ _ _ Hok1) as (f1 & t1 & _ & Hf1 & He1 & _).
  destruct (file_ok_inv _ _ _ _ _ Hok2) as (f2 & t2 & _ & Hf2 & He2 & _).
  unfold process_folder. rewrite Hmk, Hls. cbn [fold_left].
  destruct (process_entry_ok L F folder_path output_folder st [] e1 f1 t1
              Hs1 Hok1 Hf1 He1) as (st1 & -> & Hfiles1).
  destruct (process_entry_ok L F folder_path output_folder st1
              ([] ++ [entry_name e1]) e2 f2 t2 Hs2 Hok2 Hf2 He2)
    as (st2 & -> & Hfiles2).
  exists st2, f2, t2. split_and!; [done|done|].
  rewrite Hfiles2, Hfiles1.
  rewrite (proj2 (output_path_eq_iff output_folder _ _) Hstem).
  apply dict_set_set.
Qed.

Lemma same_stem_overwrites_witness :
  ∃ st' f text,
    process_folder twin_library twin_filesystem empty_state
                   (py "in") (py "out")
    = (st', Ok [py "a.pdf"; py "a.docx"])
    ∧ extract twin_library f (py "in/a.docx") = Ok text
    ∧ st_files st'
      = [(py "out/a_normalized.json",
          encode_tree 0 (record_tree (py "in/a.docx") f text))].
Proof.
  exact (proj2 (same_stem_overwrites twin_library twin_filesystem empty_state
                  (py "in") (py "out")
                  {| entry_name := py "a.pdf"; entry_is_file := true |}
                  {| entry_name := py "a.docx"; entry_is_file := true |}
                  eq_refl eq_refl eq_refl eq_refl eq_refl eq_refl eq_refl)).
Defined.

Lemma process_entries_outputs L F folder_path output_folder entries :
  ∀ st acc st' names,
    fold_left (process_entry L F folder_path output_folder) entries (st, acc)
    = (st', names) →
    NoDup (map (fun e => stem_of_name (entry_name e))
               (List.filter selected entries)) →
    ∀ e, e ∈ entries → processed L F folder_path output_folder e = true →
         ∃ f text,
           format_of (input_path folder_path (entry_name e)) = Some f
           ∧ extract L f (input_path folder_path (entry_name e)) = Ok text
           ∧ dict_get (output_path output_folder (entry_name e)) (st_files st')
             = Some (encode_tree 0
                       (record_tree (input_path folder_path (entry_name e))
                                    f text)).
Proof.
  induction entries as [|e0 entries IH]; intros st acc st' names Hfold Hnd e He Hp.
  { by apply elem_of_nil in He. }
  cbn [fold_left] in Hfold.
  destruct (process_entry L F folder_path output_folder (st, acc) e0)
    as [st1 acc1] eqn:H0.
  cbn [List.filter] in Hnd.
  assert (Hnd' : NoDup (map (fun e => stem_of_name (entry_name e))
                            (List.filter selected entries))).
  { destruct (selected e0); [|done]. cbn [map] in Hnd.
    by apply NoDup_cons in Hnd as [_ Hnd]. }
  apply elem_of_cons in He as [->|He]; [|by apply (IH st1 acc1 st' names)].
  unfold processed in Hp. apply andb_true_iff in Hp as [Hsel Hok].
  destruct (file_ok_inv _ _ _ _ _ Hok) as (f & text & _ & Hf & Hx & _).
  exists f, text. split_and!; [done|done|].
  destruct (process_entry_ok L F folder_path output_folder st acc e0 f text
              Hsel Hok Hf Hx) as (st1' & H0' & Hfiles).
  rewrite H0 in H0'. injection H0' as <- _.
  destruct (process_entries_spec L F folder_path output_folder entries st1 acc1)
    as (st2 & Hfold2 & _ & Hframe & _).
  rewrite Hfold in Hfold2. injection Hfold2 as <- _.
  rewrite Hframe.
  - rewrite Hfiles, dict_get_set. by rewrite bool_decide_eq_true_2.
  - intros e' He' Hsel' Heq. apply output_path_eq_iff in Heq.
    rewrite Hsel in Hnd. cbn [map] in Hnd. apply NoDup_cons in Hnd as [Hnot _].
    apply Hnot. rewrite Heq.
    apply (list_elem_of_fmap_2 (fun e => stem_of_name (entry_name e))).
    apply list_elem_of_In, filter_In. split; [by apply list_elem_of_In|done].
Qed.

(** X10.  When the files [process_folder] takes up have pairwise
    distinct stems, every name it returns has its output file in place
    at the end, and that file reads back as the record of the document:
    the type that goes with the suffix of the name, the text of the
    extractor, and the default metadata with the file's own name as
    [source]. *)
Theorem outputs_hold_the_records
    L F st folder_path output_folder entries st' names :
  iterdir F folder_path = Ok entries →
  process_folder L F st folder_path output_folder = (st', Ok names) →
  NoDup (map (fun e => stem_of_name (entry_name e))
             (List.filter selected entries)) →
  (∀ e, e ∈ entries → slash ∉ entry_name e) →
  ∀ name, name ∈ names →
    ∃ f text written,
      format_suffix f = suffix_of_name name
      ∧ extract L f (input_path folder_path name) = Ok text
      ∧ dict_get (output_path output_folder name) (st_files st') = Some written
      ∧ json_loads written = Ok (named_record_tree name f text).
Proof.
  intros Hls Hrun Hnd Hnames name Hin. unfold process_folder in Hrun.
  destruct (mkdir_exist_ok F output_folder); [|discriminate Hrun].
  rewrite Hls in Hrun.
  destruct (fold_left _ entries (st, [])) as [st1 names1] eqn:Hfold.
  injection Hrun as <- <-.
  destruct (process_entries_spec L F folder_path output_folder entries st [])
    as (st2 & Hfold2 & _).
  rewrite Hfold in Hfold2. injection Hfold2 as _ Hnames1.
  rewrite Hnames1 in Hin. cbn [app] in Hin.
  apply list_elem_of_fmap in Hin as (e & -> & He).
  apply list_elem_of_In, filter_In in He as [He Hp].
  apply list_elem_of_In in He.
  destruct (process_entries_outputs L F folder_path output_folder entries
              st [] st1 names1 Hfold Hnd e He Hp) as (f & text & Hf & Hx & Hget).
  assert (Hsel : selected e = true).
  { unfold processed in Hp. by apply andb_true_iff in Hp as [? _]. }
  destruct (selected_format folder_path e Hsel) as (f' & Hsuf & Hf').
  rewrite Hf in Hf'. injection Hf' as <-.
  exists f, text. eexists. split_and!; [done|done|exact Hget|].
  rewrite json_loads_encode_tree by apply record_tree_wf.
  unfold record_tree, named_record_tree, input_path.
  by rewrite basename_path_join by by apply Hnames.
Qed.

Lemma outputs_hold_the_records_witness :
  ∃ f text written,
    format_suffix f = suffix_of_name (py "b.docx")
    ∧ extract demo_library f (input_path (py "docs") (py "b.docx")) = Ok text
    ∧ dict_get (output_path (py "output") (py "b.docx"))
        (st_files (process_folder demo_library demo_filesystem empty_state
                     (py "docs") (py "output")).1) = Some written
    ∧ json_loads written = Ok (named_record_tree (py "b.docx") f text).
Proof.
  apply (outputs_hold_the_records demo_library demo_filesystem empty_state
           (py "docs") (py "output")
           [ {| entry_name := py "broken.pdf"; entry_is_file := true |};
             {| entry_name := py "b.docx"; entry_is_file := true |} ]
           _ [py "b.docx"] eq_refl eq_refl).
  - apply (bool_decide_unpack _). vm_compute. exact I.
  - intros e He. repeat (apply elem_of_cons in He as [->|He];
      [apply (bool_decide_unpack _); vm_compute; exact I|]).
    by apply elem_of_nil in He.
  - apply elem_of_cons. by left.
Defined.

(** ** Normalisation and enrichment, further *)

(** The three guarded assignments one after the other, on a record that
    has a metadata dictionary. *)
Lemma enrich_chain h data m d author date source :
  getitem h data (py "metadata") = Ok (VRef m) →
  h !! m = Some d →
  let d1 := assign_if (truthy h author) (py "author") author d in
  let h1 := <[m := d1]> h in
  let d2 := assign_if (truthy h1 date) (py "date") date d1 in
  let h2 := <[m := d2]> h1 in
  let d3 := assign_if (truthy h2 source) (py "source") source d2 in
  let h3 := <[m := d3]> h2 in
  enrich_with_metadata h data author date source = Ok (h3, data)
  ∧ getitem h3 data (py "metadata") = Ok (VRef m)
  ∧ h3 !! m = Some d3.
Proof.
  intros Hget Hm d1 h1 d2 h2 d3 h3.
  destruct metadata_keys_distinct as (Ha & Hd & Hs & _).
  destruct (enrich_field_spec h data m d (py "author") author Ha Hget Hm)
    as (E1 & G1 & M1).
  destruct (enrich_field_spec h1 data m d1 (py "date") date Hd G1 M1)
    as (E2 & G2 & M2).
  destruct (enrich_field_spec h2 data m d2 (py "source") source Hs G2 M2)
    as (E3 & G3 & M3).
  split_and!; [|exact G3|exact M3].
  unfold enrich_with_metadata. fold d1 h1 in E1. rewrite E1. cbn [bind].
  fold d2 h2 in E2. rewrite E2. cbn [bind]. fold d3 h3 in E3. by rewrite E3.
Qed.

Lemma enrich_frame h data m d author date source h' data' :
  getitem h data (py "metadata") = Ok (VRef m) →
  h !! m = Some d →
  enrich_with_metadata h data author date source = Ok (h', data') →
  ∀ l, l ≠ m → h' !! l = h !! l.
Proof.
  intros Hget Hm Hrun l Hl.
  destruct (enrich_chain h data m d author date source Hget Hm) as (Hok & _).
  cbn zeta in Hok. rewrite Hok in Hrun. injection Hrun as <- _.
  by rewrite !list_lookup_insert_ne.
Qed.

(** X11.  [normalize_to_json] makes a new dictionary and touches no
    other; it does not copy the metadata it is given: an assignment
    made afterwards through the caller's own reference to that
    dictionary shows in the record, whose other fields stay as they
    are. *)
Theorem normalize_shares_metadata h file_type content m d k x :
  h !! m = Some d →
  ∃ h1 rec h2,
    normalize_to_json h file_type content (VRef m) = (h1, rec)
    ∧ rec = VRef (length h)
    ∧ (∀ l, (l < length h)%nat → h1 !! l = h !! l)
    ∧ setitem h1 (VRef m) k x = Ok h2
    ∧ getitem h2 rec (py "metadata") = Ok (VRef m)
    ∧ getitem h2 (VRef m) k = Ok x
    ∧ getitem h2 rec (py "file_type") = Ok file_type
    ∧ getitem h2 rec (py "content") = Ok content.
Proof.
  intros Hm. pose proof (lookup_lt_Some _ _ _ Hm) as Hlt.
  set (recd := [(py "file_type", file_type); (py "content", content);
                (py "metadata", VRef m)]).
  assert (H1 : (h ++ [recd]) !! m = Some d) by (by rewrite lookup_app_l).
  assert (Hrec : (<[m := dict_set k x d]> (h ++ [recd])) !! length h
                 = Some recd).
  { rewrite list_lookup_insert_ne by lia.
    rewrite lookup_app_r by lia. by rewrite Nat.sub_diag. }
  exists (h ++ [recd]), (VRef (length h)),
         (<[m := dict_set k x d]> (h ++ [recd])).
  split_and!.
  - reflexivity.
  - reflexivity.
  - intros l Hl. by rewrite lookup_app_l.
  - cbn [setitem]. by rewrite H1.
  - cbn [getitem]. by rewrite Hrec.
  - cbn [getitem].
    rewrite list_lookup_insert_eq by (rewrite length_app; simpl; lia).
    by rewrite dict_get_set, bool_decide_eq_true_2.
  - cbn [getitem]. by rewrite Hrec.
  - cbn [getitem]. by rewrite Hrec.
Qed.

Lemma normalize_shares_metadata_witness :
  ∃ h1 rec h2,
    normalize_to_json [[]] (VStr (py "Word")) (VStr (py "text")) (VRef 0)
    = (h1, rec)
    ∧ setitem h1 (VRef 0) (py "author") (VStr (py "A")) = Ok h2
    ∧ getitem h2 rec (py "metadata") = Ok (VRef 0)
    ∧ getitem h2 (VRef 0) (py "author") = Ok (VStr (py "A")).
Proof.
  destruct (normalize_shares_metadata [[]] (VStr (py "Word"))
              (VStr (py "text")) 0 [] (py "author") (VStr (py "A")) eq_refl)
    as (h1 & rec & h2 & Hn & _ & _ & Hs & Hm & Ha & _).
  by exists h1, rec, h2.
Defined.

Lemma enrich_raises h data author date source e :
  (∀ key x, (let* m := getitem h data (py "metadata") in setitem h m key x)
            = Raise e) →
  truthy h author || truthy h date || truthy h source = true →
  enrich_with_metadata h data author date source = Raise e.
Proof.
  intros Hfail Hsome. unfold enrich_with_metadata, enrich_field.
  destruct (truthy h author); [by rewrite Hfail|]. cbn [bind].
  destruct (truthy h date); [by rewrite Hfail|]. cbn [bind].
  destruct (truthy h source); [by rewrite Hfail|]. discriminate Hsome.
Qed.

(** X12.  [enrich_with_metadata] raises exactly when one of its
    arguments is truthy and the record has no metadata dictionary to
    assign to; with nothing truthy it returns the record and changes
    nothing, whatever the record is.  On a dictionary without a
    ["metadata"] key what it raises is [KeyError('metadata')]. *)
Theorem enrich_needs_metadata h data author date source :
  ((∃ e, enrich_with_metadata h data author date source = Raise e)
   ↔ truthy h author || truthy h date || truthy h source = true
     ∧ ¬ has_metadata h data)
  ∧ (truthy h author || truthy h date || truthy h source = false →
     enrich_with_metadata h data author date source = Ok (h, data))
  ∧ (∀ l dct,
       data = VRef l → h !! l = Some dct →
       dict_get (py "metadata") dct = None →
       truthy h author || truthy h date || truthy h source = true →
       enrich_with_metadata h data author date source
       = Raise (KeyError (py "metadata"))).
Proof.
  assert (Hnone : truthy h author || truthy h date || truthy h source = false →
                  enrich_with_metadata h data author date source = Ok (h, data)).
  { intros Hf. apply orb_false_iff in Hf as [Hf Hs].
    apply orb_false_iff in Hf as [Ha Hd].
    unfold enrich_with_metadata.
    rewrite (enrich_field_falsy h data _ author Ha). cbn [bind].
    rewrite (enrich_field_falsy h data _ date Hd). cbn [bind].
    by rewrite (enrich_field_falsy h data _ source Hs). }
  split_and!; [|exact Hnone|].
  - split.
    + intros [e Hrun].
      destruct (truthy h author || truthy h date || truthy h source) eqn:Hsome.
      * split; [done|]. intros (m & d & Hget & Hm).
        destruct (enrich_chain h data m d author date source Hget Hm)
          as (Hok & _). cbn zeta in Hok. rewrite Hok in Hrun.
        discriminate Hrun.
      * rewrite (Hnone eq_refl) in Hrun. discriminate Hrun.
    + intros [Hsome Hno].
      destruct (getitem h data (py "metadata")) as [[|t|m]|e] eqn:Hget.
      * eexists. apply enrich_raises; [|done]. intros key x. by rewrite Hget.
      * eexists. apply enrich_raises; [|done]. intros key x. by rewrite Hget.
      * destruct (h !! m) as [d|] eqn:Hm.
        -- destruct Hno. by exists m, d.
        -- eexists. apply enrich_raises; [|done]. intros key x.
           rewrite Hget. cbn [bind setitem]. by rewrite Hm.
      * exists e. apply enrich_raises; [|done]. intros key x. by rewrite Hget.
  - intros l dct -> Hl Hkey Hsome. apply enrich_raises; [|done].
    intros key x. cbn [getitem]. by rewrite Hl, Hkey.
Qed.

Lemma enrich_needs_metadata_witness :
  enrich_with_metadata [[(py "file_type", VStr (py "Word"))]] (VRef 0)
    (VStr (py "A")) VNone VNone
  = Raise (KeyError (py "metadata")).
Proof.
  destruct (enrich_needs_metadata [[(py "file_type", VStr (py "Word"))]]
              (VRef 0) (VStr (py "A")) VNone VNone) as (_ & _ & Hkey).
  exact (Hkey 0%nat [(py "file_type", VStr (py "Word"))] eq_refl eq_refl
           eq_refl eq_refl).
Defined.

Lemma enrich_optional h data m d (author date source : option pystr) :
  getitem h data (py "metadata") = Ok (VRef m) →
  h !! m = Some d →
  enrich_with_metadata h data (opt_arg author) (opt_arg date) (opt_arg source)
  = Ok (<[m := enriched author date source d]> h, data)
  ∧ getitem (<[m := enriched author date source d]> h) data (py "metadata")
    = Ok (VRef m)
  ∧ (<[m := enriched author date source d]> h) !! m
    = Some (enriched author date source d).
Proof.
  intros Hget Hm.
  pose proof (enrich_chain h data m d (opt_arg author) (opt_arg date)
                (opt_arg source) Hget Hm) as Hchain.
  cbn zeta in Hchain. rewrite !truthy_opt_arg in Hchain.
  rewrite !list_insert_insert_eq in Hchain. exact Hchain.
Qed.

Lemma dict_get_enriched author date source d k :
  dict_get k (enriched author date source d)
  = if supplied source && bool_decide (py "source" = k)
    then Some (opt_arg source)
    else if supplied date && bool_decide (py "date" = k)
         then Some (opt_arg date)
         else if supplied author && bool_decide (py "author" = k)
              then Some (opt_arg author)
              else dict_get k d.
Proof. unfold enriched. by rewrite !dict_get_assign_if. Qed.

Lemma dict_set_same {V} k (v : V) d :
  dict_get k d = Some v → dict_set k v d = d.
Proof.
  induction d as [|[k' v'] d IH]; cbn [dict_get dict_set]; [done|].
  case_bool_decide as Hk.
  - intros [= ->]. by rewrite Hk.
  - intros Hget. by rewrite IH.
Qed.

Lemma enriched_again author date source d :
  enriched author date source (enriched author date source d)
  = enriched author date source d.
Proof.
  destruct metadata_keys_distinct as (_ & _ & _ & Had & Has & Hds).
  set (d3 := enriched author date source d).
  assert (Hstep : ∀ b k x (d' : dict),
            (b = true → dict_get k d' = Some x) → assign_if b k x d' = d').
  { intros [] k x d' Hd'; [|done]. by apply dict_set_same, Hd'. }
  unfold enriched at 1.
  rewrite (Hstep (supplied author) _ _ d3), (Hstep (supplied date) _ _ d3),
    (Hstep (supplied source) _ _ d3); [done|..].
  - intros Hs. unfold d3. rewrite dict_get_enriched, Hs.
    by rewrite bool_decide_eq_true_2.
  - intros Hd. unfold d3. rewrite dict_get_enriched, Hd.
    rewrite (bool_decide_eq_false_2 (py "source" = py "date")) by congruence.
    rewrite andb_false_r. by rewrite bool_decide_eq_true_2.
  - intros Ha. unfold d3. rewrite dict_get_enriched, Ha.
    rewrite (bool_decide_eq_false_2 (py "source" = py "author")) by congruence.
    rewrite (bool_decide_eq_false_2 (py "date" = py "author")) by congruence.
    rewrite !andb_false_r. by rewrite bool_decide_eq_true_2.
Qed.

(** X13.  Two calls of [enrich_with_metadata] on a record, with optional
    string arguments: under every key the metadata ends up with what
    one call would give with, for each field, the later argument when
    it is supplied and the earlier one otherwise; and repeating a call
    with the same arguments changes nothing at all. *)
Theorem enrich_later_call_wins h data m d
    (a1 d1 s1 a2 d2 s2 : option pystr) :
  getitem h data (py "metadata") = Ok (VRef m) →
  h !! m = Some d →
  ∃ h1 h2 h12 md2 md12,
    enrich_with_metadata h data (opt_arg a1) (opt_arg d1) (opt_arg s1)
    = Ok (h1, data)
    ∧ enrich_with_metadata h1 data (opt_arg a2) (opt_arg d2) (opt_arg s2)
      = Ok (h2, data)
    ∧ enrich_with_metadata h data (opt_arg (later a2 a1))
        (opt_arg (later d2 d1)) (opt_arg (later s2 s1))
      = Ok (h12, data)
    ∧ h2 !! m = Some md2
    ∧ h12 !! m = Some md12
    ∧ (∀ k, dict_get k md2 = dict_get k md12)
    ∧ (a2 = a1 → d2 = d1 → s2 = s1 → h2 = h1).
Proof.
  intros Hget Hm.
  destruct (enrich_optional h data m d a1 d1 s1 Hget Hm) as (E1 & G1 & M1).
  destruct (enrich_optional _ data m _ a2 d2 s2 G1 M1) as (E2 & _ & M2).
  destruct (enrich_optional h data m d (later a2 a1) (later d2 d1)
              (later s2 s1) Hget Hm) as (E12 & _ & M12).
  eexists _, _, _, _, _.
  split_and!; [exact E1|exact E2|exact E12|exact M2|exact M12| |].
  - intros k. rewrite !dict_get_enriched. unfold later.
    destruct metadata_keys_distinct as (_ & _ & _ & Had & Has & Hds).
    destruct (supplied a2) eqn:Ha2, (supplied d2) eqn:Hd2,
      (supplied s2) eqn:Hs2;
      rewrite ?Ha2, ?Hd2, ?Hs2; cbn [andb];
      repeat case_bool_decide; cbn [andb];
      repeat match goal with
      | |- context [supplied ?o] => destruct (supplied o)
      end; first [reflexivity | exfalso; congruence].
  - intros -> -> ->. rewrite list_insert_insert_eq. by rewrite enriched_again.
Qed.

Lemma enrich_later_call_wins_witness :
  ∃ h1 h2 h12 md2 md12,
    enrich_with_metadata demo_heap (VRef 1)
      (opt_arg (Some (py "A"))) (opt_arg None) (opt_arg (Some (py "s.docx")))
    = Ok (h1, VRef 1)
    ∧ enrich_with_metadata h1 (VRef 1)
        (opt_arg (Some (py "B"))) (opt_arg (Some (py "2024"))) (opt_arg (Some []))
      = Ok (h2, VRef 1)
    ∧ enrich_with_metadata demo_heap (VRef 1)
        (opt_arg (Some (py "B"))) (opt_arg (Some (py "2024")))
        (opt_arg (Some (py "s.docx")))
      = Ok (h12, VRef 1)
    ∧ h2 !! 0%nat = Some md2
    ∧ h12 !! 0%nat = Some md12
    ∧ (∀ k, dict_get k md2 = dict_get k md12).
Proof.
  destruct (enrich_later_call_wins demo_heap (VRef 1) 0
              (default_metadata (py "docs/b.docx"))
              (Some (py "A")) None (Some (py "s.docx"))
              (Some (py "B")) (Some (py "2024")) (Some []) eq_refl eq_refl)
    as (h1 & h2 & h12 & md2 & md12 & E1 & E2 & E12 & M2 & M12 & Hk & _).
  by exists h1, h2, h12, md2, md12.
Defined.

(** X14.  Two documents processed one after the other give records
    that share nothing: enriching the second, with any values, leaves
    the first record with its type, its content and its default
    metadata. *)
Theorem records_are_independent L h p1 p2 h1 r1 h2 r2 author date source :
  preprocess_document L h p1 = Ok (h1, r1) →
  preprocess_document L h1 p2 = Ok (h2, r2) →
  ∃ h3 m1,
    enrich_with_metadata h2 r2 author date source = Ok (h3, r2)
    ∧ getitem h3 r1 (py "metadata") = Ok (VRef m1)
    ∧ h3 !! m1 = Some (default_metadata p1)
    ∧ getitem h3 r1 (py "file_type") = getitem h1 r1 (py "file_type")
    ∧ getitem h3 r1 (py "content") = getitem h1 r1 (py "content").
Proof.
  intros H1 H2.
  destruct (preprocess_document_ok_inv L h p1 h1 r1 H1)
    as (f1 & t1 & _ & _ & Hb1).
  destruct (preprocess_document_ok_inv L h1 p2 h2 r2 H2)
    as (f2 & t2 & _ & _ & Hb2).
  pose proof (built_record_lookup h p1 f1 t1) as [Lr1 Lm1].
  pose proof (built_record_lookup h1 p2 f2 t2) as [Lr2 Lm2].
  pose proof (built_record_fields h1 p2 f2 t2) as (_ & _ & G2).
  rewrite <- Hb1 in Lr1, Lm1. rewrite <- Hb2 in Lr2, Lm2, G2.
  cbn [fst snd] in *.
  assert (Hlen1 : length h1 = S (S (length h))).
  { injection Hb1 as -> _. rewrite !length_app. simpl. lia. }
  assert (Hr1 : r1 = VRef (S (length h))) by (by injection Hb1).
  assert (Hh2 : ∀ l, (l < length h1)%nat → h2 !! l = h1 !! l).
  { intros l Hl. injection Hb2 as -> _. by rewrite lookup_app_l. }
  destruct (enrich_chain h2 r2 (length h1) _ author date source G2 Lm2)
    as (Hok & _). cbn zeta in Hok.
  eexists _, (length h). split; [exact Hok|].
  pose proof (enrich_frame h2 r2 (length h1) _ author date source _ _
                G2 Lm2 Hok) as Hframe.
  subst r1. cbn [getitem].
  rewrite !Hframe, !Hh2 by lia. rewrite Lr1, Lm1.
  split_and!; reflexivity.
Qed.

Lemma records_are_independent_witness :
  ∃ h3 m1,
    enrich_with_metadata
      (built_record (built_record [] (py "docs/a.pdf") PDF (py "Hello world")).1
         (py "docs/b.docx") Word (py "Hello World")).1
      (VRef 3) (VStr (py "A")) VNone VNone = Ok (h3, VRef 3)
    ∧ getitem h3 (VRef 1) (py "metadata") = Ok (VRef m1)
    ∧ h3 !! m1 = Some (default_metadata (py "docs/a.pdf")).
Proof.
  destruct (records_are_independent demo_library [] (py "docs/a.pdf")
              (py "docs/b.docx")
              (built_record [] (py "docs/a.pdf") PDF (py "Hello world")).1
              (VRef 1)
              (built_record
                 (built_record [] (py "docs/a.pdf") PDF (py "Hello world")).1
                 (py "docs/b.docx") Word (py "Hello World")).1
              (VRef 3) (VStr (py "A")) VNone VNone eq_refl eq_refl)
    as (h3 & m1 & E & G & M & _).
  by exists h3, m1.
Defined.

(** X15.  [json.dump], as the driver calls it, on any value that holds
    no dictionary inside itself: when every character can be encoded it
    writes the whole text, and whatever it writes without raising is
    read back by [json.loads] as the same value, nested dictionaries
    and [None] included; a character that cannot be encoded makes it
    raise [UnicodeEncodeError]. *)
Theorem json_dump_then_loads h v t :
  reads h [] v t →
  json_wf t →
  (∀ text, json_dump h v = (text, None) → json_loads text = Ok t)
  ∧ (json_encodable t = true → json_dump h v = (encode_tree 0 t, None))
  ∧ (json_encodable t = false →
     ∃ w, json_dump h v = (w, Some UnicodeEncodeError)).
Proof.
  intros Hr Hwf. pose proof (json_dump_reads h v t Hr) as Hdump.
  destruct (json_encodable t).
  - split_and!; [|done|done]. intros text Htext.
    assert (text = encode_tree 0 t) as -> by congruence.
    by apply json_loads_encode_tree.
  - split_and!; [|done|done]. intros text Htext.
    destruct Hdump as [w Hw]. rewrite Hw in Htext. discriminate Htext.
Qed.

Lemma json_dump_then_loads_witness :
  json_loads
    (json_dump [[(py "tags", VRef 1); (py "note", VNone)];
                [(py "lang", VStr (py "en")); (py "extra", VRef 2)]; []]
               (VRef 0)).1
  = Ok (JObj [(py "tags",
               JObj [(py "lang", JStr (py "en")); (py "extra", JObj [])]);
              (py "note", JNull)]).
Proof.
  refine (proj1 (json_dump_then_loads
                   [[(py "tags", VRef 1); (py "note", VNone)];
                    [(py "lang", VStr (py "en")); (py "extra", VRef 2)]; []]
                   (VRef 0) _ _ _) _ eq_refl).
  - eapply reads_dict; [reflexivity|done|apply not_elem_of_nil|].
    repeat constructor; cbn [fst snd].
    eapply reads_dict;
      [reflexivity|done|rewrite elem_of_cons, elem_of_nil; lia|].
    repeat constructor.
  - cbn [json_wf all_values]. repeat split;
      apply (bool_decide_unpack _); vm_compute; exact I.
Defined.

(** ** The script entry point *)

Lemma no_documents_not_in_success processed :
  Line no_documents_line ∉ success_lines processed.
Proof.
  unfold success_lines. rewrite not_elem_of_cons. split.
  - intros H. injection H as H. vm_compute in H. discriminate H.
  - intros H. apply list_elem_of_fmap in H as (name & H & _).
    injection H as H. vm_compute in H. discriminate H.
Qed.

Lemma no_documents_not_printed_before (log : list log_line) :
  Line no_documents_line ∉ banner ++ map Driver log.
Proof.
  rewrite not_elem_of_app. split.
  - unfold banner. rewrite !not_elem_of_cons. split_and!;
      try (intros H; injection H as H; vm_compute in H; discriminate H).
    apply not_elem_of_nil.
  - intros H. apply list_elem_of_fmap in H as (l & H & _). discriminate H.
Qed.

(** X16.  The script, run where the output folder can be made and the
    current folder listed, ends normally and prints the banner, the
    lines of [process_folder], and then either the count and the names
    of the files processed or the help text.  The help text, with its
    "No supported documents found", is printed exactly when no file
    went through, which includes a folder whose supported documents
    all failed. *)
Theorem main_summary L F files entries :
  mkdir_exist_ok F (py "output") = Ok tt →
  iterdir F (py ".") = Ok entries →
  let names :=
    map entry_name (List.filter (processed L F (py ".") (py "output")) entries) in
  (∃ files',
     main L F files
     = (banner
          ++ map Driver (flat_map (entry_log L F (py ".") (py "output")) entries)
          ++ (match names with
              | [] => help_lines
              | _ :: _ => success_lines names
              end),
        files', None))
  ∧ (Line no_documents_line ∈ (main L F files).1.1 ↔ names = [])
  ∧ (names = [] →
     Forall (fun e => selected e = true →
                      file_error L F (py ".") (py "output") (entry_name e)
                      ≠ None) entries).
Proof.
  intros Hmk Hls names.
  destruct (process_entries_spec L F (py ".") (py "output") entries
              {| st_heap := []; st_files := files; st_log := [] |} [])
    as (st' & Hfold & Hlog & _).
  cbn [app st_log] in Hfold, Hlog. fold names in Hfold.
  assert (Hmain : main L F files
    = (banner
         ++ map Driver (flat_map (entry_log L F (py ".") (py "output")) entries)
         ++ (match names with
             | [] => help_lines
             | _ :: _ => success_lines names
             end),
       st_files st', None)).
  { unfold main, process_folder. rewrite Hmk, Hls, Hfold, Hlog. reflexivity. }
  split_and!.
  - by exists (st_files st').
  - rewrite Hmain. cbn [fst]. rewrite app_assoc, elem_of_app. split.
    + intros [Hin|Hin].
      * by apply no_documents_not_printed_before in Hin.
      * destruct names as [|n names']; [done|].
        by apply no_documents_not_in_success in Hin.
    + intros ->. right. apply elem_of_cons. by left.
  - intros Hnone. apply Forall_forall. intros e He Hsel Herr.
    apply file_error_ok in Herr.
    assert (Hin : entry_name e ∈ names).
    { apply (list_elem_of_fmap_2 entry_name).
      apply list_elem_of_In, filter_In. split; [by apply list_elem_of_In|].
      unfold processed. by rewrite Hsel, Herr. }
    rewrite Hnone in Hin. by apply elem_of_nil in Hin.
Qed.

Lemma main_summary_witness :
  ∃ files',
    main demo_library broken_filesystem []
    = (banner
         ++ [Driver (LogProcessing (py "broken.pdf"));
             Driver (LogError (py "broken.pdf")
                       (OSError (py "No such file or directory")))]
         ++ help_lines,
       files', None).
Proof.
  destruct (main_summary demo_library broken_filesystem []
              [ {| entry_name := py "broken.pdf"; entry_is_file := true |} ]
              eq_refl eq_refl) as (Hrun & _).
  exact Hrun.
Defined.

(** ** [json.dumps] with [ensure_ascii] *)

Lemma hex_digit_plain x : x < 16 → plain_ascii (hex_digit x) = true.
Proof.
  intros Hx. unfold plain_ascii, in_range, hex_digit.
  apply orb_true_iff. left.
  destruct (x <? 10) eqn:E; bool_facts;
    apply andb_true_iff; split; apply N.leb_le; lia.
Qed.

Lemma hex4_digits n :
  n < 65536 →
  n / 4096 < 16 ∧ n / 256 mod 16 < 16 ∧ n / 16 mod 16 < 16 ∧ n mod 16 < 16.
Proof.
  intros Hn. repeat split; try (apply N.mod_lt; lia).
  apply N.Div0.div_lt_upper_bound. lia.
Qed.

Lemma hex4_plain n : n < 65536 → forallb plain_ascii (hex4 n) = true.
Proof.
  intros Hn. destruct (hex4_digits n Hn) as (Ha & Hb & Hc & Hd).
  unfold hex4. cbn [forallb].
  by rewrite !hex_digit_plain.
Qed.

Lemma hex4_decode n :
  n < 65536 →
  decode_uXXXX (hex_digit (n / 4096)) (hex_digit (n / 256 mod 16))
               (hex_digit (n / 16 mod 16)) (hex_digit (n mod 16)) = Some n.
Proof.
  intros Hn. destruct (hex4_digits n Hn) as (Ha & Hb & Hc & Hd).
  unfold decode_uXXXX. rewrite !hex_val_digit by done. f_equal.
  pose proof (N.Div0.div_mod n 16) as H1.
  pose proof (N.Div0.div_mod (n / 16) 16) as H2.
  pose proof (N.Div0.div_mod (n / 256) 16) as H3.
  replace (n / 256) with (n / 16 / 16) in *
    by (rewrite N.Div0.div_div; reflexivity).
  replace (n / 4096) with (n / 16 / 16 / 16)
    by (rewrite !N.Div0.div_div; reflexivity).
  lia.
Qed.

Lemma lor_low k x : x < 1024 → N.lor (k * 1024) x = k * 1024 + x.
Proof.
  intros Hx.
  assert (Hand : N.land (k * 1024) x = 0).
  { apply N.bits_inj. intros i. rewrite N.land_spec, N.bits_0.
    destruct (N.lt_ge_cases i 10) as [Hi|Hi].
    - change 1024 with (2 ^ 10). by rewrite N.mul_pow2_bits_low.
    - rewrite <- (N.mod_small x (2 ^ 10)) by exact Hx.
      rewrite N.mod_pow2_bits_high by exact Hi. apply andb_false_r. }
  by rewrite <- N.lxor_lor, <- N.add_nocarry_lxor.
Qed.

Lemma land_low n : N.land n 1023 = n mod 1024.
Proof. change 1023 with (N.ones 10). by rewrite N.land_ones. Qed.

(** The two halves of a character above the basic plane. *)
Lemma surrogate_pair c :
  65536 ≤ c →
  N.lor 55296 (N.land (N.shiftr (c - 65536) 10) 1023)
  = 55296 + (c - 65536) / 1024 mod 1024
  ∧ N.lor 56320 (N.land (c - 65536) 1023) = 56320 + (c - 65536) mod 1024.
Proof.
  intros Hc. rewrite !land_low, N.shiftr_div_pow2.
  change (2 ^ 10) with 1024.
  change 55296 with (54 * 1024) at 1. change 56320 with (55 * 1024) at 1.
  rewrite !lor_low by (apply N.mod_lt; lia). done.
Qed.

Lemma escape_char_ascii_plain c :
  forallb plain_ascii (escape_char_ascii c) = true.
Proof.
  unfold escape_char_ascii.
  repeat match goal with
  | |- context [N.eqb c ?n] => destruct (N.eqb_spec c n) as [->|?]; [reflexivity|]
  end.
  destruct (in_range 32 126 c) eqn:Hr.
  { cbn [forallb]. unfold plain_ascii. by rewrite Hr. }
  destruct (N.ltb_spec c 65536) as [Hlt|Hge].
  - cbn [forallb]. by rewrite hex4_plain.
  - destruct (surrogate_pair c Hge) as [-> ->].
    pose proof (N.mod_lt ((c - 65536) / 1024) 1024).
    pose proof (N.mod_lt (c - 65536) 1024).
    cbn zeta. cbn [forallb]. rewrite forallb_app. cbn [forallb].
    rewrite !hex4_plain by lia. reflexivity.
Qed.

Lemma encode_basestring_ascii_plain s :
  forallb plain_ascii (encode_basestring_ascii s) = true.
Proof.
  unfold encode_basestring_ascii. cbn [forallb].
  rewrite forallb_app. cbn [forallb].
  replace (forallb plain_ascii (flat_map escape_char_ascii s)) with true;
    [reflexivity|].
  symmetry. induction s as [|c s IH]; [done|].
  cbn [flat_map]. by rewrite forallb_app, escape_char_ascii_plain.
Qed.

Lemma scanstring_escape_ascii s rest :
  forallb scalar_value s = true →
  scanstring (flat_map escape_char_ascii s ++ 34 :: rest) = Ok (s, rest).
Proof.
  induction s as [|c s IH]; [reflexivity|].
  cbn [forallb]. intros [Hc Hs]%andb_true_iff. specialize (IH Hs).
  apply andb_true_iff in Hc as [Hmax Henc]. apply N.ltb_lt in Hmax.
  unfold encodable, in_range in Henc. apply negb_true_iff in Henc.
  cbn [flat_map]. rewrite <- app_assoc. unfold escape_char_ascii at 1.
  destruct (N.eqb_spec c 34) as [->|H34]; [simpl; by rewrite IH|].
  destruct (N.eqb_spec c 92) as [->|H92]; [simpl; by rewrite IH|].
  destruct (in_range 32 126 c) eqn:Hr.
  { unfold in_range in Hr. bool_facts. cbn [app scanstring].
    replace (c =? 34) with false by (symmetry; by apply N.eqb_neq).
    replace (c =? 92) with false by (symmetry; by apply N.eqb_neq).
    replace (c <? 32) with false by (symmetry; apply N.ltb_ge; lia).
    by rewrite IH. }
  destruct (N.eqb_spec c 8) as [->|H8]; [simpl; by rewrite IH|].
  destruct (N.eqb_spec c 12) as [->|H12]; [simpl; by rewrite IH|].
  destruct (N.eqb_spec c 10) as [->|H10]; [simpl; by rewrite IH|].
  destruct (N.eqb_spec c 13) as [->|H13]; [simpl; by rewrite IH|].
  destruct (N.eqb_spec c 9) as [->|H9]; [simpl; by rewrite IH|].
  destruct (N.ltb_spec c 65536) as [Hlt|Hge].
  - unfold hex4. cbn [app scanstring]. change (92 =? 34) with false.
    change (92 =? 92) with true. change (117 =? 117) with true. cbv iota.
    rewrite (hex4_decode c Hlt).
    replace (in_range 55296 56319 c) with false.
    + by rewrite IH.
    + symmetry. unfold in_range.
      apply andb_false_iff in Henc as [H|H]; apply N.leb_gt in H;
        apply andb_false_iff; [left|right]; apply N.leb_gt; lia.
  - destruct (surrogate_pair c Hge) as [-> ->].
    set (n := c - 65536).
    assert (Hn : n < 1048576) by (unfold n; lia).
    assert (Hq : n / 1024 mod 1024 = n / 1024).
    { apply N.mod_small, N.Div0.div_lt_upper_bound. lia. }
    assert (Hm : n mod 1024 < 1024) by (apply N.mod_lt; lia).
    assert (Hd : n / 1024 < 1024) by (apply N.Div0.div_lt_upper_bound; lia).
    pose proof (N.Div0.div_mod n 1024) as Hdm.
    rewrite Hq. clear Hq.
    set (q := n / 1024) in *. set (r := n mod 1024) in *. clearbody q r.
    cbn zeta. unfold hex4. rewrite <- app_comm_cons.
    cbn [app scanstring]. change (92 =? 34) with false.
    change (92 =? 92) with true. change (117 =? 117) with true. cbv iota.
    rewrite (hex4_decode (55296 + q)) by lia.
    replace (in_range 55296 56319 (55296 + q)) with true
      by (symmetry; unfold in_range; apply andb_true_iff;
          split; apply N.leb_le; lia).
    rewrite (hex4_decode (56320 + r)) by lia.
    replace (in_range 56320 57343 (56320 + r)) with true
      by (symmetry; unfold in_range; apply andb_true_iff;
          split; apply N.leb_le; lia).
    rewrite IH. cbn [push bind]. do 2 f_equal. f_equal. unfold n in *. lia.
Qed.

(** ** Reading back a text written with any indent and escaping *)

Section ReadBack.
Variable esc : N → pystr.
Variable good : N → bool.
Variable indent : nat.
Hypothesis scanstring_esc : ∀ s rest,
  forallb good s = true →
  scanstring (flat_map esc s ++ 34 :: rest) = Ok (s, rest).

Lemma skip_ws_indent_by level c r :
  is_json_ws c = false →
  skip_ws (newline_indent_by indent level ++ c :: r) = c :: r.
Proof.
  intros Hc. unfold newline_indent_by. cbn [app skip_ws drop_while].
  change (is_json_ws newline) with true. cbv iota.
  fold (skip_ws (repeat 32 (indent * level) ++ c :: r)).
  rewrite skip_ws_spaces. unfold skip_ws. cbn [drop_while]. by rewrite Hc.
Qed.

Lemma skip_ws_encode_tree_with level t rest :
  skip_ws (encode_tree_with (quoted esc) indent level t ++ rest)
  = encode_tree_with (quoted esc) indent level t ++ rest.
Proof.
  assert (∃ c r, encode_tree_with (quoted esc) indent level t = c :: r
                 ∧ is_json_ws c = false) as (c & r & -> & Hc)
    by (destruct t as [|s|[|[k v] ms]]; simpl; eauto).
  unfold skip_ws. cbn [app drop_while]. by rewrite Hc.
Qed.

Lemma quoted_app s x :
  quoted esc s ++ x = 34 :: flat_map esc s ++ 34 :: x.
Proof. unfold quoted. by rewrite <- app_comm_cons, <- app_assoc. Qed.

Lemma object_text_with level k v ms rest :
  encode_tree_with (quoted esc) indent level (JObj ((k, v) :: ms)) ++ rest
  = 123 :: newline_indent_by indent (S level)
    ++ 34 :: members_text_with esc indent level k v ms rest.
Proof.
  unfold members_text_with. cbn [encode_tree_with encode_members_with].
  change (py "{") with [123]. change (py "}") with [125].
  rewrite <- !app_assoc, <- !app_comm_cons. cbn [app].
  by rewrite quoted_app.
Qed.

Lemma next_member_text_with level k v ms rest :
  encode_members_with (quoted esc)
    (encode_tree_with (quoted esc) indent (S level))
    (44 :: newline_indent_by indent (S level)) ((k, v) :: ms) false
  ++ newline_indent_by indent level ++ 125 :: rest
  = 44 :: newline_indent_by indent (S level)
    ++ 34 :: members_text_with esc indent level k v ms rest.
Proof.
  unfold members_text_with. cbn [encode_members_with].
  rewrite <- !app_assoc, <- !app_comm_cons.
  by rewrite quoted_app.
Qed.

Lemma scan_read_back fuel :
  (∀ t level rest, json_wf t → json_chars good t = true →
     (size t ≤ fuel)%nat →
     scan_once fuel (encode_tree_with (quoted esc) indent level t ++ rest)
     = Ok (t, rest))
  ∧ (∀ k v ms level rest,
       all_values json_wf ((k, v) :: ms) →
       all_strings good (json_chars good) ((k, v) :: ms) = true →
       (sum_values size ((k, v) :: ms) ≤ fuel)%nat →
       scan_members fuel (members_text_with esc indent level k v ms rest)
       = Ok ((k, v) :: ms, rest)).
Proof.
  induction fuel as [|f [IHv IHm]].
  - split.
    + intros t ? ? _ _ Hsz. destruct t as [| |[|[??]?]]; simpl in Hsz; lia.
    + intros ????? _ _ Hsz. simpl in Hsz. lia.
  - split.
    + intros t level rest Hwf Hgood Hsz.
      destruct t as [|s|[|[k v] ms]].
      * reflexivity.
      * cbn [encode_tree_with]. rewrite quoted_app. cbn [scan_once].
        change (34 =? 34) with true. cbv iota.
        by rewrite scanstring_esc.
      * reflexivity.
      * destruct Hwf as [Hnd Hall]. simpl in Hsz.
        rewrite object_text_with. cbn [scan_once].
        change (123 =? 34) with false. change (123 =? 123) with true.
        cbv iota. rewrite skip_ws_indent_by by reflexivity.
        change (34 =? 125) with false. change (34 =? 34) with true.
        cbv iota. rewrite IHm by (done || simpl; lia).
        cbn [bind]. by rewrite dict_of_pairs_nodup.
    + intros k v ms level rest [Hv Hms] Hgood Hsz. simpl in Hsz.
      cbn [all_strings] in Hgood.
      apply andb_true_iff in Hgood as [[Hk Hgv]%andb_true_iff Hgms].
      unfold members_text_with. cbn [scan_members].
      rewrite scanstring_esc by exact Hk. cbn [bind].
      change (skip_ws (py ": " ++ ?x)) with (58 :: 32 :: x).
      change (58 =? 58) with true. cbv iota.
      change (skip_ws (32 :: ?x)) with (skip_ws x).
      rewrite skip_ws_encode_tree_with, IHv by (done || lia). cbn [bind].
      destruct ms as [|[k2 v2] ms].
      * cbn [encode_members_with app].
        rewrite skip_ws_indent_by by reflexivity.
        change (125 =? 125) with true. cbv iota. reflexivity.
      * rewrite next_member_text_with.
        change (skip_ws (44 :: ?x)) with (44 :: x).
        change (44 =? 125) with false. change (44 =? 44) with true.
        cbv iota. rewrite skip_ws_indent_by by reflexivity.
        change (34 =? 34) with true. cbv iota.
        rewrite IHm by (done || simpl in Hsz |- *; lia). reflexivity.
Qed.

Lemma size_le_length_with t :
  ∀ level,
    (size t ≤ length (encode_tree_with (quoted esc) indent level t))%nat.
Proof.
  induction t as [|s|ms IH] using json_induction; intros level.
  - simpl. lia.
  - unfold encode_tree_with, quoted. simpl. rewrite length_app. simpl. lia.
  - destruct ms as [|[k v] ms]; [simpl; lia|].
    assert (Hms : ∀ first sep,
      (sum_values size ((k, v) :: ms)
       ≤ length (encode_members_with (quoted esc)
                   (encode_tree_with (quoted esc) indent (S level)) sep
                   ((k, v) :: ms) first))%nat).
    { clear -IH. induction ((k, v) :: ms) as [|[k' v'] l IHl]; intros first sep.
      - simpl. lia.
      - destruct IH as [Hv Hl]. cbn [sum_values encode_members_with].
        rewrite !length_app. specialize (IHl Hl false sep).
        specialize (Hv (S level)). unfold quoted at 1.
        simpl length at 2. lia. }
    specialize (Hms true (44 :: newline_indent_by indent (S level))).
    cbn [encode_tree_with size]. rewrite !length_app. simpl length at 1. lia.
Qed.

Lemma json_loads_encode_tree_with t :
  json_wf t → json_chars good t = true →
  json_loads (encode_tree_with (quoted esc) indent 0 t) = Ok t.
Proof.
  intros Hwf Hgood. unfold json_loads.
  rewrite <- (app_nil_r (encode_tree_with (quoted esc) indent 0 t)) at 2.
  rewrite skip_ws_encode_tree_with.
  destruct (scan_read_back
              (S (length (encode_tree_with (quoted esc) indent 0 t))))
    as [Hscan _].
  rewrite Hscan; [reflexivity|done|done|].
  pose proof (size_le_length_with t 0). lia.
Qed.
End ReadBack.

(** ** Walking a value of the store with any encoder and indent *)

Lemma iterencode_dict_items_reads encoder (enc : val → chunks) indent h ms
    level sep d members :
  Forall2 (fun kv kt => kv.1 = kt.1 ∧ reads h ms kv.2 kt.2) d members →
  (∀ v t, reads h ms v t →
     (dict_depth t ≤ max_values dict_depth members)%nat →
     ∃ cs, enc v = (cs, None)
           ∧ concat cs = encode_tree_with encoder indent level t) →
  ∀ first, ∃ cs,
    iterencode_dict_items encoder enc sep d first = (cs, None)
    ∧ concat cs
      = encode_members_with encoder (encode_tree_with encoder indent level)
          sep members first.
Proof.
  induction 1 as [|[k v] [k' t] d members [Hk Hv] _ IH]; intros Henc first.
  - exists []. done.
  - simpl in Hk, Hv. subst k'.
    destruct (Henc v t Hv) as (cs1 & Hcs1 & Hcat1); [simpl; lia|].
    destruct IH with (first := false) as (cs2 & Hcs2 & Hcat2).
    { intros v' t' Hr Hd. apply Henc; [done|]. simpl. lia. }
    exists ((if first then [] else [sep])
            ++ [encoder k; py ": "] ++ cs1 ++ cs2).
    cbn [iterencode_dict_items]. rewrite Hcs1, Hcs2. split.
    + unfold then_. simpl. by rewrite <- app_assoc.
    + cbn [encode_members_with]. rewrite !concat_app, Hcat1, Hcat2.
      destruct first; simpl; rewrite ?app_nil_r, <- ?app_assoc; done.
Qed.

Lemma make_iterencode_reads encoder indent fuel :
  ∀ h ms v t level,
    reads h ms v t → (dict_depth t ≤ fuel)%nat →
    ∃ cs, make_iterencode encoder indent fuel h ms v level = (cs, None)
          ∧ concat cs = encode_tree_with encoder indent level t.
Proof.
  induction fuel as [|f IH]; intros h ms v t level Hr Hd.
  - inversion Hr as [| |? l Hl|? l d members Hl Hne Hfresh Hall]; subst.
    + exists [py "null"]. done.
    + exists [encoder s]. split; [done|]. cbn [concat]. apply app_nil_r.
    + exists [py "{}"]. cbn [make_iterencode]. by rewrite Hl.
    + inversion Hall; subst; [done|]. simpl in Hd. lia.
  - inversion Hr as [| |? l Hl|? l d members Hl Hne Hfresh Hall]; subst.
    + exists [py "null"]. done.
    + exists [encoder s]. split; [done|]. cbn [concat]. apply app_nil_r.
    + exists [py "{}"]. cbn [make_iterencode]. by rewrite Hl.
    + destruct d as [|kv d]; [done|].
      destruct members as [|kt members]; [inversion Hall|].
      cbn [dict_depth] in Hd.
      destruct (iterencode_dict_items_reads encoder
                  (fun v => make_iterencode encoder indent f h (l :: ms) v
                              (S level))
                  indent h (l :: ms) (S level)
                  (44 :: newline_indent_by indent (S level))
                  (kv :: d) (kt :: members) Hall) with (first := true)
        as (cs & Hcs & Hcat).
      { intros v' t' Hr' Hd'. apply IH; [done|lia]. }
      exists ([py "{"; newline_indent_by indent (S level)] ++ cs
              ++ [newline_indent_by indent level; py "}"]).
      cbn [make_iterencode]. rewrite Hl, bool_decide_eq_false_2 by done.
      rewrite Hcs. split.
      * reflexivity.
      * destruct kt as [k' t']. cbn [encode_tree_with].
        rewrite !concat_app, Hcat. simpl. by rewrite app_nil_r.
Qed.

(** [json.dumps] of a value that denotes a tree returns the text of the
    tree, whatever its characters. *)
Lemma json_dumps_reads indent h v t :
  reads h [] v t →
  json_dumps indent h v
  = Ok (encode_tree_with encode_basestring_ascii indent 0 t).
Proof.
  intros Hr.
  destruct (make_iterencode_reads encode_basestring_ascii indent
              (S (length h)) h [] v t 0 Hr) as (cs & Hcs & Hcat).
  { pose proof (reads_depth h t [] v Hr (NoDup_nil_2)) as Hd.
    simpl in Hd. rewrite Nat.add_0_r in Hd.
    etrans; [apply Hd|]; [intros l Hl; by apply elem_of_nil in Hl|lia]. }
  unfold json_dumps. by rewrite Hcs, Hcat.
Qed.

(** The driver's [json.dump] is the same walk, with the encoder that
    leaves characters as they are and an indent of four. *)
Lemma iterencode_is_make_iterencode fuel :
  ∀ h ms v level,
    make_iterencode encode_basestring 4 fuel h ms v level
    = iterencode fuel h ms v level.
Proof.
  assert (Hitems : ∀ enc enc' sep d first,
    (∀ v, enc v = enc' v) →
    iterencode_dict_items encode_basestring enc sep d first
    = iterencode_items enc' sep d first).
  { intros enc enc' sep d. induction d as [|[k v] d IHd]; intros first Henc.
    - reflexivity.
    - cbn [iterencode_dict_items iterencode_items].
      by rewrite Henc, IHd. }
  induction fuel as [|f IH]; intros h ms v level.
  - reflexivity.
  - destruct v as [|s|l]; [reflexivity|reflexivity|].
    cbn [make_iterencode iterencode].
    destruct (h !! l) as [[|kv d]|]; [reflexivity| |reflexivity].
    destruct (bool_decide (l ∈ ms)); [reflexivity|].
    rewrite (Hitems _ (fun v => iterencode f h (l :: ms) v (S level)));
      [reflexivity|]. intros v. apply IH.
Qed.

(** Every chunk is plain ASCII, also when the walk ends in an
    exception. *)
Lemma then_plain (a b : chunks) :
  Forall (fun c => forallb plain_ascii c = true) a.1 →
  Forall (fun c => forallb plain_ascii c = true) b.1 →
  Forall (fun c => forallb plain_ascii c = true) (then_ a b).1.
Proof.
  destruct a as [ca [e|]]; cbn [then_ fst]; [done|].
  intros Ha Hb. by apply Forall_app.
Qed.

Lemma newline_indent_by_plain indent level :
  forallb plain_ascii (newline_indent_by indent level) = true.
Proof.
  unfold newline_indent_by. cbn [forallb].
  change (plain_ascii newline) with true. cbn [andb].
  induction (indent * level)%nat as [|k IH]; [done|exact IH].
Qed.

Lemma iterencode_dict_items_plain (enc : val → chunks) sep d :
  forallb plain_ascii sep = true →
  (∀ v, Forall (fun c => forallb plain_ascii c = true) (enc v).1) →
  ∀ first,
    Forall (fun c => forallb plain_ascii c = true)
      (iterencode_dict_items encode_basestring_ascii enc sep d first).1.
Proof.
  intros Hsep Henc. induction d as [|[k v] d IH]; intros first.
  - constructor.
  - cbn [iterencode_dict_items]. apply then_plain; [|apply then_plain].
    + cbn [fst]. apply Forall_app. split.
      * destruct first; [constructor|by repeat constructor].
      * repeat constructor. apply encode_basestring_ascii_plain.
    + apply Henc.
    + apply IH.
Qed.

Lemma make_iterencode_plain indent fuel :
  ∀ h ms v level,
    Forall (fun c => forallb plain_ascii c = true)
      (make_iterencode encode_basestring_ascii indent fuel h ms v level).1.
Proof.
  induction fuel as [|f IH]; intros h ms v level.
  - destruct v as [|s|l]; cbn [make_iterencode fst].
    + by repeat constructor.
    + repeat constructor. apply encode_basestring_ascii_plain.
    + destruct (h !! l) as [[|kv d]|]; try (by repeat constructor).
      destruct (bool_decide (l ∈ ms)); constructor.
  - destruct v as [|s|l]; cbn [make_iterencode fst].
    + by repeat constructor.
    + repeat constructor. apply encode_basestring_ascii_plain.
    + destruct (h !! l) as [[|kv d]|]; try (by repeat constructor).
      destruct (bool_decide (l ∈ ms)); [constructor|].
      apply then_plain; [|apply then_plain].
      * cbn [fst]. repeat constructor. apply newline_indent_by_plain.
      * apply iterencode_dict_items_plain.
        -- cbn [forallb]. by rewrite newline_indent_by_plain.
        -- intros v. apply IH.
      * cbn [fst]. repeat constructor. apply newline_indent_by_plain.
Qed.

Lemma json_dumps_plain indent h v text :
  json_dumps indent h v = Ok text → forallb plain_ascii text = true.
Proof.
  unfold json_dumps.
  pose proof (make_iterencode_plain indent (S (length h)) h [] v 0) as Hp.
  destruct (make_iterencode _ _ _ _ _ _ _) as [cs [e|]]; [done|].
  intros [= <-]. cbn [fst] in Hp.
  induction Hp as [|c cs Hc _ IH]; [done|].
  cbn [concat]. by rewrite forallb_app, Hc.
Qed.

Lemma json_loads_dumps indent h v t :
  reads h [] v t → json_wf t → json_chars scalar_value t = true →
  ∃ text, json_dumps indent h v = Ok text ∧ json_loads text = Ok t.
Proof.
  intros Hr Hwf Hsc. eexists. split; [by apply json_dumps_reads|].
  change encode_basestring_ascii with (quoted escape_char_ascii).
  by apply (json_loads_encode_tree_with escape_char_ascii scalar_value indent
              scanstring_escape_ascii).
Qed.

(** A high surrogate followed by a low one is written as two escapes,
    which are read back as one character. *)
Example json_dumps_joins_surrogates :
  json_dumps 2 [] (VStr [55357; 56832]) = Ok (pyq "'\ud83d\ude00'")
  ∧ json_loads (pyq "'\ud83d\ude00'") = Ok (JStr [128512]).
Proof. split; reflexivity. Qed.

(** X17.  [json.dumps], as the examples call it, returns nothing but
    printable ASCII characters and the newlines of the indentation,
    whatever the value holds.  On a value that holds no dictionary
    inside itself it always returns, surrogates included, and when every
    character is a Unicode scalar value [json.loads] reads the text back
    as the same value. *)
Theorem json_dumps_then_loads indent h v :
  (∀ text, json_dumps indent h v = Ok text → forallb plain_ascii text = true)
  ∧ (∀ t, reads h [] v t → json_wf t →
       ∃ text, json_dumps indent h v = Ok text
               ∧ (json_chars scalar_value t = true → json_loads text = Ok t)).
Proof.
  split; [apply json_dumps_plain|].
  intros t Hr Hwf. eexists. split; [by apply json_dumps_reads|].
  intros Hsc. destruct (json_loads_dumps indent h v t Hr Hwf Hsc)
    as (text & Htext & Hload).
  rewrite (json_dumps_reads indent h v t Hr) in Htext.
  injection Htext as <-. exact Hload.
Qed.

Lemma json_dumps_then_loads_witness :
  ∃ text,
    json_dumps 2 [[(py "name", VStr [233; 128512]); (py "tags", VRef 1)]; []]
               (VRef 0) = Ok text
    ∧ forallb plain_ascii text = true
    ∧ json_loads text
      = Ok (JObj [(py "name", JStr [233; 128512]); (py "tags", JObj [])]).
Proof.
  destruct (json_dumps_then_loads 2
              [[(py "name", VStr [233; 128512]); (py "tags", VRef 1)]; []]
              (VRef 0)) as [Hplain Hread].
  destruct (Hread (JObj [(py "name", JStr [233; 128512]);
                         (py "tags", JObj [])]))
    as (text & Htext & Hload).
  - eapply reads_dict; [reflexivity|done|apply not_elem_of_nil|].
    repeat constructor.
  - cbn [json_wf all_values]. repeat split;
      apply (bool_decide_unpack _); vm_compute; exact I.
  - exists text. split_and!; [exact Htext|by apply Hplain|by apply Hload].
Defined.

(** ** The usage examples *)

Lemma custom_record_reads h text :
  reads (h ++ [custom_metadata;
               record_dict (VStr (py "Word")) (VStr text) (VRef (length h))])
        [] (VRef (S (length h))) (custom_record_tree text).
Proof.
  apply (reads_record _ (S (length h)) (py "Word") text (length h)
           custom_metadata).
  - rewrite lookup_app_r by lia.
    by replace (S (length h) - length h)%nat with 1%nat by lia.
  - rewrite lookup_app_r by lia. by rewrite Nat.sub_diag.
  - by repeat constructor.
Qed.

Lemma custom_record_wf text : json_wf (custom_record_tree text).
Proof.
  apply (record_wf (py "Word") text custom_metadata).
  apply (bool_decide_unpack _). vm_compute. exact I.
Qed.

Lemma custom_record_chars text :
  forallb scalar_value text = true →
  json_chars scalar_value (custom_record_tree text) = true.
Proof.
  intros Ht. unfold custom_record_tree. cbn [json_chars all_strings].
  rewrite Ht. reflexivity.
Qed.

Lemma record_chars text :
  forallb scalar_value text = true →
  json_chars scalar_value (record_tree sample_document Word text) = true.
Proof.
  intros Ht. unfold record_tree. cbn [json_chars all_strings].
  rewrite Ht. reflexivity.
Qed.

Lemma custom_metadata_run h text :
  enrich_with_metadata
    (h ++ [[]] ++ [record_dict (VStr (py "Word")) (VStr text)
                               (VRef (length h))])
    (VRef (S (length h))) (VStr (py "John Doe")) (VStr (py "2024-02-18"))
    (VStr sample_document)
  = Ok (h ++ [custom_metadata;
              record_dict (VStr (py "Word")) (VStr text) (VRef (length h))],
        VRef (S (length h))).
Proof.
  set (h2 := h ++ [[]] ++ [record_dict (VStr (py "Word")) (VStr text)
                                       (VRef (length h))]).
  assert (Hm : h2 !! length h = Some []).
  { unfold h2. rewrite lookup_app_r by lia. by rewrite Nat.sub_diag. }
  assert (Hget : getitem h2 (VRef (S (length h))) (py "metadata")
                 = Ok (VRef (length h))).
  { unfold h2. cbn [getitem]. rewrite lookup_app_r by lia.
    by replace (S (length h) - length h)%nat with 1%nat by lia. }
  destruct (enrich_optional h2 (VRef (S (length h))) (length h) []
              (Some (py "John Doe")) (Some (py "2024-02-18"))
              (Some sample_document) Hget Hm) as [Hrun _].
  cbn [opt_arg] in Hrun. rewrite Hrun. do 2 f_equal.
  unfold h2. rewrite insert_app_r_alt by lia. rewrite Nat.sub_diag.
  reflexivity.
Qed.

(** X18.  The second example: without the sample document it prints
    that it was not found and builds nothing; an exception of opening
    the document ends it after the two heading lines; otherwise it
    never fails, leaves behind a metadata dictionary with exactly
    author, date and source in that order and the record that refers to
    it, and prints ASCII text that [json.loads] reads back as that
    record when every character of the content is a Unicode scalar
    value. *)
Theorem example_custom_metadata_prints L path_exists h :
  (path_exists sample_document = false →
     example_custom_metadata L path_exists h
     = ([py "Example 2: Using custom metadata"; rule; not_found_line; []],
        Ok h))
  ∧ (path_exists sample_document = true →
     ∀ e, docx_paragraphs L sample_document = Raise e →
       example_custom_metadata L path_exists h
       = ([py "Example 2: Using custom metadata"; rule], Raise e))
  ∧ (path_exists sample_document = true →
     ∀ paragraphs, docx_paragraphs L sample_document = Ok paragraphs →
       ∃ printed,
         example_custom_metadata L path_exists h
         = ([py "Example 2: Using custom metadata"; rule; printed; []],
            Ok (h ++ [custom_metadata;
                      record_dict (VStr (py "Word"))
                        (VStr (strip (join (py " ") paragraphs)))
                        (VRef (length h))]))
         ∧ forallb plain_ascii printed = true
         ∧ (forallb scalar_value (strip (join (py " ") paragraphs)) = true →
            json_loads printed
            = Ok (custom_record_tree (strip (join (py " ") paragraphs))))).
Proof.
  split_and!.
  - intros Hno. unfold example_custom_metadata. by rewrite Hno.
  - intros Hyes e He. unfold example_custom_metadata, extract_text_from_docx.
    by rewrite Hyes, He.
  - intros Hyes paragraphs Hps.
    set (text := strip (join (py " ") paragraphs)).
    pose proof (custom_record_reads h text) as Hr.
    pose proof (json_dumps_reads 2 _ _ _ Hr) as Hdumps.
    eexists. split_and!.
    + unfold example_custom_metadata, extract_text_from_docx.
      rewrite Hyes, Hps. cbn [bind]. fold text.
      unfold normalize_to_json, alloc. cbv beta iota zeta.
      rewrite length_app, Nat.add_1_r.
      change [(py "file_type", VStr (py "Word")); (py "content", VStr text);
              (py "metadata", VRef (length h))]
        with (record_dict (VStr (py "Word")) (VStr text) (VRef (length h))).
      rewrite <- app_assoc.
      rewrite (custom_metadata_run h text), Hdumps. reflexivity.
    + eapply json_dumps_plain. exact Hdumps.
    + intros Hsc.
      destruct (json_loads_dumps 2 _ _ _ Hr (custom_record_wf text)
                  (custom_record_chars text Hsc)) as (printed & Hp & Hload).
      rewrite Hdumps in Hp. injection Hp as <-. exact Hload.
Qed.

Lemma example_custom_metadata_prints_witness :
  ∃ printed,
    example_custom_metadata sample_library (fun _ => true) []
    = ([py "Example 2: Using custom metadata"; rule; printed; []],
       Ok [custom_metadata;
           record_dict (VStr (py "Word"))
             (VStr (py "Title" ++ [32; 233; 128512])) (VRef 0)])
    ∧ forallb plain_ascii printed = true
    ∧ json_loads printed
      = Ok (custom_record_tree (py "Title" ++ [32; 233; 128512])).
Proof.
  destruct (proj2 (proj2 (example_custom_metadata_prints sample_library
                            (fun _ => true) []))
              eq_refl [py " Title"; [233; 128512]] eq_refl)
    as (printed & Hrun & Hplain & Hload).
  exists printed. split_and!; [exact Hrun|exact Hplain|exact (Hload eq_refl)].
Defined.

(** X19.  The first example: without the sample document it prints
    that it was not found and builds nothing; an exception of opening
    the document ends it after the two heading lines; otherwise it
    never fails, leaves behind the record of [preprocess_document], and
    prints ASCII text that [json.loads] reads back as that record, with
    the default author and date and the file's own name as source, when
    every character of the content is a Unicode scalar value. *)
Theorem example_single_document_prints L path_exists h :
  (path_exists sample_document = false →
     example_single_document L path_exists h
     = ([py "Example 1: Processing a single document"; rule;
         not_found_line; []], Ok h))
  ∧ (path_exists sample_document = true →
     ∀ e, docx_paragraphs L sample_document = Raise e →
       example_single_document L path_exists h
       = ([py "Example 1: Processing a single document"; rule], Raise e))
  ∧ (path_exists sample_document = true →
     ∀ paragraphs, docx_paragraphs L sample_document = Ok paragraphs →
       ∃ printed,
         example_single_document L path_exists h
         = ([py "Example 1: Processing a single document"; rule; printed; []],
            Ok (h ++ [default_metadata sample_document;
                      record_dict (VStr (py "Word"))
                        (VStr (strip (join (py " ") paragraphs)))
                        (VRef (length h))]))
         ∧ forallb plain_ascii printed = true
         ∧ (forallb scalar_value (strip (join (py " ") paragraphs)) = true →
            json_loads printed
            = Ok (named_record_tree sample_document Word
                    (strip (join (py " ") paragraphs))))).
Proof.
  assert (Hrun : preprocess_document L h sample_document
                 = let* text := extract_text_from_docx L sample_document in
                   Ok (built_record h sample_document Word text))
    by (by apply (preprocess_document_dispatch L h sample_document Word)).
  split_and!.
  - intros Hno. unfold example_single_document. by rewrite Hno.
  - intros Hyes e He. unfold example_single_document.
    rewrite Hyes, Hrun. unfold extract_text_from_docx. by rewrite He.
  - intros Hyes paragraphs Hps.
    set (text := strip (join (py " ") paragraphs)).
    pose proof (reads_built_record h sample_document Word text) as Hr.
    pose proof (json_dumps_reads 2 _ _ _ Hr) as Hdumps.
    eexists. split_and!.
    + unfold example_single_document.
      rewrite Hyes, Hrun. unfold extract_text_from_docx.
      rewrite Hps. cbn [bind]. fold text.
      destruct (built_record h sample_document Word text) as [h1 r] eqn:Hb.
      cbn [fst snd] in Hdumps. rewrite Hdumps.
      unfold built_record in Hb. injection Hb as <- <-. reflexivity.
    + eapply json_dumps_plain. exact Hdumps.
    + intros Hsc.
      destruct (json_loads_dumps 2 _ _ _ Hr
                  (record_tree_wf sample_document Word text)
                  (record_chars text Hsc)) as (printed & Hp & Hload).
      rewrite Hdumps in Hp. injection Hp as <-. exact Hload.
Qed.

Lemma example_single_document_prints_witness :
  ∃ printed,
    example_single_document sample_library (fun _ => true) []
    = ([py "Example 1: Processing a single document"; rule; printed; []],
       Ok [default_metadata sample_document;
           record_dict (VStr (py "Word"))
             (VStr (py "Title" ++ [32; 233; 128512])) (VRef 0)])
    ∧ forallb plain_ascii printed = true
    ∧ json_loads printed
      = Ok (named_record_tree sample_document Word
              (py "Title" ++ [32; 233; 128512])).
Proof.
  destruct (proj2 (proj2 (example_single_document_prints sample_library
                            (fun _ => true) []))
              eq_refl [py " Title"; [233; 128512]] eq_refl)
    as (printed & Hrun & Hplain & Hload).
  exists printed. split_and!; [exact Hrun|exact Hplain|exact (Hload eq_refl)].
Defined.
